(** * Penguin Statistics backend: cache set and drop-matrix service

    A shallow embedding of [internal/pkg/cache/set.go] and of the
    drop-matrix service in [internal/controller/v3/item.go]
    (package [service]), with the properties of its specification.

    Conventions.
    - Go's [int] and [int64] are [Z]; additions wrap to 64 bits
      ([wrap_int]).
    - [time.Time] is an instant in nanoseconds since the Unix epoch ([Z]).
    - A Go [map] is a [gmap], a hash set ([map[K]struct{}]) a [gset].
      Go leaves the iteration order of a map unspecified; the embedding
      iterates in the order of [map_to_list] / [elements], and the
      general properties below are stated with membership and counting,
      so that they do not depend on that order.
    - A function of these sources that returns [(T, error)] returns a
      [result T]; a run-time panic (index out of range, nil dereference)
      is the third outcome [Panic].
    - The repositories behind the service (drop reports, drop infos, time
      ranges, stages, items) are not part of these sources: they are the
      [Variable]s of the sections below, and return a value or an error
      ([T + error]). *)

From Stdlib Require Import ZArith Lia Ascii String.
From stdpp Require Import gmap strings list fin_maps.

Local Open Scope Z_scope.

(** ** Errors and results *)

Inductive error : Type :=
  | ErrNotFound
  | ErrMsg (msg : string).

Inductive result (A : Type) : Type :=
  | Ok (a : A)
  | Err (e : error)
  | Panic.
Arguments Ok {A} a.
Arguments Err {A} e.
Arguments Panic {A}.

Definition bind {A B : Type} (r : result A) (k : A → result B) : result B :=
  match r with
  | Ok a => k a
  | Err e => Err e
  | Panic => Panic
  end.

(** A call of a function that returns [(T, error)] and does not panic:
    the repositories behind the service are of this kind. *)
Definition call {A : Type} (r : A + error) : result A :=
  match r with
  | inl a => Ok a
  | inr e => Err e
  end.

Notation "'do' x <- r ; k" := (bind r (λ x, k))
  (at level 10, x name, r at level 100, k at level 200,
   format "'[v' 'do'  x  <-  r ; '/' k ']'").

(** ** Machine integers *)

Definition int_bits : Z := 64.

(** Two's complement wrap-around of Go's [int] on a 64-bit platform. *)
Definition wrap_int (x : Z) : Z :=
  (x + 2 ^ (int_bits - 1)) mod 2 ^ int_bits - 2 ^ (int_bits - 1).

Definition int_add (x y : Z) : Z := wrap_int (x + y).

Definition int_range (x : Z) : Prop := - 2 ^ 63 ≤ x < 2 ^ 63.

Definition sumZ (l : list Z) : Z := foldr Z.add 0 l.

(** * The cache set ([internal/pkg/cache/set.go]) *)

Module Cache.

Section CacheSet.
(** Cached values ([interface{}]).  The reflective copy into [dest] is
    the identity on values. *)
Context {V : Type}.

(** [type Set struct]: the mutex (held or not), the prefix and the
    go-cache store, each entry with the expiration it was stored with. *)
Record CSet : Type := MkSet {
  m : bool;
  prefix : string;
  c : gmap string (V * Z)
}.

(** Entries of the error log written by [slowMutexGetSet]. *)
Inductive LogEntry : Type :=
  | LogError (key : string) (err : error) (msg : string).

(** What a call sees and leaves behind: the set, the error log, and a
    counter of the invocations of producers ([valueFunc]). *)
Record World : Type := MkWorld {
  cset : CSet;
  log : list LogEntry;
  produced : nat
}.

Definition NewSet (pfx : string) : CSet :=
  {| m := false; prefix := pfx +:+ ":"; c := ∅ |}.

Definition key (s : CSet) (k : string) : string := prefix s +:+ k.

(** [Get]: [Ok v] is a nil error with [v] copied to [dest]. *)
Definition Get (s : CSet) (k : string) : result V :=
  match c s !! key s k with
  | None => Err ErrNotFound
  | Some (v, _) => Ok v
  end.

(** [Set]: the returned error and the set afterwards. *)
Definition Set_ (k : string) (value : V) (expire : Z) (s : CSet)
  : option error * CSet :=
  (None, {| m := m s; prefix := prefix s;
            c := <[key s k := (value, expire)]> (c s) |}).

Definition Delete (k : string) (s : CSet) : option error * CSet :=
  (None, {| m := m s; prefix := prefix s; c := delete (key s k) (c s) |}).

Definition Clear (s : CSet) : option error * CSet :=
  (None, {| m := m s; prefix := prefix s; c := ∅ |}).

(** [c.m.Lock()]: [None] when the mutex is held, the caller blocks. *)
Definition Lock (s : CSet) : option CSet :=
  if m s then None
  else Some {| m := true; prefix := prefix s; c := c s |}.

Definition Unlock (s : CSet) : CSet :=
  {| m := false; prefix := prefix s; c := c s |}.

Definition msg_valueFunc : string :=
  "failed to get value from valueFunc() in MutexGetSet".
Definition msg_set : string :=
  "failed to set value to cache in MutexGetSet".

(** The body of [slowMutexGetSet] between [Lock] and the deferred
    [Unlock]: the returned error, the value written to [dest] (if any),
    and the world afterwards. *)
Definition slowBody (k : string) (valueFunc : unit → V + error)
    (expire : Z) (w : World) : option error * option V * World :=
  match Get (cset w) k with
  | Ok v => (None, Some v, w)
  | _ =>
    let w1 := {| cset := cset w; log := log w;
                 produced := S (produced w) |} in
    match valueFunc tt with
    | inr err =>
      (Some err, None,
       {| cset := cset w1;
          log := log w1 ++ [LogError k err msg_valueFunc];
          produced := produced w1 |})
    | inl value =>
      match Set_ k value expire (cset w1) with
      | (Some err, s') =>
        (Some err, None,
         {| cset := s';
            log := log w1 ++ [LogError k err msg_set];
            produced := produced w1 |})
      | (None, s') =>
        (None, Some value,
         {| cset := s'; log := log w1; produced := produced w1 |})
      end
    end
  end.

Definition slowMutexGetSet (k : string) (valueFunc : unit → V + error)
    (expire : Z) (w : World) : option (option error * option V * World) :=
  match Lock (cset w) with
  | None => None
  | Some s1 =>
    let '(err, dest, w2) :=
      slowBody k valueFunc expire
        {| cset := s1; log := log w; produced := produced w |} in
    Some (err, dest,
          {| cset := Unlock (cset w2); log := log w2;
             produced := produced w2 |})
  end.

(** [MutexGetSet].  Between the unlocked [Get] and [Lock] other
    goroutines may run: [env] is what they do to the set meanwhile (the
    identity in a sequential run). *)
Definition MutexGetSet (env : CSet → CSet) (k : string)
    (valueFunc : unit → V + error) (expire : Z) (w : World)
  : option (bool * option error * option V * World) :=
  match Get (cset w) k with
  | Ok v => Some (false, None, Some v, w)
  | _ =>
    match slowMutexGetSet k valueFunc expire
            {| cset := env (cset w); log := log w;
               produced := produced w |} with
    | None => None
    | Some (err, dest, w') => Some (true, err, dest, w')
    end
  end.

End CacheSet.

Arguments CSet : clear implicits.
Arguments World : clear implicits.

End Cache.

(** * The cache set with its clock and its reflective copy *)

(** [Cache] above takes every stored value to be one that [dest] can
    hold, and lets no entry expire while the calls it describes run.
    This embedding of [set.go] keeps both: the store holds values of
    [interface{}], which the reflective copy into [dest] may refuse with
    a panic, and every item carries the expiration go-cache gives it,
    which [Get] compares with the time of the call.

    go-cache ([cache.Set], [cache.Get]) is not part of these sources; its
    [Set] stores [time.Now().Add(d).UnixNano()] as the expiration of an
    item when the duration [d] is positive (after replacing
    [DefaultExpiration] by the default of the cache, here
    [NoExpiration]) and 0 otherwise, and its [Get] misses an item whose
    expiration is positive and smaller than [time.Now().UnixNano()].  Its
    janitor deletes items that have expired, which no [Get] can tell
    from leaving them.  The times of the calls are arguments. *)

Module TimedCache.

Definition NoExpiration : Z := -1.
Definition DefaultExpiration : Z := 0.

(** The default of a cache made by [cache.New(cache.NoExpiration, _)]. *)
Definition defaultExpiration : Z := NoExpiration.

(** The expiration go-cache's [Set] stores, in Unix nanoseconds; 0 for
    an item that does not expire. *)
Definition expiration (now d : Z) : Z :=
  let d := if decide (d = DefaultExpiration) then defaultExpiration else d in
  if decide (0 < d) then wrap_int (now + d) else 0.

(** How a call ends when it does not block: it returns, or it panics. *)
Inductive outcome (A : Type) : Type :=
  | Returns (a : A)
  | Panics.
Arguments Returns {A} a.
Arguments Panics {A}.

Section CacheSet.
(** The values of the store ([interface{}]) and the values of the type
    [dest] points to. *)
Context {I V : Type}.

(** The reflective copy of a value into [dest] ([reflect.ValueOf(dest).
    Elem().Set(r)], with [r] the value, or what it points to): the value
    written, or [None] when reflect panics.  It panics on an untyped nil
    and on a nil pointer ([r] is the zero [Value]), and on a value that
    is not assignable to the type of [dest]. *)
Variable copy : I → option V.

(** [type Set struct]: the mutex (held or not), the prefix and the
    go-cache store, each item with its expiration. *)
Record CSet : Type := MkSet {
  m : bool;
  prefix : string;
  c : gmap string (I * Z)
}.

Inductive LogEntry : Type :=
  | LogError (key : string) (err : error) (msg : string).

(** The set, the error log, and a counter of the invocations of
    producers ([valueFunc]). *)
Record World : Type := MkWorld {
  cset : CSet;
  log : list LogEntry;
  produced : nat
}.

Definition NewSet (pfx : string) : CSet :=
  {| m := false; prefix := pfx +:+ ":"; c := ∅ |}.

Definition key (s : CSet) (k : string) : string := prefix s +:+ k.

(** [Get] at the time [now]: [Ok v] is a nil error with [v] copied to
    [dest]. *)
Definition Get (s : CSet) (now : Z) (k : string) : result V :=
  match c s !! key s k with
  | None => Err ErrNotFound
  | Some (value, e) =>
    if decide (0 < e ∧ e < now) then Err ErrNotFound
    else
      match copy value with
      | Some v => Ok v
      | None => Panic
      end
  end.

(** [Set] at the time [now]: the returned error and the set
    afterwards. *)
Definition Set_ (k : string) (value : I) (expire now : Z) (s : CSet)
  : option error * CSet :=
  (None, {| m := m s; prefix := prefix s;
            c := <[key s k := (value, expiration now expire)]> (c s) |}).

(** [c.m.Lock()]: [None] when the mutex is held, the caller blocks. *)
Definition Lock (s : CSet) : option CSet :=
  if m s then None
  else Some {| m := true; prefix := prefix s; c := c s |}.

Definition Unlock (s : CSet) : CSet :=
  {| m := false; prefix := prefix s; c := c s |}.

Definition msg_valueFunc : string :=
  "failed to get value from valueFunc() in MutexGetSet".
Definition msg_set : string :=
  "failed to set value to cache in MutexGetSet".

(** The body of [slowMutexGetSet] between [Lock] and the deferred
    [Unlock], with the times of its [Get] and of its [Set]: the returned
    error and the value written to [dest] (if any), or a panic, and the
    world afterwards. *)
Definition slowBody (k : string) (valueFunc : unit → I + error)
    (expire tGet tSet : Z) (w : World)
  : outcome (option error * option V) * World :=
  match Get (cset w) tGet k with
  | Ok v => (Returns (None, Some v), w)
  | Panic => (Panics, w)
  | Err _ =>
    let w1 := {| cset := cset w; log := log w;
                 produced := S (produced w) |} in
    match valueFunc tt with
    | inr err =>
      (Returns (Some err, None),
       {| cset := cset w1;
          log := log w1 ++ [LogError k err msg_valueFunc];
          produced := produced w1 |})
    | inl value =>
      match Set_ k value expire tSet (cset w1) with
      | (Some err, s') =>
        (Returns (Some err, None),
         {| cset := s';
            log := log w1 ++ [LogError k err msg_set];
            produced := produced w1 |})
      | (None, s') =>
        let w2 := {| cset := s'; log := log w1; produced := produced w1 |} in
        match copy value with
        | Some v => (Returns (None, Some v), w2)
        | None => (Panics, w2)
        end
      end
    end
  end.

(** [slowMutexGetSet]: the deferred [Unlock] runs when the body returns
    and when it panics. *)
Definition slowMutexGetSet (k : string) (valueFunc : unit → I + error)
    (expire tGet tSet : Z) (w : World)
  : option (outcome (option error * option V) * World) :=
  match Lock (cset w) with
  | None => None
  | Some s1 =>
    let '(out, w2) :=
      slowBody k valueFunc expire tGet tSet
        {| cset := s1; log := log w; produced := produced w |} in
    Some (out,
          {| cset := Unlock (cset w2); log := log w2;
             produced := produced w2 |})
  end.

(** [MutexGetSet], with the time [t0] of its unlocked [Get].  Between
    that [Get] and [Lock] other goroutines may run: [env] is what they do
    to the set meanwhile (the identity in a sequential run). *)
Definition MutexGetSet (env : CSet → CSet) (k : string)
    (valueFunc : unit → I + error) (expire t0 tGet tSet : Z) (w : World)
  : option (outcome (bool * option error * option V) * World) :=
  match Get (cset w) t0 k with
  | Ok v => Some (Returns (false, None, Some v), w)
  | Panic => Some (Panics, w)
  | Err _ =>
    match slowMutexGetSet k valueFunc expire tGet tSet
            {| cset := env (cset w); log := log w;
               produced := produced w |} with
    | None => None
    | Some (Returns (err, dest), w') => Some (Returns (true, err, dest), w')
    | Some (Panics, w') => Some (Panics, w')
    end
  end.

End CacheSet.

Arguments CSet : clear implicits.
Arguments World : clear implicits.

End TimedCache.

(** * The drop-matrix service ([internal/controller/v3/item.go]) *)

Module Service.

(** ** Data model ([models], [shims]) *)

(** [time.Time.UnixMilli]. *)
Definition UnixMilli (t : Z) : Z := t / 1000000.

Record TimeRange : Type := MkTimeRange {
  RangeID : Z;
  StartTime : Z;
  EndTime : Z
}.

(** [models.DropInfo]: [ItemID] is a [null.Int]. *)
Record DropInfo : Type := MkDropInfo {
  di_StageID : Z;
  di_ItemID : option Z
}.

Record TotalQuantityResultForDropMatrix : Type := MkTotalQuantity {
  tq_StageID : Z;
  tq_ItemID : Z;
  tq_TotalQuantity : Z
}.

Record TotalTimesResult : Type := MkTotalTimes {
  tt_StageID : Z;
  tt_TotalTimes : Z
}.

Record CombinedResultForDropMatrix : Type := MkCombined {
  cr_StageID : Z;
  cr_ItemID : Z;
  cr_Quantity : Z;
  cr_Times : Z;
  cr_TimeRange : TimeRange
}.

Record DropMatrixElement : Type := MkElement {
  el_StageID : Z;
  el_ItemID : Z;
  el_RangeID : Z;
  el_Quantity : Z;
  el_Times : Z;
  el_Server : string;
  el_TimeRange : option TimeRange
}.

Record OneDropMatrixElement : Type := MkOne {
  one_StageID : Z;
  one_ItemID : Z;
  one_Quantity : Z;
  one_Times : Z;
  one_TimeRange : option TimeRange
}.

Record Stage : Type := MkStage { ArkStageID : string }.
Record Item : Type := MkItem { ArkItemID : string }.

(** [shims.OneDropMatrixElement]: [EndTime] is a [*null.Int]. *)
Record ShimOneDropMatrixElement : Type := MkShimOne {
  shim_StageID : string;
  shim_ItemID : string;
  shim_Quantity : Z;
  shim_Times : Z;
  shim_StartTime : Z;
  shim_EndTime : option Z
}.

#[global] Instance TimeRange_eq_dec : EqDecision TimeRange.
Proof. solve_decision. Defined.
#[global] Instance OneDropMatrixElement_eq_dec : EqDecision OneDropMatrixElement.
Proof. solve_decision. Defined.

(** ** go-linq *)

(** [GroupByT(key, id).ToSlice]: the elements are appended to the entry
    of their key in a map, whose entries are the groups. *)
Definition groupMap {A : Type} (keyOf : A → Z) (l : list A) : gmap Z (list A) :=
  fold_left (λ set x, <[keyOf x := default [] (set !! keyOf x) ++ [x]]> set) l ∅.

Definition GroupBy {A : Type} (keyOf : A → Z) (l : list A) : list (Z * list A) :=
  map_to_list (groupMap keyOf l).

(** [From(l).Contains(x)]. *)
Definition Contains (l : list Z) (x : Z) : bool := bool_decide (x ∈ l).

(** ** [combineQuantityAndTimesResults] *)

(** [ToMapByT(&resultsMap, ItemID, TotalQuantity)]. *)
Definition ToMapBy (group : list TotalQuantityResultForDropMatrix) : gmap Z Z :=
  fold_left (λ resultsMap el, <[tq_ItemID el := tq_TotalQuantity el]> resultsMap)
    group ∅.

Definition quantityResultsMap
    (quantityResults : list TotalQuantityResultForDropMatrix)
  : gmap Z (gmap Z Z) :=
  fold_left (λ qm g, <[g.1 := ToMapBy g.2]> qm)
    (GroupBy tq_StageID quantityResults) ∅.

Definition combineQuantityAndTimesResults
    (quantityResults : list TotalQuantityResultForDropMatrix)
    (timesResults : list TotalTimesResult) (timeRange : TimeRange)
  : list CombinedResultForDropMatrix :=
  let qm := quantityResultsMap quantityResults in
  fold_left (λ combinedResults g,
    let stageId := g.1 in
    let quantityResultsMapForOneStage := default ∅ (qm !! stageId) in
    fold_left (λ combinedResults el,
      let times := tt_TotalTimes el in
      fold_left (λ combinedResults iq,
        combinedResults ++
          [{| cr_StageID := stageId; cr_ItemID := iq.1; cr_Quantity := iq.2;
              cr_Times := times; cr_TimeRange := timeRange |}])
        (map_to_list quantityResultsMapForOneStage) combinedResults)
      g.2 combinedResults)
    (GroupBy tt_StageID timesResults) [].

(** The vocabulary of its specification. *)

(** The quantity observed for an item in a stage: that of the last row
    of the quantity query for them. *)
Definition observedQuantity (quantityResults : list TotalQuantityResultForDropMatrix)
    (stageId itemId : Z) : option Z :=
  tq_TotalQuantity
    <$> last (filter (λ q, tq_StageID q = stageId ∧ tq_ItemID q = itemId)
                quantityResults).

Definition combinedRow (stageId times : Z) (timeRange : TimeRange) (iq : Z * Z)
  : CombinedResultForDropMatrix :=
  {| cr_StageID := stageId; cr_ItemID := iq.1; cr_Quantity := iq.2;
     cr_Times := times; cr_TimeRange := timeRange |}.

(** ** [combineDropMatrixResults] *)

Definition combineDropMatrixResults (a b : OneDropMatrixElement)
  : result OneDropMatrixElement :=
  if decide (one_StageID a ≠ one_StageID b) then Err (ErrMsg "stageId not match")
  else if decide (one_ItemID a ≠ one_ItemID b) then Err (ErrMsg "itemId not match")
  else Ok {| one_StageID := one_StageID a;
             one_ItemID := one_ItemID a;
             one_Quantity := int_add (one_Quantity a) (one_Quantity b);
             one_Times := int_add (one_Times a) (one_Times b);
             one_TimeRange := None |}.

(** ** [calcDropMatrixForTimeRanges] *)

Section Calculator.
(** [DropInfoService.GetDropInfosWithFilters(ctx, server, timeRanges,
    stageIdFilter, itemIdFilter)]; a nil filter is the empty list. *)
Variable GetDropInfosWithFilters :
  string → list TimeRange → list Z → list Z → list DropInfo + error.
(** [DropReportService.CalcTotalQuantityForDropMatrix] and
    [CalcTotalTimesForDropMatrix]; the stage and item ids they are
    given are derived from the drop infos by helpers of [utils], so the
    drop infos stand for them here.  [accountId] is a [*null.Int]. *)
Variable CalcTotalQuantityForDropMatrix :
  string → TimeRange → list DropInfo → option Z →
  list TotalQuantityResultForDropMatrix + error.
Variable CalcTotalTimesForDropMatrix :
  string → TimeRange → list DropInfo → option Z →
  list TotalTimesResult + error.
(** [DropInfoService.GetItemDropSetByStageIdAndRangeId]: the caller
    drops its error, only the slice is used. *)
Variable GetItemDropSetByStageIdAndRangeId : string → Z → Z → list Z.

(** The loop over the time ranges: what [combinedResults] holds when
    the grouping starts. *)
Fixpoint combineLoop (server : string) (dropInfos : list DropInfo)
    (accountId : option Z) (timeRanges : list TimeRange)
    (combinedResults : list CombinedResultForDropMatrix)
  : result (list CombinedResultForDropMatrix) :=
  match timeRanges with
  | [] => Ok combinedResults
  | timeRange :: rest =>
    do quantityResults <-
      call (CalcTotalQuantityForDropMatrix server timeRange dropInfos accountId);
    do timesResults <-
      call (CalcTotalTimesForDropMatrix server timeRange dropInfos accountId);
    combineLoop server dropInfos accountId rest
      (combineQuantityAndTimesResults quantityResults timesResults timeRange)
  end.

(** The item ids expected to drop in a stage and a time range, before
    the item filter. *)
Definition dropItemIdsOf (server : string) (stageId rangeId : Z)
    (timeRange : TimeRange) : result (list Z) :=
  if decide (rangeId = 0) then
    do dropInfosForSpecialTimeRange <-
      call (GetDropInfosWithFilters server [timeRange] [] []);
    Ok (omap di_ItemID dropInfosForSpecialTimeRange)
  else Ok (GetItemDropSetByStageIdAndRangeId server stageId rangeId).

Definition applyItemIdFilter (itemIdFilter dropItemIds : list Z) : list Z :=
  if decide (0 < length itemIdFilter)%nat
  then filter (λ itemId, Contains itemIdFilter itemId = true) dropItemIds
  else dropItemIds.

(** The state of the loops: [stageTimesMap] and [dropMatrixElements]. *)
Definition calcState : Type := gmap Z Z * list DropMatrixElement.

Definition inlineRange (rangeId : Z) (timeRange : TimeRange)
  : option TimeRange :=
  if decide (rangeId = 0) then Some timeRange else None.

(** [for _, el3 := range el2.Group]: the drop set, then the state. *)
Definition observedLoop (server : string) (stageId rangeId : Z)
    (timeRange : TimeRange) (group : list CombinedResultForDropMatrix)
    (dropSet : gset Z) (st : calcState) : gset Z * calcState :=
  fold_left (λ acc el3,
    let itemId := cr_ItemID el3 in
    let quantity := cr_Quantity el3 in
    let times := cr_Times el3 in
    let dropMatrixElement :=
      {| el_StageID := stageId; el_ItemID := itemId; el_RangeID := rangeId;
         el_Quantity := quantity; el_Times := times; el_Server := server;
         el_TimeRange := inlineRange rangeId timeRange |} in
    (acc.1 ∖ {[itemId]},
     (<[stageId := times]> acc.2.1, acc.2.2 ++ [dropMatrixElement])))
    group (dropSet, st).

(** [for itemId := range dropSet]. *)
Definition zeroFill (server : string) (stageId rangeId : Z)
    (timeRange : TimeRange) (dropSet : gset Z) (st : calcState) : calcState :=
  fold_left (λ acc itemId,
    let dropMatrixElementWithZeroQuantity :=
      {| el_StageID := stageId; el_ItemID := itemId; el_RangeID := rangeId;
         el_Quantity := 0; el_Times := default 0 (acc.1 !! stageId);
         el_Server := server;
         el_TimeRange := inlineRange rangeId timeRange |} in
    (acc.1, acc.2 ++ [dropMatrixElementWithZeroQuantity]))
    (elements dropSet) st.

(** [for _, el2 := range groupedResults2]. *)
Fixpoint rangeLoop (server : string) (itemIdFilter : list Z) (stageId : Z)
    (groupedResults2 : list (Z * list CombinedResultForDropMatrix))
    (st : calcState) : result calcState :=
  match groupedResults2 with
  | [] => Ok st
  | el2 :: rest =>
    let rangeId := el2.1 in
    match el2.2 with
    | [] => Panic
    | first :: _ =>
      let timeRange := cr_TimeRange first in
      do dropItemIds <- dropItemIdsOf server stageId rangeId timeRange;
      let dropItemIds := applyItemIdFilter itemIdFilter dropItemIds in
      let dropSet : gset Z := list_to_set dropItemIds in
      let '(dropSet, st) :=
        observedLoop server stageId rangeId timeRange el2.2 dropSet st in
      rangeLoop server itemIdFilter stageId rest
        (zeroFill server stageId rangeId timeRange dropSet st)
    end
  end.

(** [for _, el := range groupedResults]. *)
Fixpoint stageLoop (server : string) (itemIdFilter : list Z)
    (groupedResults : list (Z * list CombinedResultForDropMatrix))
    (st : calcState) : result calcState :=
  match groupedResults with
  | [] => Ok st
  | el :: rest =>
    let stageId := el.1 in
    let groupedResults2 := GroupBy (λ c, RangeID (cr_TimeRange c)) el.2 in
    do st <- rangeLoop server itemIdFilter stageId groupedResults2 st;
    stageLoop server itemIdFilter rest st
  end.

(** Everything after the loop over the time ranges. *)
Definition groupAndFill (server : string) (itemIdFilter : list Z)
    (combinedResults : list CombinedResultForDropMatrix)
  : result (list DropMatrixElement) :=
  do st <-
    stageLoop server itemIdFilter (GroupBy cr_StageID combinedResults) (∅, []);
  Ok st.2.

Definition calcDropMatrixForTimeRanges (server : string)
    (timeRanges : list TimeRange) (stageIdFilter itemIdFilter : list Z)
    (accountId : option Z) : result (list DropMatrixElement) :=
  do dropInfos <-
    call (GetDropInfosWithFilters server timeRanges stageIdFilter itemIdFilter);
  do combinedResults <- combineLoop server dropInfos accountId timeRanges [];
  groupAndFill server itemIdFilter combinedResults.

(** The vocabulary of the specification of the calculator. *)

(** The element emitted for a combined result. *)
Definition observedElement (server : string) (stageId rangeId : Z)
    (timeRange : TimeRange) (el3 : CombinedResultForDropMatrix)
  : DropMatrixElement :=
  {| el_StageID := stageId; el_ItemID := cr_ItemID el3; el_RangeID := rangeId;
     el_Quantity := cr_Quantity el3; el_Times := cr_Times el3;
     el_Server := server; el_TimeRange := inlineRange rangeId timeRange |}.

(** The element emitted for an expected item that was not observed. *)
Definition zeroElement (server : string) (stageId rangeId : Z)
    (timeRange : TimeRange) (times itemId : Z) : DropMatrixElement :=
  {| el_StageID := stageId; el_ItemID := itemId; el_RangeID := rangeId;
     el_Quantity := 0; el_Times := times;
     el_Server := server; el_TimeRange := inlineRange rangeId timeRange |}.

(** What one group of a stage and a range adds to the elements. *)
Definition groupElements (server : string) (itemIdFilter : list Z)
    (stageId rangeId : Z) (timeRange : TimeRange)
    (group : list CombinedResultForDropMatrix) (dropItemIds : list Z)
  : list DropMatrixElement :=
  (observedElement server stageId rangeId timeRange <$> group)
  ++ (zeroElement server stageId rangeId timeRange
        (default 0 (cr_Times <$> last group))
        <$> elements (list_to_set (applyItemIdFilter itemIdFilter dropItemIds)
                      ∖ list_to_set (cr_ItemID <$> group) : gset Z)).


(** ** [RefreshAllDropMatrixElements] *)

Variable GetTimeRangesByServer : string → list TimeRange + error.
(** [DropMatrixElementService.BatchSaveElements]: the error it returns. *)
Variable BatchSaveElements : list DropMatrixElement → string → option error.

(** How a refresh ends: it returns (an error or nil, and the batch it
    saved, if it got that far), it blocks for ever, or a worker
    panics. *)
Inductive outcome : Type :=
  | Returned (err : option error) (saved : option (list DropMatrixElement))
  | Blocked
  | Crashed.

(** The wait group counter, the slots of [limiter] in use, and
    [toSave]. *)
Record pool : Type := MkPool {
  wg : nat;
  limiter : nat;
  toSave : list DropMatrixElement
}.

(** The loop that starts the workers, then [wg.Wait()] and the save.
    The workers run one after the other, each to its end as soon as it
    is started.  Whether the refresh returns does not depend on that
    schedule: a worker that gets an error returns before it sends its
    batch, so [wg.Done()] is never called for it and its slot of
    [limiter] is never given back; [limiter <- struct{}{}] blocks for
    ever once seven workers have ended so, and [wg.Wait()] as soon as
    one has. *)
Fixpoint refreshLoop (server : string) (timeRanges : list TimeRange)
    (p : pool) : outcome :=
  match timeRanges with
  | [] =>
    if decide (wg p = 0%nat)
    then Returned (BatchSaveElements (toSave p) server) (Some (toSave p))
    else Blocked
  | timeRange :: rest =>
    if decide (limiter p = 7%nat) then Blocked
    else
      match calcDropMatrixForTimeRanges server [timeRange] [] [] None with
      | Ok currentBatch =>
        refreshLoop server rest
          {| wg := pred (wg p); limiter := limiter p;
             toSave := toSave p ++ currentBatch |}
      | Err _ =>
        refreshLoop server rest
          {| wg := wg p; limiter := S (limiter p); toSave := toSave p |}
      | Panic => Crashed
      end
  end.

Definition RefreshAllDropMatrixElements (server : string) : outcome :=
  match GetTimeRangesByServer server with
  | inl allTimeRanges =>
    refreshLoop server allTimeRanges
      {| wg := length allTimeRanges; limiter := 0; toSave := [] |}
  | inr err => Returned (Some err) None
  end.

End Calculator.

(** ** [convertDropMatrixElementsToMaxAccumulableDropMatrixQueryResult] *)

(** Modelled from the spec: [utils.GetDropMatrixElementsMap] is not part
    of these sources; it keys the elements by stage, item and range id
    ("elements keyed by (stage,item,rangeId)"). *)
Definition GetDropMatrixElementsMap (dropMatrixElements : list DropMatrixElement)
  : gmap Z (gmap Z (gmap Z DropMatrixElement)) :=
  fold_left (λ elementsMap element,
    let subMapByItemId := default ∅ (elementsMap !! el_StageID element) in
    let subMapByRangeId := default ∅ (subMapByItemId !! el_ItemID element) in
    <[el_StageID element :=
        <[el_ItemID element :=
            <[el_RangeID element := element]> subMapByRangeId]> subMapByItemId]>
      elementsMap)
    dropMatrixElements ∅.

(** The state of the loop over one chain: [startTime], [endTime] and
    [combinedDropMatrixResult] (nil or not). *)
Definition chainState : Type := Z * Z * option OneDropMatrixElement.

(** [for _, timeRange := range timeRanges]. *)
Fixpoint chainLoop (stageId itemId : Z)
    (subMapByRangeId : gmap Z DropMatrixElement)
    (timeRanges : list TimeRange) (st : chainState) : result chainState :=
  match timeRanges with
  | [] => Ok st
  | timeRange :: rest =>
    match subMapByRangeId !! RangeID timeRange with
    | None => chainLoop stageId itemId subMapByRangeId rest st
    | Some element =>
      let '(startTime, endTime, combinedDropMatrixResult) := st in
      let oneElementResult :=
        {| one_StageID := stageId; one_ItemID := itemId;
           one_Quantity := el_Quantity element; one_Times := el_Times element;
           one_TimeRange := None |} in
      let startTime :=
        if decide (StartTime timeRange < startTime)
        then StartTime timeRange else startTime in
      let endTime :=
        if decide (endTime < EndTime timeRange)
        then EndTime timeRange else endTime in
      do combined <-
        match combinedDropMatrixResult with
        | None => Ok oneElementResult
        | Some acc => combineDropMatrixResults acc oneElementResult
        end;
      chainLoop stageId itemId subMapByRangeId rest
        (startTime, endTime, Some combined)
    end
  end.

(** The body of the loop over the items of one stage: the element the
    chain adds to the matrix, if any.  [timeRanges[0]] panics on an empty
    chain. *)
Definition foldChain (stageId itemId : Z)
    (subMapByRangeId : gmap Z DropMatrixElement) (timeRanges : list TimeRange)
  : result (option OneDropMatrixElement) :=
  match timeRanges with
  | [] => Panic
  | first :: _ =>
    do st <- chainLoop stageId itemId subMapByRangeId timeRanges
               (StartTime first, EndTime first, None);
    let '(startTime, endTime, combinedDropMatrixResult) := st in
    match combinedDropMatrixResult with
    | None => Ok None
    | Some combined =>
      Ok (Some {| one_StageID := one_StageID combined;
                  one_ItemID := one_ItemID combined;
                  one_Quantity := one_Quantity combined;
                  one_Times := one_Times combined;
                  one_TimeRange :=
                    Some {| RangeID := 0; StartTime := startTime;
                            EndTime := endTime |} |})
    end
  end.

(** [for itemId, timeRanges := range maxAccumulableTimeRangesForOneStage]. *)
Fixpoint itemLoop (stageId : Z)
    (subMapByItemId : gmap Z (gmap Z DropMatrixElement))
    (chains : list (Z * list TimeRange)) (matrix : list OneDropMatrixElement)
  : result (list OneDropMatrixElement) :=
  match chains with
  | [] => Ok matrix
  | (itemId, timeRanges) :: rest =>
    let subMapByRangeId := default ∅ (subMapByItemId !! itemId) in
    do r <- foldChain stageId itemId subMapByRangeId timeRanges;
    itemLoop stageId subMapByItemId rest
      (match r with Some combined => matrix ++ [combined] | None => matrix end)
  end.

(** [for stageId, maxAccumulableTimeRangesForOneStage := range
    maxAccumulableTimeRanges]. *)
Fixpoint stageChainLoop
    (elementsMap : gmap Z (gmap Z (gmap Z DropMatrixElement)))
    (stages : list (Z * gmap Z (list TimeRange)))
    (matrix : list OneDropMatrixElement) : result (list OneDropMatrixElement) :=
  match stages with
  | [] => Ok matrix
  | (stageId, maxAccumulableTimeRangesForOneStage) :: rest =>
    let subMapByItemId := default ∅ (elementsMap !! stageId) in
    do matrix <- itemLoop stageId subMapByItemId
                   (map_to_list maxAccumulableTimeRangesForOneStage) matrix;
    stageChainLoop elementsMap rest matrix
  end.

(** [GetMaxAccumulableTimeRangesByServer] belongs to the time-range
    service: its answer is an argument. *)
Definition convertDropMatrixElementsToMaxAccumulableDropMatrixQueryResult
    (GetMaxAccumulableTimeRangesByServer :
       gmap Z (gmap Z (list TimeRange)) + error)
    (dropMatrixElements : list DropMatrixElement)
  : result (list OneDropMatrixElement) :=
  let elementsMap := GetDropMatrixElementsMap dropMatrixElements in
  do maxAccumulableTimeRanges <- call GetMaxAccumulableTimeRangesByServer;
  stageChainLoop elementsMap (map_to_list maxAccumulableTimeRanges) [].

(** The vocabulary of the specification of the fold. *)

(** The elements of one stage and item, by range id. *)
Definition elementsFor (elementsMap : gmap Z (gmap Z (gmap Z DropMatrixElement)))
    (stageId itemId : Z) : gmap Z DropMatrixElement :=
  default ∅ (default ∅ (elementsMap !! stageId) !! itemId).

(** The ranges of a chain that have a matching element, with it. *)
Definition matching (subMapByRangeId : gmap Z DropMatrixElement)
    (timeRanges : list TimeRange) : list (TimeRange * DropMatrixElement) :=
  omap (λ timeRange, pair timeRange <$> subMapByRangeId !! RangeID timeRange)
    timeRanges.

Definition quantities (ms : list (TimeRange * DropMatrixElement)) : list Z :=
  (λ m, el_Quantity m.2) <$> ms.

Definition timesOf (ms : list (TimeRange * DropMatrixElement)) : list Z :=
  (λ m, el_Times m.2) <$> ms.

Definition starts (ms : list (TimeRange * DropMatrixElement)) : list Z :=
  (λ m, StartTime m.1) <$> ms.

Definition ends (ms : list (TimeRange * DropMatrixElement)) : list Z :=
  (λ m, EndTime m.1) <$> ms.

(** One more matching element folded into [combinedDropMatrixResult]. *)
Definition chainStep (stageId itemId : Z) (acc : option OneDropMatrixElement)
    (m : TimeRange * DropMatrixElement) : option OneDropMatrixElement :=
  Some match acc with
       | None =>
         {| one_StageID := stageId; one_ItemID := itemId;
            one_Quantity := el_Quantity m.2; one_Times := el_Times m.2;
            one_TimeRange := None |}
       | Some a =>
         {| one_StageID := stageId; one_ItemID := itemId;
            one_Quantity := int_add (one_Quantity a) (el_Quantity m.2);
            one_Times := int_add (one_Times a) (el_Times m.2);
            one_TimeRange := None |}
       end.

Definition keyed (stageId itemId : Z) (acc : option OneDropMatrixElement) : Prop :=
  ∀ a, acc = Some a → one_StageID a = stageId ∧ one_ItemID a = itemId.

(** What a chain adds to the matrix. *)
Definition chainOut (stageId itemId : Z) (sub : gmap Z DropMatrixElement)
    (timeRanges : list TimeRange) : option OneDropMatrixElement :=
  match timeRanges, matching sub timeRanges with
  | first :: _, m :: ms =>
    Some {| one_StageID := stageId; one_ItemID := itemId;
            one_Quantity := foldl int_add (el_Quantity m.2) (quantities ms);
            one_Times := foldl int_add (el_Times m.2) (timesOf ms);
            one_TimeRange :=
              Some {| RangeID := 0;
                      StartTime := foldl Z.min (StartTime first) (starts (m :: ms));
                      EndTime := foldl Z.max (EndTime first) (ends (m :: ms)) |} |}
  | _, _ => None
  end.

Definition itemChunk (stageId : Z) (subMapByItemId : gmap Z (gmap Z DropMatrixElement))
    (chain : Z * list TimeRange) : list OneDropMatrixElement :=
  option_list (chainOut stageId chain.1 (default ∅ (subMapByItemId !! chain.1)) chain.2).

Definition stageChunk (elementsMap : gmap Z (gmap Z (gmap Z DropMatrixElement)))
    (stage : Z * gmap Z (list TimeRange)) : list OneDropMatrixElement :=
  map_to_list stage.2 ≫= itemChunk stage.1 (default ∅ (elementsMap !! stage.1)).

(** ** [applyShimForDropMatrixQuery] *)

(** [strings.Split(s, ",")]. *)
Fixpoint Split (s : string) : list string :=
  match s with
  | EmptyString => [EmptyString]
  | String ch rest =>
    if decide (ch = ","%char) then EmptyString :: Split rest
    else match Split rest with
         | hd :: tl => String ch hd :: tl
         | [] => [String ch EmptyString]
         end
  end.

(** The hash set built from a comma-separated filter parameter. *)
Definition filterSet (filterStr : string) : gset string :=
  let filter := if decide (filterStr = EmptyString) then [] else Split filterStr in
  list_to_set filter.

(** [len(set) > 0] and the key is not in the set. *)
Definition excludedBy (set : gset string) (arkId : string) : bool :=
  bool_decide (0 < size set)%nat && negb (bool_decide (arkId ∈ set)).

Section Shim.
Variable GetCurrentDropInfosByServer : string → list DropInfo + error.
Variable GetStageById : Z → Stage + error.
Variable GetItemById : Z → Item + error.
(** [constants.FakeEndTimeMilli]. *)
Variable FakeEndTimeMilli : Z.

(** The wire element built at the end of the loop body. *)
Definition shimElement (stage : Stage) (item : Item)
    (el : OneDropMatrixElement) (timeRange : TimeRange)
  : ShimOneDropMatrixElement :=
  let endTime := UnixMilli (EndTime timeRange) in
  {| shim_StageID := ArkStageID stage;
     shim_ItemID := ArkItemID item;
     shim_Quantity := one_Quantity el;
     shim_Times := one_Times el;
     shim_StartTime := UnixMilli (StartTime timeRange);
     shim_EndTime :=
       if decide (endTime = FakeEndTimeMilli) then None else Some endTime |}.

(** [for _, el := range queryResult.Matrix]. *)
Fixpoint shimLoop (showClosedZones : bool) (openingStageIds : list Z)
    (stageFilterSet itemFilterSet : gset string)
    (matrix : list OneDropMatrixElement)
    (results : list ShimOneDropMatrixElement)
  : result (list ShimOneDropMatrixElement) :=
  match matrix with
  | [] => Ok results
  | el :: rest =>
    let continue :=
      shimLoop showClosedZones openingStageIds stageFilterSet itemFilterSet
        rest in
    if negb showClosedZones && negb (Contains openingStageIds (one_StageID el))
    then continue results
    else
      do stage <- call (GetStageById (one_StageID el));
      if excludedBy stageFilterSet (ArkStageID stage) then continue results
      else
        do item <- call (GetItemById (one_ItemID el));
        if excludedBy itemFilterSet (ArkItemID item) then continue results
        else
          match one_TimeRange el with
          | None => Panic
          | Some timeRange =>
            continue (results ++ [shimElement stage item el timeRange])
          end
  end.

Definition applyShimForDropMatrixQuery (server : string)
    (showClosedZones : bool) (stageFilterStr itemFilterStr : string)
    (queryResult : list OneDropMatrixElement)
  : result (list ShimOneDropMatrixElement) :=
  do openingStageIds <-
    (if showClosedZones then Ok []
     else
       do currentDropInfos <- call (GetCurrentDropInfosByServer server);
       Ok (remove_dups (di_StageID <$> currentDropInfos)));
  shimLoop showClosedZones openingStageIds
    (filterSet stageFilterStr) (filterSet itemFilterStr) queryResult [].

(** The vocabulary of the specification of the shim. *)

(** The stages taken as open by a query. *)
Definition openStages (server : string) (showClosedZones : bool) : list Z :=
  if showClosedZones then []
  else match GetCurrentDropInfosByServer server with
       | inl currentDropInfos => remove_dups (di_StageID <$> currentDropInfos)
       | inr _ => []
       end.

(** The open-zone filter lets the element through. *)
Definition passesOpenZone (showClosedZones : bool) (openingStageIds : list Z)
    (el : OneDropMatrixElement) : bool :=
  showClosedZones || Contains openingStageIds (one_StageID el).

(** The element passes the view filters: the open-zone filter, and the
    stage and item inclusion filters on its external ids. *)
Definition passesFilters (showClosedZones : bool) (openingStageIds : list Z)
    (stageFilterSet itemFilterSet : gset string) (el : OneDropMatrixElement)
  : bool :=
  passesOpenZone showClosedZones openingStageIds el
  && match GetStageById (one_StageID el) with
     | inl stage =>
       negb (excludedBy stageFilterSet (ArkStageID stage))
       && match GetItemById (one_ItemID el) with
          | inl item => negb (excludedBy itemFilterSet (ArkItemID item))
          | inr _ => false
          end
     | inr _ => false
     end.

(** [out] is the reshaping of [el]: ids resolved, quantity and times
    untouched, timestamps in Unix milliseconds, the end time null
    exactly at the sentinel. *)
Definition reshapes (el : OneDropMatrixElement)
    (out : ShimOneDropMatrixElement) : Prop :=
  shim_Quantity out = one_Quantity el
  ∧ shim_Times out = one_Times el
  ∧ (∃ stage item,
       GetStageById (one_StageID el) = inl stage
       ∧ GetItemById (one_ItemID el) = inl item
       ∧ shim_StageID out = ArkStageID stage
       ∧ shim_ItemID out = ArkItemID item)
  ∧ ∃ timeRange,
      one_TimeRange el = Some timeRange
      ∧ shim_StartTime out = UnixMilli (StartTime timeRange)
      ∧ (shim_EndTime out = None
         ↔ UnixMilli (EndTime timeRange) = FakeEndTimeMilli)
      ∧ (shim_EndTime out ≠ None
         → shim_EndTime out = Some (UnixMilli (EndTime timeRange))).

(** An element that the open-zone filter lets through and whose stage
    does not resolve, or whose stage resolves and is let through by the
    stage filter while its item does not resolve. *)
Definition unresolvedWhenLookedUp (show : bool) (opening : list Z)
    (sset : gset string) (el : OneDropMatrixElement) : Prop :=
  passesOpenZone show opening el = true
  ∧ ((∃ e, GetStageById (one_StageID el) = inr e)
     ∨ ∃ stage e,
         GetStageById (one_StageID el) = inl stage
         ∧ excludedBy sset (ArkStageID stage) = false
         ∧ GetItemById (one_ItemID el) = inr e).

End Shim.

(** ** [convertDropMatrixElementsToDropMatrixQueryResult] *)

Section Convert.
(** [TimeRangeService.GetTimeRangeById]. *)
Variable GetTimeRangeById : Z → TimeRange + error.

(** [for _, el := range group.Group]. *)
Definition convertGroup (timeRange : option TimeRange)
    (group : list DropMatrixElement) (matrix : list OneDropMatrixElement)
  : list OneDropMatrixElement :=
  fold_left (λ matrix dropMatrixElement,
    matrix ++
      [{| one_StageID := el_StageID dropMatrixElement;
          one_ItemID := el_ItemID dropMatrixElement;
          one_Quantity := el_Quantity dropMatrixElement;
          one_Times := el_Times dropMatrixElement;
          one_TimeRange := timeRange |}])
    group matrix.

(** The time range of a group: that of its first element for the range
    id 0, the one the time-range service knows otherwise. *)
Definition timeRangeOfGroup (rangeId : Z) (group : list DropMatrixElement)
  : result (option TimeRange) :=
  if decide (rangeId = 0) then
    match group with
    | [] => Panic
    | first :: _ => Ok (el_TimeRange first)
    end
  else
    do tr <- call (GetTimeRangeById rangeId);
    Ok (Some tr).

(** [for _, group := range groupedResults]. *)
Fixpoint convertLoop (groupedResults : list (Z * list DropMatrixElement))
    (matrix : list OneDropMatrixElement) : result (list OneDropMatrixElement) :=
  match groupedResults with
  | [] => Ok matrix
  | group :: rest =>
    do timeRange <- timeRangeOfGroup group.1 group.2;
    convertLoop rest (convertGroup timeRange group.2 matrix)
  end.

Definition convertDropMatrixElementsToDropMatrixQueryResult
    (dropMatrixElements : list DropMatrixElement)
  : result (list OneDropMatrixElement) :=
  convertLoop (GroupBy el_RangeID dropMatrixElements) [].

End Convert.

(** ** The entry points of the service *)

(** [strconv.FormatBool]. *)
Definition FormatBool (b : bool) : string := if b then "true" else "false".

(** [time.Hour * 24], in nanoseconds. *)
Definition Hour24 : Z := 24 * 3600 * 1000000000.

(** The two cache sets of [models/cache] the service uses, taken to be
    [Set]s of [pkg/cache]: the shimmed results, and the times of last
    modification. *)
Record Caches : Type := MkCaches {
  ShimMaxAccumulableDropMatrixResults :
    Cache.CSet (list ShimOneDropMatrixElement);
  LastModifiedTime : Cache.CSet Z
}.

Section EntryPoints.
Variable GetDropInfosWithFilters :
  string → list TimeRange → list Z → list Z → list DropInfo + error.
Variable CalcTotalQuantityForDropMatrix :
  string → TimeRange → list DropInfo → option Z →
  list TotalQuantityResultForDropMatrix + error.
Variable CalcTotalTimesForDropMatrix :
  string → TimeRange → list DropInfo → option Z →
  list TotalTimesResult + error.
Variable GetItemDropSetByStageIdAndRangeId : string → Z → Z → list Z.
Variable GetTimeRangeById : Z → TimeRange + error.
(** [TimeRangeService.GetMaxAccumulableTimeRangesByServer]. *)
Variable GetMaxAccumulableTimeRangesByServer :
  string → gmap Z (gmap Z (list TimeRange)) + error.
(** [DropMatrixElementService.GetElementsByServer]. *)
Variable GetElementsByServer : string → list DropMatrixElement + error.
Variable GetCurrentDropInfosByServer : string → list DropInfo + error.
Variable GetStageById : Z → Stage + error.
Variable GetItemById : Z → Item + error.
Variable FakeEndTimeMilli : Z.
(** [constants.RedisSeparator]. *)
Variable RedisSeparator : string.
(** [time.Now()]. *)
Variable Now : Z.

Definition QueryDropMatrix (server : string) (timeRanges : list TimeRange)
    (stageIdFilter itemIdFilter : list Z) (accountId : option Z)
  : result (list OneDropMatrixElement) :=
  do dropMatrixElements <-
    calcDropMatrixForTimeRanges GetDropInfosWithFilters
      CalcTotalQuantityForDropMatrix CalcTotalTimesForDropMatrix
      GetItemDropSetByStageIdAndRangeId server timeRanges stageIdFilter
      itemIdFilter accountId;
  convertDropMatrixElementsToDropMatrixQueryResult GetTimeRangeById
    dropMatrixElements.

(** [timeRangesMap] of [getDropMatrixElements]: the ranges of all the
    chains, by range id. *)
Definition timeRangesMapOf
    (maxAccumulableTimeRanges : gmap Z (gmap Z (list TimeRange)))
  : gmap Z TimeRange :=
  fold_left (λ timeRangesMap stage,
    fold_left (λ timeRangesMap chain,
      fold_left (λ timeRangesMap timeRange,
        <[RangeID timeRange := timeRange]> timeRangesMap)
        chain.2 timeRangesMap)
      (map_to_list stage.2) timeRangesMap)
    (map_to_list maxAccumulableTimeRanges) ∅.

(** [getDropMatrixElements]: [accountId.Valid] is [Some]. *)
Definition getDropMatrixElements (server : string) (accountId : option Z)
  : result (list DropMatrixElement) :=
  match accountId with
  | Some _ =>
    do maxAccumulableTimeRanges <-
      call (GetMaxAccumulableTimeRangesByServer server);
    let timeRangesMap := timeRangesMapOf maxAccumulableTimeRanges in
    let timeRanges := (map_to_list timeRangesMap).*2 in
    calcDropMatrixForTimeRanges GetDropInfosWithFilters
      CalcTotalQuantityForDropMatrix CalcTotalTimesForDropMatrix
      GetItemDropSetByStageIdAndRangeId server timeRanges [] [] accountId
  | None => call (GetElementsByServer server)
  end.

Definition getMaxAccumulableDropMatrixResults (server : string)
    (accountId : option Z) : result (list OneDropMatrixElement) :=
  do dropMatrixElements <- getDropMatrixElements server accountId;
  convertDropMatrixElementsToMaxAccumulableDropMatrixQueryResult
    (GetMaxAccumulableTimeRangesByServer server) dropMatrixElements.

(** The key of [LastModifiedTime] for a key of the shimmed results. *)
Definition lastModifiedKey (key : string) : string :=
  "[shimMaxAccumulableDropMatrixResults#server|showClosedZoned:" +:+ key +:+ "]".

(** [GetShimMaxAccumulableDropMatrixResults]: the result and the caches
    afterwards. *)
Definition GetShimMaxAccumulableDropMatrixResults (server : string)
    (showClosedZones : bool) (stageFilterStr itemFilterStr : string)
    (accountId : option Z) (caches : Caches)
  : result (list ShimOneDropMatrixElement) * Caches :=
  let useCache :=
    negb (bool_decide (is_Some accountId))
    && bool_decide (stageFilterStr = EmptyString)
    && bool_decide (itemFilterStr = EmptyString) in
  let key := server +:+ RedisSeparator +:+ FormatBool showClosedZones in
  match (if useCache
         then Cache.Get (ShimMaxAccumulableDropMatrixResults caches) key
         else Err ErrNotFound) with
  | Ok results => (Ok results, caches)
  | _ =>
    match getMaxAccumulableDropMatrixResults server accountId with
    | Ok savedDropMatrixResults =>
      match applyShimForDropMatrixQuery GetCurrentDropInfosByServer
              GetStageById GetItemById FakeEndTimeMilli server showClosedZones
              stageFilterStr itemFilterStr savedDropMatrixResults with
      | Ok slowResults =>
        if useCache then
          match Cache.Set_ key slowResults Hour24
                  (ShimMaxAccumulableDropMatrixResults caches) with
          | (None, results') =>
            (Ok slowResults,
             {| ShimMaxAccumulableDropMatrixResults := results';
                LastModifiedTime :=
                  (Cache.Set_ (lastModifiedKey key) Now 0
                     (LastModifiedTime caches)).2 |})
          | (Some _, results') =>
            (Ok slowResults,
             {| ShimMaxAccumulableDropMatrixResults := results';
                LastModifiedTime := LastModifiedTime caches |})
          end
        else (Ok slowResults, caches)
      | Err err => (Err err, caches)
      | Panic => (Panic, caches)
      end
    | Err err => (Err err, caches)
    | Panic => (Panic, caches)
    end
  end.

Definition GetShimCustomizedDropMatrixResults (server : string)
    (timeRange : TimeRange) (stageIds itemIds : list Z) (accountId : option Z)
  : result (list ShimOneDropMatrixElement) :=
  do customizedDropMatrixQueryResult <-
    QueryDropMatrix server [timeRange] stageIds itemIds accountId;
  applyShimForDropMatrixQuery GetCurrentDropInfosByServer GetStageById
    GetItemById FakeEndTimeMilli server true EmptyString EmptyString
    customizedDropMatrixQueryResult.

End EntryPoints.

(** ** Vocabulary for the laws of the service *)

(** What every element of the groups of a time range has. *)
Definition ofRange (server : string) (r : TimeRange) (e : DropMatrixElement)
  : Prop :=
  el_RangeID e = RangeID r ∧ el_Server e = server
  ∧ el_TimeRange e = inlineRange (RangeID r) r.

(** The time range the conversion gives to the elements of a range id:
    for the id 0 that of the first element of id 0, otherwise the one the
    time-range service knows. *)
Definition resolveTimeRange (GetTimeRangeById : Z → TimeRange + error)
    (dropMatrixElements : list DropMatrixElement) (rangeId : Z)
  : option TimeRange :=
  if decide (rangeId = 0) then
    head (filter (λ e, el_RangeID e = 0) dropMatrixElements) ≫= el_TimeRange
  else
    match GetTimeRangeById rangeId with
    | inl tr => Some tr
    | inr _ => None
    end.

(** The element of the query result for an element. *)
Definition oneOf (timeRange : option TimeRange) (el : DropMatrixElement)
  : OneDropMatrixElement :=
  {| one_StageID := el_StageID el; one_ItemID := el_ItemID el;
     one_Quantity := el_Quantity el; one_Times := el_Times el;
     one_TimeRange := timeRange |}.

(** The time ranges of all the chains. *)
Definition chainRanges (chains : gmap Z (gmap Z (list TimeRange)))
  : list TimeRange :=
  map_to_list chains ≫= λ stage, map_to_list stage.2 ≫= λ chain, chain.2.

End Service.

(** * The dataset controller ([cmd/service/bootstrap.go], package [v3]) *)

Module Dataset.
Import Service.

(** A request: its route parameters and its query string. *)
Record Ctx : Type := MkCtx {
  params : gmap string string;
  query : gmap string string
}.

(** fiber's [ctx.Params(key, default)] and [ctx.Query(key, default)]: the
    default stands for a value that is missing or empty. *)
Definition defaultString (value defaultValue : string) : string :=
  if decide (value = EmptyString) then defaultValue else value.

Definition Params (ctx : Ctx) (key defaultValue : string) : string :=
  defaultString (default EmptyString (params ctx !! key)) defaultValue.

Definition Query (ctx : Ctx) (key defaultValue : string) : string :=
  defaultString (default EmptyString (query ctx !! key)) defaultValue.

(** [strconv.ParseBool]. *)
Definition ParseBool (str : string) : bool + error :=
  if bool_decide (str ∈ ["1"; "t"; "T"; "TRUE"; "true"; "True"]) then inl true
  else if bool_decide (str ∈ ["0"; "f"; "F"; "FALSE"; "false"; "False"])
  then inl false
  else inr (ErrMsg "strconv.ParseBool: invalid syntax").

Section Controller.
(** [modelv2.OneItemTrend], the rest of a [modelv3.OnePatternMatrixElement]
    beside its stage, and what the pattern service returns. *)
Context {OneItemTrend PatternBody ShimPatternResult : Type}.

(** [modelv2.StageTrend]. *)
Record StageTrend : Type := MkStageTrend {
  st_StartTime : Z;
  st_Results : gmap string OneItemTrend
}.

Record OnePatternMatrixElement : Type := MkPattern {
  pm_StageID : string;
  pm_body : PatternBody
}.

(** [modelv3.AggregatedItemStats] and [modelv3.AggregatedStageStats]; the
    matrix elements are those of the shim. *)
Record AggregatedItemStats : Type := MkItemStats {
  ai_Matrix : list ShimOneDropMatrixElement;
  ai_Trends : gmap string StageTrend
}.

Record AggregatedStageStats : Type := MkStageStats {
  as_Matrix : list ShimOneDropMatrixElement;
  as_Trends : gmap string StageTrend;
  as_Patterns : list OnePatternMatrixElement
}.

(** [rekuest.ValidServer] and [rekuest.ValidCategory]: the error, or nil. *)
Variable ValidServer : Ctx → string → option error.
Variable ValidCategory : Ctx → string → option error.
(** [AccountService.GetAccountFromRequest]: the id of the account. *)
Variable GetAccountFromRequest : Ctx → Z + error.
(** [DropMatrixService.GetShimDropMatrix(ctx, server, showClosedZones,
    stageFilter, itemFilter, accountId, category)]. *)
Variable GetShimDropMatrix :
  string → bool → string → string → option Z → string →
  list ShimOneDropMatrixElement + error.
(** [TrendService.GetShimTrend]: the [Trend] map of its result. *)
Variable GetShimTrend : string → gmap string StageTrend + error.
(** [PatternMatrixService.GetShimPatternMatrix(ctx, server, accountId,
    category, showAllPatterns)]. *)
Variable GetShimPatternMatrix :
  string → option Z → string → bool → ShimPatternResult + error.
(** [copier.Copy] into a [modelv3.PatternMatrixQueryResult]: the
    [PatternMatrix] it ends with. *)
Variable copierCopy : ShimPatternResult → list OnePatternMatrixElement.

(** The account of a request: none unless the request is personal. *)
Definition accountOf (ctx : Ctx) (isPersonal : bool) : result (option Z) :=
  if isPersonal then
    do account <- call (GetAccountFromRequest ctx);
    Ok (Some account)
  else Ok None.

Definition aggregateMatrix (ctx : Ctx)
  : result (list ShimOneDropMatrixElement) :=
  let server := Params ctx "server" "CN" in
  match ValidServer ctx server with
  | Some err => Err err
  | None =>
    let category := Params ctx "category" "all" in
    match ValidCategory ctx category with
    | Some err => Err err
    | None =>
      let isPersonal :=
        bool_decide (Params ctx "source" EmptyString = "personal") in
      do accountId <- accountOf ctx isPersonal;
      call (GetShimDropMatrix server true EmptyString EmptyString accountId
              category)
    end
  end.

Definition aggregateTrend (ctx : Ctx) : result (gmap string StageTrend) :=
  let server := Params ctx "server" "CN" in
  match ValidServer ctx server with
  | Some err => Err err
  | None => call (GetShimTrend server)
  end.

Definition aggregatePattern (ctx : Ctx)
  : result (list OnePatternMatrixElement) :=
  let server := Query ctx "server" "CN" in
  match ValidServer ctx server with
  | Some err => Err err
  | None =>
    let showAllPatterns :=
      bool_decide (Query ctx "show_all_patterns" "false" = "true") in
    do isPersonal <- call (ParseBool (Query ctx "is_personal" "false"));
    do accountId <- accountOf ctx isPersonal;
    do shimResult <-
      call (GetShimPatternMatrix server accountId
              (Params ctx "category" EmptyString) showAllPatterns);
    Ok (copierCopy shimResult)
  end.

(** The body shared by the two loops over the trends: the entry of the
    stage is made when it is missing, then the trend of the item is put
    in its results. *)
Definition putTrend (trends : gmap string StageTrend) (stageId : string)
    (v : StageTrend) (itemId : string) (vv : OneItemTrend)
  : gmap string StageTrend :=
  let trends :=
    match trends !! stageId with
    | None =>
      <[stageId := {| st_StartTime := st_StartTime v; st_Results := ∅ |}]> trends
    | Some _ => trends
    end in
  alter (λ st, {| st_StartTime := st_StartTime st;
                  st_Results := <[itemId := vv]> (st_Results st) |})
    stageId trends.

(** The loops over [trend.Trend] of [AggregatedItem]. *)
Definition itemTrends (ctx : Ctx) (trend : gmap string StageTrend)
  : gmap string StageTrend :=
  fold_left (λ trends sv,
    fold_left (λ trends iv,
      if decide (iv.1 ≠ Params ctx "itemId" EmptyString) then trends
      else putTrend trends sv.1 sv.2 iv.1 iv.2)
      (map_to_list (st_Results sv.2)) trends)
    (map_to_list trend) ∅.

(** [AggregatedItem]: the value handed to [ctx.JSON]. *)
Definition AggregatedItem (ctx : Ctx) : result AggregatedItemStats :=
  let itemId := Params ctx "itemId" EmptyString in
  do matrix <- aggregateMatrix ctx;
  let aggregatedMatrix := filter (λ el, shim_ItemID el = itemId) matrix in
  do trend <- aggregateTrend ctx;
  Ok {| ai_Matrix := aggregatedMatrix; ai_Trends := itemTrends ctx trend |}.

(** The loops over [trend.Trend] of [AggregatedStage]. *)
Definition stageTrends (stageId : string) (trend : gmap string StageTrend)
  : gmap string StageTrend :=
  fold_left (λ trends sv,
    if decide (sv.1 ≠ stageId) then trends
    else
      fold_left (λ trends iv, putTrend trends sv.1 sv.2 iv.1 iv.2)
        (map_to_list (st_Results sv.2)) trends)
    (map_to_list trend) ∅.

(** [AggregatedStage]: the value handed to [ctx.JSON]. *)
Definition AggregatedStage (ctx : Ctx) : result AggregatedStageStats :=
  let stageId := Params ctx "stageId" EmptyString in
  do matrix <- aggregateMatrix ctx;
  let aggregatedMatrix := filter (λ el, shim_StageID el = stageId) matrix in
  do trend <- aggregateTrend ctx;
  let trends := stageTrends stageId trend in
  do pattern <- aggregatePattern ctx;
  Ok {| as_Matrix := aggregatedMatrix; as_Trends := trends;
        as_Patterns := filter (λ el, pm_StageID el = stageId) pattern |}.

End Controller.

Arguments StageTrend : clear implicits.
Arguments OnePatternMatrixElement : clear implicits.
Arguments AggregatedItemStats : clear implicits.
Arguments AggregatedStageStats : clear implicits.

(** The trend [AggregatedItem] keeps for a stage: that of the item alone,
    when the stage has one. *)
Definition itemTrendOf {OneItemTrend : Type} (itemId : string)
    (v : StageTrend OneItemTrend) : option (StageTrend OneItemTrend) :=
  match st_Results v !! itemId with
  | Some vv =>
    Some {| st_StartTime := st_StartTime v; st_Results := {[itemId := vv]} |}
  | None => None
  end.

End Dataset.

(** * Sample inputs *)

Module Examples.
Import Service.

(** A sentinel for open-ended ranges, and a query result of one element
    of stage 1 and item 2 in a range that ends at the sentinel; a stage
    and an item repository that know them, and a stage repository that
    knows no stage. *)
Definition FakeEndTimeMilli_ex : Z := 62141368179000.

Definition openRange_ex : TimeRange :=
  {| RangeID := 3; StartTime := 1556676000000 * 1000000;
     EndTime := FakeEndTimeMilli_ex * 1000000 |}.

Definition oneElement_ex : OneDropMatrixElement :=
  {| one_StageID := 1; one_ItemID := 2; one_Quantity := 15; one_Times := 150;
     one_TimeRange := Some openRange_ex |}.

Definition stageRepo_ex (id : Z) : Stage + error :=
  if decide (id = 1) then inl {| ArkStageID := "main_01-07" |}
  else inr (ErrMsg "stage not found").

Definition itemRepo_ex (id : Z) : Item + error :=
  if decide (id = 2) then inl {| ArkItemID := "30012" |}
  else inr (ErrMsg "item not found").

Definition noStage_ex (id : Z) : Stage + error :=
  inr (ErrMsg "stage not found").

(** Two time ranges, with reports of item 1 at stage 1 in both; items 1
    and 2 are expected to drop at stage 1. *)
Definition range1_ex : TimeRange :=
  {| RangeID := 1; StartTime := 0; EndTime := 10 |}.

Definition range2_ex : TimeRange :=
  {| RangeID := 2; StartTime := 10; EndTime := 20 |}.

Definition quantityQuery_ex (server : string) (r : TimeRange)
    (dropInfos : list DropInfo) (accountId : option Z)
  : list TotalQuantityResultForDropMatrix + error :=
  inl [{| tq_StageID := 1; tq_ItemID := 1; tq_TotalQuantity := 5 * RangeID r |}].

Definition timesQuery_ex (server : string) (r : TimeRange)
    (dropInfos : list DropInfo) (accountId : option Z)
  : list TotalTimesResult + error :=
  inl [{| tt_StageID := 1; tt_TotalTimes := 2 * RangeID r |}].

Definition dropInfos_ex (server : string) (timeRanges : list TimeRange)
    (stageIdFilter itemIdFilter : list Z) : list DropInfo + error :=
  inl [{| di_StageID := 1; di_ItemID := Some 1 |};
       {| di_StageID := 1; di_ItemID := Some 2 |}].

Definition dropSet_ex (server : string) (stageId rangeId : Z) : list Z := [1; 2].

(** A drop-info repository that is down. *)
Definition dropInfosDown_ex (server : string) (timeRanges : list TimeRange)
    (stageIdFilter itemIdFilter : list Z) : list DropInfo + error :=
  inr (ErrMsg "connection refused").

(** A chain of two ranges for stage 1 and item 1, and an element for
    each of the ranges. *)
Definition wideRange_ex : TimeRange :=
  {| RangeID := 1; StartTime := 0; EndTime := 100 |}.

Definition chains_ex : gmap Z (gmap Z (list TimeRange)) :=
  {[ 1 := {[ 1 := [wideRange_ex; range2_ex] ]} ]}.

Definition element1_ex : DropMatrixElement :=
  {| el_StageID := 1; el_ItemID := 1; el_RangeID := 1; el_Quantity := 10;
     el_Times := 100; el_Server := "CN"; el_TimeRange := None |}.

Definition element2_ex : DropMatrixElement :=
  {| el_StageID := 1; el_ItemID := 1; el_RangeID := 2; el_Quantity := 5;
     el_Times := 50; el_Server := "CN"; el_TimeRange := None |}.

(** Repositories for the entry points: every item resolves, the time
    range 2 is known, the saved elements are those of the chain, stage 1
    is open; and two empty cache sets. *)
Definition itemRepoAll_ex (id : Z) : Item + error :=
  inl {| ArkItemID := "30012" |}.

Definition rangeRepo_ex (id : Z) : TimeRange + error :=
  if decide (id = 2) then inl range2_ex
  else inr (ErrMsg "time range not found").

Definition chainsRepo_ex (server : string)
  : gmap Z (gmap Z (list TimeRange)) + error := inl chains_ex.

Definition chainsDown_ex (server : string)
  : gmap Z (gmap Z (list TimeRange)) + error :=
  inr (ErrMsg "connection refused").

Definition elementsRepo_ex (server : string) : list DropMatrixElement + error :=
  inl [element1_ex; element2_ex].

Definition elementsDown_ex (server : string) : list DropMatrixElement + error :=
  inr (ErrMsg "connection refused").

Definition currentDropInfos_ex (server : string) : list DropInfo + error :=
  inl [{| di_StageID := 1; di_ItemID := Some 1 |}].

Definition caches_ex : Caches :=
  {| ShimMaxAccumulableDropMatrixResults :=
       Cache.NewSet "shimMaxAccumulableDropMatrixResults";
     LastModifiedTime := Cache.NewSet "lastModifiedTime" |}.

(** The time ranges of a server and a store that accepts every batch. *)
Definition timeRanges_ex (server : string) : list TimeRange + error :=
  inl [range1_ex; range2_ex].

Definition timeRangesDown_ex (server : string) : list TimeRange + error :=
  inr (ErrMsg "connection refused").

Definition batchSave_ex (elements : list DropMatrixElement) (server : string)
  : option error := None.

(** A request of the dataset controller for the item 30012 and the stage
    main_01-07, with services that answer one matrix element and one
    trend for them. *)
Definition ctx_ex : Dataset.Ctx :=
  {| Dataset.params :=
       {[ "server" := "CN"; "itemId" := "30012"; "stageId" := "main_01-07" ]};
     Dataset.query := ∅ |}.

Definition valid_ex (ctx : Dataset.Ctx) (value : string) : option error := None.

Definition account_ex (ctx : Dataset.Ctx) : Z + error := inl 7.

Definition shimMatrix_ex (server : string) (showClosedZones : bool)
    (stageFilter itemFilter : string) (accountId : option Z)
    (category : string) : list ShimOneDropMatrixElement + error :=
  inl [{| shim_StageID := "main_01-07"; shim_ItemID := "30012";
          shim_Quantity := 15; shim_Times := 150; shim_StartTime := 0;
          shim_EndTime := None |};
       {| shim_StageID := "main_01-08"; shim_ItemID := "30013";
          shim_Quantity := 1; shim_Times := 10; shim_StartTime := 0;
          shim_EndTime := None |}].

Definition shimTrend_ex (server : string)
  : gmap string (Dataset.StageTrend Z) + error :=
  inl {[ "main_01-07" :=
           {| Dataset.st_StartTime := 0;
              Dataset.st_Results := {[ "30012" := 1; "30013" := 2 ]} |};
         "main_01-08" :=
           {| Dataset.st_StartTime := 5;
              Dataset.st_Results := {[ "30013" := 3 ]} |} ]}.

Definition shimPattern_ex (server : string) (accountId : option Z)
    (category : string) (showAllPatterns : bool) : unit + error := inl tt.

Definition copier_ex (shimResult : unit)
  : list (Dataset.OnePatternMatrixElement Z) :=
  [{| Dataset.pm_StageID := "main_01-07"; Dataset.pm_body := 1 |};
   {| Dataset.pm_StageID := "main_01-08"; Dataset.pm_body := 2 |}].


(** The reflective copy into a [dest] of type [*int], for a store that
    holds integers ([Some]) and nil values ([None]): a nil value cannot
    be copied. *)
Definition copyInt_ex (value : option Z) : option Z := value.

End Examples.

(** * Properties of the cache set *)

Module CacheSpec.
Import Cache.

Section Facts.
Context {V : Type}.
Implicit Types (s : CSet V) (w : World V) (k : string)
  (valueFunc : unit → V + error).

Lemma Get_Set_eq s k v expire : Get (Set_ k v expire s).2 k = Ok v.
Proof.
  unfold Get, Set_, key; simpl. by rewrite lookup_insert_eq.
Qed.

(** What [slowMutexGetSet] does when the mutex is free, the key is
    absent on the locked re-check and the producer fails. *)
Lemma slowMutexGetSet_producer_error k valueFunc expire w e :
  m (cset w) = false →
  Get (cset w) k = Err ErrNotFound →
  valueFunc tt = inr e →
  slowMutexGetSet k valueFunc expire w
  = Some (Some e, None,
          {| cset := cset w;
             log := log w ++ [LogError k e msg_valueFunc];
             produced := S (produced w) |}).
Proof.
  intros Hm Hget Hf. destruct w as [[m0 p0 c0] l0 n0]; simpl in *. subst m0.
  unfold slowMutexGetSet, Lock; simpl.
  unfold slowBody; simpl.
  unfold Get, key in *; simpl in *.
  destruct (c0 !! (p0 +:+ k)) as [[v ex]|]; [done|].
  rewrite Hf. reflexivity.
Qed.

(** ... and when the producer succeeds. *)
Lemma slowMutexGetSet_producer_ok k valueFunc expire w v :
  m (cset w) = false →
  Get (cset w) k = Err ErrNotFound →
  valueFunc tt = inl v →
  slowMutexGetSet k valueFunc expire w
  = Some (None, Some v,
          {| cset := (Set_ k v expire (cset w)).2;
             log := log w;
             produced := S (produced w) |}).
Proof.
  intros Hm Hget Hf. destruct w as [[m0 p0 c0] l0 n0]; simpl in *. subst m0.
  unfold slowMutexGetSet, Lock; simpl.
  unfold slowBody; simpl.
  unfold Get, key in *; simpl in *.
  destruct (c0 !! (p0 +:+ k)) as [[v' ex]|]; [done|].
  rewrite Hf. reflexivity.
Qed.

(** When the key is there on the locked re-check, the producer is not
    run, the cached value is returned, and [MutexGetSet] still answers
    [true]. *)
Lemma MutexGetSet_recheck_hit env k valueFunc expire w v :
  Get (cset w) k = Err ErrNotFound →
  m (env (cset w)) = false →
  Get (env (cset w)) k = Ok v →
  MutexGetSet env k valueFunc expire w
  = Some (true, None, Some v,
          {| cset := env (cset w); log := log w; produced := produced w |}).
Proof.
  intros Hmiss Hm Hhit. unfold MutexGetSet. rewrite Hmiss.
  unfold slowMutexGetSet, Lock; simpl. rewrite Hm.
  unfold slowBody; simpl.
  destruct (env (cset w)) as [m1 p1 c1] eqn:E; simpl in *. subst m1.
  unfold Get, key in *; simpl in *.
  destruct (c1 !! (p1 +:+ k)) as [[v' ex]|]; [|done].
  by simplify_eq.
Qed.

(** The three ways in which [slowMutexGetSet] returns. *)
Lemma slowMutexGetSet_cases k valueFunc expire w err dest w' :
  slowMutexGetSet k valueFunc expire w = Some (err, dest, w') →
  (∃ v, Get (cset w) k = Ok v ∧ err = None ∧ dest = Some v
        ∧ log w' = log w ∧ produced w' = produced w)
  ∨ (∃ v, Get (cset w) k = Err ErrNotFound ∧ valueFunc tt = inl v
          ∧ err = None ∧ dest = Some v
          ∧ log w' = log w ∧ produced w' = S (produced w))
  ∨ (∃ e, Get (cset w) k = Err ErrNotFound ∧ valueFunc tt = inr e
          ∧ err = Some e ∧ dest = None
          ∧ log w' = log w ++ [LogError k e msg_valueFunc]
          ∧ produced w' = S (produced w)).
Proof.
  unfold slowMutexGetSet, Lock.
  destruct w as [[m0 p0 c0] l0 n0]; simpl.
  destruct m0; [done|]. unfold slowBody, Get, key; simpl.
  destruct (c0 !! (p0 +:+ k)) as [[v ex]|]; simpl.
  - intros [= <- <- <-]. left. by exists v.
  - destruct (valueFunc tt) as [v|e]; simpl; intros [= <- <- <-]; right.
    + left. by exists v.
    + right. by exists e.
Qed.

End Facts.

(** C5 (the code departs from the claim).  The key is absent at the first
    [Get]; another goroutine stores 7 under it before the lock is taken.
    [MutexGetSet] then returns the cached 7 without running the producer
    (the counter stays 0), and its first return value is [true], although
    the comment above it says that [true] means calculated. *)
Theorem MutexGetSet_true_on_cached_value :
  let w0 : World Z := {| cset := NewSet "drops"; log := []; produced := 0 |} in
  let other_goroutine := λ s : CSet Z, (Set_ "CN" 7 0 s).2 in
  ∃ w', MutexGetSet other_goroutine "CN" (λ _, inl 42) 60 w0
        = Some (true, None, Some 7, w')
        ∧ produced w' = 0%nat
        ∧ log w' = [].
Proof.
  eexists. split; [|split].
  - apply MutexGetSet_recheck_hit; [reflexivity | reflexivity |].
    apply Get_Set_eq.
  - reflexivity.
  - reflexivity.
Qed.

(** C6.  When the key is absent (at the first [Get] and at the locked
    re-check) and the producer returns an error, [MutexGetSet] returns
    that error, writes nothing to [dest], leaves the store as it found it
    under the lock, and releases the mutex; a later call finds the mutex
    free and runs its producer again. *)
Theorem MutexGetSet_producer_error {V : Type} (env : CSet V → CSet V)
    (k : string) (valueFunc : unit → V + error) (expire : Z) (w : World V)
    (e : error) :
  Get (cset w) k = Err ErrNotFound →
  m (env (cset w)) = false →
  Get (env (cset w)) k = Err ErrNotFound →
  valueFunc tt = inr e →
  ∃ w',
    MutexGetSet env k valueFunc expire w = Some (true, Some e, None, w')
    ∧ c (cset w') = c (env (cset w))
    ∧ Get (cset w') k = Err ErrNotFound
    ∧ m (cset w') = false
    ∧ produced w' = S (produced w)
    ∧ ∀ (valueFunc2 : unit → V + error) (expire2 : Z) (v : V),
        valueFunc2 tt = inl v →
        ∃ w'',
          MutexGetSet id k valueFunc2 expire2 w' = Some (true, None, Some v, w'')
          ∧ produced w'' = S (produced w')
          ∧ Get (cset w'') k = Ok v.
Proof.
  intros Hmiss Hm Hmiss' Hf.
  eexists. split.
  { unfold MutexGetSet. rewrite Hmiss.
    rewrite (slowMutexGetSet_producer_error _ _ _ _ e); [reflexivity|done..]. }
  simpl. repeat split; try done.
  intros valueFunc2 expire2 v Hf2.
  eexists. split.
  { unfold MutexGetSet; simpl. rewrite Hmiss'.
    rewrite (slowMutexGetSet_producer_ok _ _ _ _ v); [reflexivity|done..]. }
  simpl. split; [done|]. apply Get_Set_eq.
Qed.

Lemma MutexGetSet_producer_error_witness :
  let w0 : World Z := {| cset := NewSet "drops"; log := []; produced := 0 |} in
  ∃ w', MutexGetSet id "CN" (λ _, inr (ErrMsg "boom")) 60 w0
        = Some (true, Some (ErrMsg "boom"), None, w')
        ∧ m (cset w') = false.
Proof.
  destruct (MutexGetSet_producer_error (V:=Z) id "CN"
              (λ _, inr (ErrMsg "boom")) 60
              {| cset := NewSet "drops"; log := []; produced := 0 |}
              (ErrMsg "boom"))
    as (w' & Hrun & _ & _ & Hm & _); [reflexivity..|].
  exists w'. split; [exact Hrun | exact Hm].
Defined.

(** C9.  [Set], [Delete] and [Clear] return a nil error whatever they
    are given.  Hence [slowMutexGetSet] never logs that setting the value
    failed, and when it returns an error, the key was absent under the
    lock and the error is the producer's. *)
Theorem Set_Delete_Clear_nil {V : Type} (k : string) (value : V) (expire : Z)
    (s : CSet V) (valueFunc : unit → V + error) (w : World V) :
  (Set_ k value expire s).1 = None
  ∧ (Delete k s).1 = None
  ∧ (Clear s).1 = None
  ∧ ∀ err dest w',
      slowMutexGetSet k valueFunc expire w = Some (err, dest, w') →
      (∀ e, LogError k e msg_set ∉ drop (length (log w)) (log w'))
      ∧ ∀ e, err = Some e →
             valueFunc tt = inr e
             ∧ Get (cset w) k = Err ErrNotFound
             ∧ log w' = log w ++ [LogError k e msg_valueFunc].
Proof.
  split; [reflexivity|]. split; [reflexivity|]. split; [reflexivity|].
  intros err dest w' Hrun.
  destruct (slowMutexGetSet_cases _ _ _ _ _ _ _ Hrun)
    as [(v & _ & -> & _ & Hlog & _)
       |[(v & _ & _ & -> & _ & Hlog & _)
        |(e0 & Hget & Hf & -> & _ & Hlog & _)]].
  - split; [|done]. intros e. rewrite Hlog, drop_all. apply not_elem_of_nil.
  - split; [|done]. intros e. rewrite Hlog, drop_all. apply not_elem_of_nil.
  - split.
    + intros e. rewrite Hlog, drop_app_length, list_elem_of_singleton.
      by intros [=].
    + by intros e [= <-].
Qed.

Lemma Set_Delete_Clear_nil_witness :
  let w0 : World Z := {| cset := NewSet "drops"; log := []; produced := 0 |} in
  let failing : unit → Z + error := λ _, inr (ErrMsg "boom") in
  ∃ w', slowMutexGetSet "CN" failing 60 w0 = Some (Some (ErrMsg "boom"), None, w')
        ∧ failing tt = inr (ErrMsg "boom")
        ∧ log w' = [LogError "CN" (ErrMsg "boom") msg_valueFunc].
Proof.
  eexists. split; [reflexivity|].
  destruct (Set_Delete_Clear_nil (V:=Z) "CN" 0 60 (NewSet "drops")
              (λ _, inr (ErrMsg "boom"))
              {| cset := NewSet "drops"; log := []; produced := 0 |})
    as (_ & _ & _ & Hslow).
  destruct (Hslow _ _ _ eq_refl) as [_ Herr].
  destruct (Herr _ eq_refl) as (Hf & _ & Hlog).
  split; [exact Hf | exact Hlog].
Defined.

End CacheSpec.

(** * Properties of the drop-matrix service *)

Module ServiceSpec.
Import Service Examples.

(** ** Combining two results *)

Lemma int_add_comm x y : int_add x y = int_add y x.
Proof. unfold int_add. by rewrite Z.add_comm. Qed.

Lemma combineDropMatrixResults_Ok a b r :
  combineDropMatrixResults a b = Ok r →
  one_StageID a = one_StageID b ∧ one_ItemID a = one_ItemID b
  ∧ r = {| one_StageID := one_StageID a; one_ItemID := one_ItemID a;
           one_Quantity := int_add (one_Quantity a) (one_Quantity b);
           one_Times := int_add (one_Times a) (one_Times b);
           one_TimeRange := None |}.
Proof.
  unfold combineDropMatrixResults.
  destruct (decide (one_StageID a ≠ one_StageID b)) as [|Hs%dec_stable]; [done|].
  destruct (decide (one_ItemID a ≠ one_ItemID b)) as [|Hi%dec_stable]; [done|].
  by intros [= <-].
Qed.

Lemma combineDropMatrixResults_same a b :
  one_StageID a = one_StageID b → one_ItemID a = one_ItemID b →
  combineDropMatrixResults a b
  = Ok {| one_StageID := one_StageID a; one_ItemID := one_ItemID a;
          one_Quantity := int_add (one_Quantity a) (one_Quantity b);
          one_Times := int_add (one_Times a) (one_Times b);
          one_TimeRange := None |}.
Proof.
  intros Hs Hi. unfold combineDropMatrixResults.
  destruct (decide (one_StageID a ≠ one_StageID b)); [done|].
  by destruct (decide (one_ItemID a ≠ one_ItemID b)).
Qed.

Lemma combineDropMatrixResults_Err a b :
  (∃ e, combineDropMatrixResults a b = Err e)
  ↔ (one_StageID a ≠ one_StageID b ∨ one_ItemID a ≠ one_ItemID b).
Proof.
  unfold combineDropMatrixResults.
  destruct (decide (one_StageID a ≠ one_StageID b)) as [|Hs%dec_stable].
  { split; eauto. }
  destruct (decide (one_ItemID a ≠ one_ItemID b)) as [|Hi%dec_stable].
  { split; eauto. }
  split; [by intros [e ?]|]. intros [?|?]; congruence.
Qed.

(** C10.  [combineDropMatrixResults a b] returns an error exactly when
    [combineDropMatrixResults b a] does, which is when the stage ids or
    the item ids differ; it never panics; and when both succeed the two
    results agree on stage id, item id, quantity and times. *)
Theorem combineDropMatrixResults_comm (a b : OneDropMatrixElement) :
  ((∃ e, combineDropMatrixResults a b = Err e)
   ↔ (∃ e, combineDropMatrixResults b a = Err e))
  ∧ ((∃ e, combineDropMatrixResults a b = Err e)
     ↔ (one_StageID a ≠ one_StageID b ∨ one_ItemID a ≠ one_ItemID b))
  ∧ combineDropMatrixResults a b ≠ Panic
  ∧ ∀ r1 r2,
      combineDropMatrixResults a b = Ok r1 →
      combineDropMatrixResults b a = Ok r2 →
      one_StageID r1 = one_StageID r2 ∧ one_ItemID r1 = one_ItemID r2
      ∧ one_Quantity r1 = one_Quantity r2 ∧ one_Times r1 = one_Times r2.
Proof.
  split; [|split; [|split]].
  - rewrite !combineDropMatrixResults_Err.
    split; (intros [?|?]; [left|right]; congruence).
  - apply combineDropMatrixResults_Err.
  - unfold combineDropMatrixResults. by repeat case_decide.
  - intros r1 r2 H1 H2.
    destruct (combineDropMatrixResults_Ok _ _ _ H1) as (Hs & Hi & ->).
    destruct (combineDropMatrixResults_Ok _ _ _ H2) as (_ & _ & ->). simpl.
    by rewrite Hs, Hi, (int_add_comm (one_Quantity a)),
      (int_add_comm (one_Times a)).
Qed.

Lemma combineDropMatrixResults_comm_witness :
  let a := {| one_StageID := 1; one_ItemID := 2; one_Quantity := 10;
              one_Times := 100; one_TimeRange := None |} in
  let b := {| one_StageID := 1; one_ItemID := 2; one_Quantity := 5;
              one_Times := 50; one_TimeRange := None |} in
  ∃ r1 r2, combineDropMatrixResults a b = Ok r1
           ∧ combineDropMatrixResults b a = Ok r2
           ∧ one_Quantity r1 = one_Quantity r2 ∧ one_Times r1 = one_Times r2.
Proof.
  intros a b.
  destruct (combineDropMatrixResults_comm a b) as (_ & _ & _ & Hok).
  eexists _, _. split; [reflexivity|]. split; [reflexivity|].
  destruct (Hok _ _ eq_refl eq_refl) as (_ & _ & Hq & Ht).
  split; [exact Hq | exact Ht].
Defined.

(** ** The shim *)

Section ShimFacts.
Variable GetCurrentDropInfosByServer : string → list DropInfo + error.
Variable GetStageById : Z → Stage + error.
Variable GetItemById : Z → Item + error.
Variable FakeEndTimeMilli : Z.

Let loop := shimLoop GetStageById GetItemById FakeEndTimeMilli.

Lemma shimElement_reshapes stage item el timeRange :
  GetStageById (one_StageID el) = inl stage →
  GetItemById (one_ItemID el) = inl item →
  one_TimeRange el = Some timeRange →
  reshapes GetStageById GetItemById FakeEndTimeMilli el
    (shimElement FakeEndTimeMilli stage item el timeRange).
Proof.
  intros Hs Hi Ht. unfold reshapes, shimElement; simpl.
  split; [done|]. split; [done|]. split; [by exists stage, item|].
  exists timeRange. split; [done|]. split; [done|].
  case_decide; naive_solver.
Qed.

Lemma shimLoop_spec show opening sset iset matrix acc results :
  loop show opening sset iset matrix acc = Ok results →
  ∃ out, results = acc ++ out
         ∧ Forall2 (reshapes GetStageById GetItemById FakeEndTimeMilli)
             (filter (λ el, passesFilters GetStageById GetItemById show
                              opening sset iset el = true) matrix) out.
Proof.
  unfold loop. revert acc. induction matrix as [|el rest IH]; intros acc; simpl.
  { intros [= <-]. exists []. by rewrite app_nil_r. }
  destruct (negb show && negb (Contains opening (one_StageID el))) eqn:Hopen.
  { intros H. destruct (IH _ H) as (out & -> & Hout). exists out.
    split; [done|]. rewrite filter_cons_False; [done|].
    unfold passesFilters, passesOpenZone.
    destruct show, (Contains opening (one_StageID el)); done. }
  assert (show || Contains opening (one_StageID el) = true) as Hopen'.
  { destruct show, (Contains opening (one_StageID el)); done. }
  destruct (GetStageById (one_StageID el)) as [stage|e] eqn:Hstage;
    simpl; [|done].
  destruct (excludedBy sset (ArkStageID stage)) eqn:Hsx; simpl.
  { intros H. destruct (IH _ H) as (out & -> & Hout). exists out.
    split; [done|]. rewrite filter_cons_False; [done|].
    unfold passesFilters. rewrite Hstage, Hsx.
    by rewrite andb_false_r. }
  destruct (GetItemById (one_ItemID el)) as [item|e] eqn:Hitem;
    simpl; [|done].
  destruct (excludedBy iset (ArkItemID item)) eqn:Hix; simpl.
  { intros H. destruct (IH _ H) as (out & -> & Hout). exists out.
    split; [done|]. rewrite filter_cons_False; [done|].
    unfold passesFilters. rewrite Hstage, Hsx, Hitem, Hix.
    by rewrite andb_false_r. }
  destruct (one_TimeRange el) as [timeRange|] eqn:Htr; [|done].
  intros H. destruct (IH _ H) as (out & -> & Hout).
  exists (shimElement FakeEndTimeMilli stage item el timeRange :: out).
  split; [by rewrite <- app_assoc|].
  rewrite filter_cons_True.
  - constructor; [|done]. by apply shimElement_reshapes.
  - unfold passesFilters, passesOpenZone.
    by rewrite Hopen', Hstage, Hsx, Hitem, Hix.
Qed.

(** C7.  When the shim returns a result, its elements are, in order,
    the reshapings of the input elements that pass the view filters, one
    for each: quantity and times are the input's, the start time is the
    range's start in Unix milliseconds, and the end time is the range's
    end in Unix milliseconds, or null exactly when that is the
    sentinel. *)
Theorem applyShimForDropMatrixQuery_reshapes (server : string)
    (showClosedZones : bool) (stageFilterStr itemFilterStr : string)
    (queryResult : list OneDropMatrixElement)
    (results : list ShimOneDropMatrixElement) :
  applyShimForDropMatrixQuery GetCurrentDropInfosByServer GetStageById
    GetItemById FakeEndTimeMilli server showClosedZones stageFilterStr
    itemFilterStr queryResult = Ok results →
  Forall2 (reshapes GetStageById GetItemById FakeEndTimeMilli)
    (filter (λ el, passesFilters GetStageById GetItemById showClosedZones
                     (openStages GetCurrentDropInfosByServer server showClosedZones)
                     (filterSet stageFilterStr) (filterSet itemFilterStr) el
                   = true) queryResult)
    results.
Proof.
  unfold applyShimForDropMatrixQuery, openStages. intros H.
  destruct showClosedZones; simpl in H.
  - apply shimLoop_spec in H as (out & -> & Hout). done.
  - destruct (GetCurrentDropInfosByServer server) as [infos|e]; [|done].
    simpl in H. apply shimLoop_spec in H as (out & -> & Hout). done.
Qed.

(** An element whose id does not resolve when it is looked up stops the
    loop: with an error, when the elements before it carry their time
    range; otherwise with an error or with the nil dereference of one of
    them. *)
Lemma shimLoop_unresolved_at show opening sset iset pre el post acc :
  unresolvedWhenLookedUp GetStageById GetItemById show opening sset el →
  (∀ results, loop show opening sset iset (pre ++ el :: post) acc ≠ Ok results)
  ∧ (Forall (λ x, is_Some (one_TimeRange x)) pre →
     ∃ e, loop show opening sset iset (pre ++ el :: post) acc = Err e).
Proof.
  unfold loop. intros [Hopen Hbad]. revert acc.
  assert (∀ acc, ∃ e,
            shimLoop GetStageById GetItemById FakeEndTimeMilli show opening
              sset iset (el :: post) acc = Err e) as Hel.
  { intros acc. simpl. unfold passesOpenZone in Hopen.
    replace (negb show && negb (Contains opening (one_StageID el)))
      with false by (by destruct show, (Contains opening (one_StageID el))).
    destruct Hbad as [[e He]|(stage & e & Hs & Hx & Hi)].
    - rewrite He. simpl. eauto.
    - rewrite Hs. simpl. rewrite Hx, Hi. simpl. eauto. }
  induction pre as [|x pre IH]; intros acc.
  { destruct (Hel acc) as [e He]. simpl app. rewrite He.
    split; [done|eauto]. }
  rewrite <- app_comm_cons. simpl.
  destruct (negb show && negb (Contains opening (one_StageID x))).
  { destruct (IH acc) as [Hok Herr]. split; [done|].
    intros Hwf. apply Forall_cons in Hwf as [_ Hwf]. auto. }
  destruct (GetStageById (one_StageID x)) as [stage|e]; simpl;
    [|split; [done|eauto]].
  destruct (excludedBy sset (ArkStageID stage)).
  { destruct (IH acc) as [Hok Herr]. split; [done|].
    intros Hwf. apply Forall_cons in Hwf as [_ Hwf]. auto. }
  destruct (GetItemById (one_ItemID x)) as [item|e]; simpl;
    [|split; [done|eauto]].
  destruct (excludedBy iset (ArkItemID item)).
  { destruct (IH acc) as [Hok Herr]. split; [done|].
    intros Hwf. apply Forall_cons in Hwf as [_ Hwf]. auto. }
  destruct (one_TimeRange x) as [tr|] eqn:Htrx.
  - destruct (IH (acc ++ [shimElement FakeEndTimeMilli stage item x tr]))
      as [Hok Herr].
    split; [done|].
    intros Hwf. apply Forall_cons in Hwf as [_ Hwf]. auto.
  - split; [done|]. intros Hwf. apply Forall_cons in Hwf as [[tr Htr] _].
    congruence.
Qed.

(** C8, as the code has it.  Take an element with an id that does not
    resolve when it is looked up: its stage id, if the open-zone filter
    lets the element through; its item id, if moreover the stage filter
    does.  The query returns no result, so that the element is not
    skipped; and it returns an error when the elements before that one
    carry their time range (an element without its time range that
    passes the filters is a nil dereference). *)
Theorem applyShimForDropMatrixQuery_unresolved (server : string)
    (showClosedZones : bool) (stageFilterStr itemFilterStr : string)
    (pre : list OneDropMatrixElement) (el : OneDropMatrixElement)
    (post : list OneDropMatrixElement) :
  unresolvedWhenLookedUp GetStageById GetItemById showClosedZones
    (openStages GetCurrentDropInfosByServer server showClosedZones)
    (filterSet stageFilterStr) el →
  (∀ results,
     applyShimForDropMatrixQuery GetCurrentDropInfosByServer GetStageById
       GetItemById FakeEndTimeMilli server showClosedZones stageFilterStr
       itemFilterStr (pre ++ el :: post) ≠ Ok results)
  ∧ (Forall (λ x, is_Some (one_TimeRange x)) pre →
     ∃ e,
       applyShimForDropMatrixQuery GetCurrentDropInfosByServer GetStageById
         GetItemById FakeEndTimeMilli server showClosedZones stageFilterStr
         itemFilterStr (pre ++ el :: post) = Err e).
Proof.
  unfold applyShimForDropMatrixQuery, openStages. intros Hbad.
  destruct showClosedZones; simpl.
  - by apply shimLoop_unresolved_at.
  - destruct (GetCurrentDropInfosByServer server) as [infos|e]; simpl;
      [|split; [done|eauto]].
    by apply shimLoop_unresolved_at.
Qed.

End ShimFacts.

Lemma applyShimForDropMatrixQuery_reshapes_witness :
  Forall2 (reshapes stageRepo_ex itemRepo_ex FakeEndTimeMilli_ex)
    [oneElement_ex]
    [{| shim_StageID := "main_01-07"; shim_ItemID := "30012";
        shim_Quantity := 15; shim_Times := 150;
        shim_StartTime := 1556676000000; shim_EndTime := None |}].
Proof.
  apply (applyShimForDropMatrixQuery_reshapes (λ _, inl []) stageRepo_ex
           itemRepo_ex FakeEndTimeMilli_ex "CN" true "main_01-07" ""
           [oneElement_ex]).
  vm_compute. reflexivity.
Defined.

(** C8, as stated, fails: with closed zones hidden and no stage open, an
    element whose stage id does not resolve is skipped by the open-zone
    filter before the lookup, and the query succeeds. *)
Lemma applyShimForDropMatrixQuery_skips_unresolved :
  noStage_ex (one_StageID oneElement_ex) = inr (ErrMsg "stage not found")
  ∧ applyShimForDropMatrixQuery (λ _, inl []) noStage_ex itemRepo_ex
      FakeEndTimeMilli_ex "CN" false "" "" [oneElement_ex] = Ok [].
Proof. split; reflexivity. Qed.

Lemma applyShimForDropMatrixQuery_unresolved_witness :
  (∀ results,
     applyShimForDropMatrixQuery (λ _, inl []) noStage_ex itemRepo_ex
       FakeEndTimeMilli_ex "CN" true "" "" [oneElement_ex; oneElement_ex]
     ≠ Ok results)
  ∧ ∃ e,
      applyShimForDropMatrixQuery (λ _, inl []) noStage_ex itemRepo_ex
        FakeEndTimeMilli_ex "CN" true "" "" [oneElement_ex; oneElement_ex]
      = Err e.
Proof.
  destruct (applyShimForDropMatrixQuery_unresolved (λ _, inl []) noStage_ex
              itemRepo_ex FakeEndTimeMilli_ex "CN" true "" ""
              [oneElement_ex] oneElement_ex []) as [Hnone Herr].
  - split; [reflexivity|]. left. by eexists.
  - split; [exact Hnone|]. apply Herr. repeat constructor. by eexists.
Defined.

(** ** The loop over the time ranges, and the refresh *)

Section CalculatorFacts.
Variable GetDropInfosWithFilters :
  string → list TimeRange → list Z → list Z → list DropInfo + error.
Variable CalcTotalQuantityForDropMatrix :
  string → TimeRange → list DropInfo → option Z →
  list TotalQuantityResultForDropMatrix + error.
Variable CalcTotalTimesForDropMatrix :
  string → TimeRange → list DropInfo → option Z →
  list TotalTimesResult + error.
Variable GetItemDropSetByStageIdAndRangeId : string → Z → Z → list Z.
Variable GetTimeRangesByServer : string → list TimeRange + error.
Variable BatchSaveElements : list DropMatrixElement → string → option error.

Let combine := combineLoop CalcTotalQuantityForDropMatrix
                 CalcTotalTimesForDropMatrix.
Let calc := calcDropMatrixForTimeRanges GetDropInfosWithFilters
              CalcTotalQuantityForDropMatrix CalcTotalTimesForDropMatrix
              GetItemDropSetByStageIdAndRangeId.
Let refresh := refreshLoop GetDropInfosWithFilters
                 CalcTotalQuantityForDropMatrix CalcTotalTimesForDropMatrix
                 GetItemDropSetByStageIdAndRangeId BatchSaveElements.

(** [combinedResults] is assigned, not appended to: after the loop it
    holds the rows of the last time range alone. *)
Lemma combineLoop_last server dropInfos accountId timeRanges last acc c :
  combine server dropInfos accountId (timeRanges ++ [last]) acc = Ok c →
  ∃ quantityResults timesResults,
    CalcTotalQuantityForDropMatrix server last dropInfos accountId
    = inl quantityResults
    ∧ CalcTotalTimesForDropMatrix server last dropInfos accountId
      = inl timesResults
    ∧ c = combineQuantityAndTimesResults quantityResults timesResults last.
Proof.
  unfold combine. revert acc.
  induction timeRanges as [|r rest IH]; intros acc; simpl.
  - destruct (CalcTotalQuantityForDropMatrix server last dropInfos accountId)
      as [q|e]; simpl; [|done].
    destruct (CalcTotalTimesForDropMatrix server last dropInfos accountId)
      as [t|e]; simpl; [|done].
    intros [= <-]. by exists q, t.
  - destruct (CalcTotalQuantityForDropMatrix server r dropInfos accountId)
      as [q|e]; simpl; [|done].
    destruct (CalcTotalTimesForDropMatrix server r dropInfos accountId)
      as [t|e]; simpl; [|done].
    apply IH.
Qed.

(** Once the wait group counts more than the workers still to start,
    the refresh cannot return. *)
Lemma refreshLoop_behind server timeRanges p :
  (length timeRanges < wg p)%nat →
  ∀ err saved, refresh server timeRanges p ≠ Returned err saved.
Proof.
  unfold refresh. revert p.
  induction timeRanges as [|r rest IH]; intros p Hlt err saved; simpl in *.
  - case_decide; [lia|done].
  - case_decide; [done|].
    destruct (calcDropMatrixForTimeRanges _ _ _ _ _ [r] [] [] None);
      [apply IH; simpl; lia | apply IH; simpl; lia | done].
Qed.

(** A worker whose calculation returns an error keeps the refresh from
    returning at all. *)
Lemma refreshLoop_worker_error server timeRanges p r e :
  (length timeRanges ≤ wg p)%nat →
  r ∈ timeRanges →
  calc server [r] [] [] None = Err e →
  ∀ err saved, refresh server timeRanges p ≠ Returned err saved.
Proof.
  unfold calc, refresh. revert p.
  induction timeRanges as [|r' rest IH]; intros p Hle Hin Hcalc err saved.
  { by apply elem_of_nil in Hin. }
  simpl in *. case_decide; [done|].
  destruct (calcDropMatrixForTimeRanges _ _ _ _ _ [r'] [] [] None)
    as [batch|e'|] eqn:Hr'; [| |done].
  - apply elem_of_cons in Hin as [->|Hin]; [congruence|].
    apply IH; [simpl; lia|done..].
  - apply refreshLoop_behind. simpl. lia.
Qed.

End CalculatorFacts.

(** C1 (the code departs from the claim).  With the two ranges above, the
    rows emitted for the first range are not among the combined results
    that reach the grouping step: [combinedResults] is overwritten by
    each range, so that only the rows of the last range are left, and the
    elements of the calculator are those of range 2 alone. *)
Theorem calcDropMatrixForTimeRanges_drops_earlier_ranges :
  let row1 := {| cr_StageID := 1; cr_ItemID := 1; cr_Quantity := 5;
                 cr_Times := 2; cr_TimeRange := range1_ex |} in
  let row2 := {| cr_StageID := 1; cr_ItemID := 1; cr_Quantity := 10;
                 cr_Times := 4; cr_TimeRange := range2_ex |} in
  combineQuantityAndTimesResults
    [{| tq_StageID := 1; tq_ItemID := 1; tq_TotalQuantity := 5 |}]
    [{| tt_StageID := 1; tt_TotalTimes := 2 |}] range1_ex = [row1]
  ∧ combineLoop quantityQuery_ex timesQuery_ex "CN" [] None
      [range1_ex; range2_ex] [] = Ok [row2]
  ∧ calcDropMatrixForTimeRanges dropInfos_ex quantityQuery_ex timesQuery_ex
      dropSet_ex "CN" [range1_ex; range2_ex] [] [] None
    = Ok [{| el_StageID := 1; el_ItemID := 1; el_RangeID := 2;
             el_Quantity := 10; el_Times := 4; el_Server := "CN";
             el_TimeRange := None |};
          {| el_StageID := 1; el_ItemID := 2; el_RangeID := 2;
             el_Quantity := 0; el_Times := 4; el_Server := "CN";
             el_TimeRange := None |}].
Proof. vm_compute. done. Qed.

(** C4 (the code departs from the claim).  A server with one time range
    whose calculation fails: the worker returns without [wg.Done()], so
    [wg.Wait()] never returns.  The refresh neither reports the failure
    nor saves; it blocks. *)
Theorem RefreshAllDropMatrixElements_blocks_on_worker_error :
  calcDropMatrixForTimeRanges dropInfosDown_ex quantityQuery_ex timesQuery_ex
    dropSet_ex "CN" [range1_ex] [] [] None = Err (ErrMsg "connection refused")
  ∧ RefreshAllDropMatrixElements dropInfosDown_ex quantityQuery_ex
      timesQuery_ex dropSet_ex (λ _, inl [range1_ex]) (λ _ _, None) "CN"
    = Blocked.
Proof. split; reflexivity. Qed.

(** ** Lists of keyed chunks *)

Lemma filter_none {B : Type} (P : B → Prop) `{∀ b, Decision (P b)} (l : list B) :
  (∀ b, b ∈ l → ¬ P b) → filter P l = [].
Proof.
  induction l as [|b l IH]; intros Hl; [done|].
  rewrite filter_cons_False by (apply Hl; left).
  apply IH. intros b' Hb'. apply Hl. by right.
Qed.

Section KeyedChunks.
Context {K A B : Type} `{EqDecision K}.
Context (keyOf : B → K) (P : B → Prop) `{∀ b, Decision (P b)}.
Context (g : K * A → list B).

(** Chunks of other keys hold nothing of key [k]. *)
Lemma filter_bind_other (l : list (K * A)) (k : K) :
  k ∉ l.*1 →
  (∀ ka b, ka ∈ l → b ∈ g ka → keyOf b = ka.1) →
  filter (λ b, keyOf b = k ∧ P b) (l ≫= g) = [].
Proof.
  intros Hk Hkey. apply filter_none. intros b Hb [Hkb _].
  apply list_elem_of_bind in Hb as (ka & Hb & Hka).
  apply Hk. rewrite <- Hkb, (Hkey ka b Hka Hb).
  apply list_elem_of_fmap. by exists ka.
Qed.

(** With one chunk for each key, what the whole list holds of key [k]
    is what the chunk of [k] holds. *)
Lemma filter_bind_key (l : list (K * A)) (k : K) (a : A) :
  NoDup l.*1 →
  (k, a) ∈ l →
  (∀ ka b, ka ∈ l → b ∈ g ka → keyOf b = ka.1) →
  filter (λ b, keyOf b = k ∧ P b) (l ≫= g)
  = filter (λ b, keyOf b = k ∧ P b) (g (k, a)).
Proof.
  induction l as [|ka l IH]; intros Hnd Hin Hkey.
  { by apply elem_of_nil in Hin. }
  rewrite fmap_cons in Hnd. apply NoDup_cons in Hnd as [Hka Hnd].
  rewrite bind_cons, filter_app.
  apply elem_of_cons in Hin as [<-|Hin].
  - rewrite filter_bind_other; [by rewrite app_nil_r|done|].
    intros ka' b Hka' Hb. apply Hkey; [by right|done].
  - rewrite IH; [|done|done|].
    + rewrite (filter_none _ (g ka)); [done|].
      intros b Hb [Hkb _]. apply Hka.
      assert (keyOf b = ka.1) as E by (apply Hkey; [left|done]).
      rewrite <- E, Hkb.
      apply list_elem_of_fmap. by exists (k, a).
    + intros ka' b Hka' Hb. apply Hkey; [by right|done].
Qed.
End KeyedChunks.

(** ** Machine arithmetic *)

Lemma wrap_int_range x : int_range x → wrap_int x = x.
Proof.
  unfold int_range, wrap_int, int_bits. intros Hx.
  rewrite Z.mod_small; lia.
Qed.

Lemma wrap_int_add_l x y : wrap_int (wrap_int x + y) = wrap_int (x + y).
Proof.
  unfold wrap_int, int_bits.
  replace ((x + 2 ^ (64 - 1)) mod 2 ^ 64 - 2 ^ (64 - 1) + y + 2 ^ (64 - 1))
    with ((x + 2 ^ (64 - 1)) mod 2 ^ 64 + y) by lia.
  rewrite Zplus_mod_idemp_l. f_equal. f_equal. lia.
Qed.

Lemma foldl_int_add q (qs : list Z) :
  int_range q →
  foldl int_add q qs = wrap_int (q + sumZ qs).
Proof.
  intros Hq. rewrite <- (wrap_int_range q) at 1 by done. clear Hq.
  revert q. induction qs as [|q' qs IH]; intros q; simpl.
  - by rewrite Z.add_0_r.
  - unfold int_add at 2. rewrite wrap_int_add_l, IH. f_equal. lia.
Qed.

(** [foldl Z.min a l] is the least of [a] and the members of [l], and
    [foldl Z.max a l] the greatest. *)
Lemma foldl_min_least (a : Z) (l : list Z) :
  foldl Z.min a l ≤ a
  ∧ Forall (λ x, foldl Z.min a l ≤ x) l
  ∧ (foldl Z.min a l = a ∨ foldl Z.min a l ∈ l).
Proof.
  revert a. induction l as [|x l IH]; intros a; simpl.
  { split; [lia|]. split; [constructor|by left]. }
  destruct (IH (Z.min a x)) as (Hle & Hall & Hmem).
  split; [lia|]. split.
  - constructor; [lia|done].
  - destruct Hmem as [Hmem|Hmem]; [|right; by right].
    rewrite Hmem.
    destruct (Z.min_spec a x) as [[_ Hm]|[_ Hm]]; rewrite Hm.
    + by left.
    + right. by left.
Qed.

Lemma foldl_max_greatest (a : Z) (l : list Z) :
  a ≤ foldl Z.max a l
  ∧ Forall (λ x, x ≤ foldl Z.max a l) l
  ∧ (foldl Z.max a l = a ∨ foldl Z.max a l ∈ l).
Proof.
  revert a. induction l as [|x l IH]; intros a; simpl.
  { split; [lia|]. split; [constructor|by left]. }
  destruct (IH (Z.max a x)) as (Hle & Hall & Hmem).
  split; [lia|]. split.
  - constructor; [lia|done].
  - destruct Hmem as [Hmem|Hmem]; [|right; by right].
    rewrite Hmem.
    destruct (Z.max_spec a x) as [[_ Hm]|[_ Hm]]; rewrite Hm.
    + right. by left.
    + by left.
Qed.

(** ** The max-accumulable fold *)

Lemma GetDropMatrixElementsMap_snoc l x :
  GetDropMatrixElementsMap (l ++ [x])
  = let elementsMap := GetDropMatrixElementsMap l in
    let subMapByItemId := default ∅ (elementsMap !! el_StageID x) in
    let subMapByRangeId := default ∅ (subMapByItemId !! el_ItemID x) in
    <[el_StageID x :=
        <[el_ItemID x := <[el_RangeID x := x]> subMapByRangeId]> subMapByItemId]>
      elementsMap.
Proof. unfold GetDropMatrixElementsMap. by rewrite fold_left_app. Qed.

(** The map holds, under a stage, an item and a range id, the last
    element of the list with these. *)
Lemma GetDropMatrixElementsMap_lookup l s i r :
  elementsFor (GetDropMatrixElementsMap l) s i !! r
  = last (filter (λ e, el_StageID e = s ∧ el_ItemID e = i ∧ el_RangeID e = r) l).
Proof.
  induction l as [|x l IH] using rev_ind; [done|].
  rewrite GetDropMatrixElementsMap_snoc, filter_app; simpl.
  unfold elementsFor in *.
  destruct (decide (el_StageID x = s)) as [Hs|Hs].
  - rewrite Hs, lookup_insert_eq; simpl.
    destruct (decide (el_ItemID x = i)) as [Hi|Hi].
    + rewrite Hi, lookup_insert_eq; simpl.
      destruct (decide (el_RangeID x = r)) as [Hr|Hr].
      * rewrite Hr, lookup_insert_eq.
        rewrite filter_cons_True by done. by rewrite filter_nil, last_snoc.
      * rewrite lookup_insert_ne by done.
        rewrite filter_cons_False by (intros (?&?&?); done).
        by rewrite filter_nil, app_nil_r, <- IH.
    + rewrite lookup_insert_ne by done.
      rewrite filter_cons_False by (intros (?&?&?); done).
      by rewrite filter_nil, app_nil_r, <- IH.
  - rewrite lookup_insert_ne by done.
    rewrite filter_cons_False by (intros (?&?&?); done).
    by rewrite filter_nil, app_nil_r, <- IH.
Qed.

Lemma GetDropMatrixElementsMap_elem_of l s i r e :
  elementsFor (GetDropMatrixElementsMap l) s i !! r = Some e →
  e ∈ l ∧ el_StageID e = s ∧ el_ItemID e = i ∧ el_RangeID e = r.
Proof.
  rewrite GetDropMatrixElementsMap_lookup. intros H%last_Some_elem_of.
  by apply list_elem_of_filter in H as [? ?].
Qed.

Lemma matching_elem_of sub ts m :
  m ∈ matching sub ts → m.1 ∈ ts ∧ sub !! RangeID m.1 = Some m.2.
Proof.
  unfold matching. rewrite list_elem_of_omap. intros (tr & Htr & Hm).
  destruct (sub !! RangeID tr) as [e|] eqn:He; simplify_eq/=. done.
Qed.

Lemma chainLoop_spec stageId itemId sub ts s e acc :
  keyed stageId itemId acc →
  chainLoop stageId itemId sub ts (s, e, acc)
  = Ok (foldl Z.min s (starts (matching sub ts)),
        foldl Z.max e (ends (matching sub ts)),
        foldl (chainStep stageId itemId) acc (matching sub ts)).
Proof.
  revert s e acc. induction ts as [|tr ts IH]; intros s e acc Hacc; [done|].
  simpl. unfold matching; simpl.
  destruct (sub !! RangeID tr) as [element|] eqn:Hel; simpl.
  - fold (matching sub ts).
    assert ((if decide (StartTime tr < s) then StartTime tr else s)
            = Z.min s (StartTime tr)) as -> by (case_decide; lia).
    assert ((if decide (e < EndTime tr) then EndTime tr else e)
            = Z.max e (EndTime tr)) as -> by (case_decide; lia).
    destruct acc as [a|]; simpl.
    + destruct (Hacc a eq_refl) as [Hs Hi].
      rewrite combineDropMatrixResults_same by done. simpl.
      rewrite IH by (intros ? [= <-]; done).
      unfold chainStep at 2; simpl. by rewrite Hs, Hi.
    + rewrite IH by (intros ? [= <-]; done). done.
  - fold (matching sub ts). by apply IH.
Qed.

Lemma foldl_chainStep stageId itemId q t ms :
  foldl (chainStep stageId itemId)
    (Some {| one_StageID := stageId; one_ItemID := itemId; one_Quantity := q;
             one_Times := t; one_TimeRange := None |}) ms
  = Some {| one_StageID := stageId; one_ItemID := itemId;
            one_Quantity := foldl int_add q (quantities ms);
            one_Times := foldl int_add t (timesOf ms);
            one_TimeRange := None |}.
Proof.
  revert q t. induction ms as [|m ms IH]; intros q t; [done|].
  cbn [foldl quantities timesOf fmap list_fmap].
  unfold chainStep at 2. cbn [one_Quantity one_Times]. by rewrite IH.
Qed.

Lemma foldChain_spec stageId itemId sub timeRanges :
  timeRanges ≠ [] →
  foldChain stageId itemId sub timeRanges
  = Ok (chainOut stageId itemId sub timeRanges).
Proof.
  destruct timeRanges as [|first rest]; [done|]. intros _.
  unfold foldChain, chainOut.
  rewrite chainLoop_spec by (intros ? [=]).
  destruct (matching sub (first :: rest)) as [|m ms]; [done|].
  cbn [foldl]. unfold chainStep at 2. rewrite foldl_chainStep. done.
Qed.

Lemma chainOut_key stageId itemId sub timeRanges o :
  chainOut stageId itemId sub timeRanges = Some o →
  one_StageID o = stageId ∧ one_ItemID o = itemId.
Proof.
  unfold chainOut. destruct timeRanges; [done|].
  destruct (matching _ _); [done|]. by intros [= <-].
Qed.

Lemma itemLoop_spec stageId subMapByItemId chains matrix :
  Forall (λ chain, chain.2 ≠ []) chains →
  itemLoop stageId subMapByItemId chains matrix
  = Ok (matrix ++ (chains ≫= itemChunk stageId subMapByItemId)).
Proof.
  intros Hne. revert matrix.
  induction Hne as [|[itemId ts] chains Hts Hne IH]; intros matrix; simpl.
  { by rewrite app_nil_r. }
  rewrite foldChain_spec by done. simpl. rewrite IH.
  unfold itemChunk at 2; simpl.
  destruct (chainOut _ _ _ _); simpl; [by rewrite <- app_assoc|done].
Qed.

Lemma stageChainLoop_spec elementsMap stages matrix :
  Forall (λ stage, ∀ itemId ts, stage.2 !! itemId = Some ts → ts ≠ []) stages →
  stageChainLoop elementsMap stages matrix
  = Ok (matrix ++ (stages ≫= stageChunk elementsMap)).
Proof.
  intros Hne. revert matrix.
  induction Hne as [|[stageId per] stages Hper Hne IH]; intros matrix; simpl.
  { by rewrite app_nil_r. }
  rewrite itemLoop_spec; simpl.
  - rewrite IH. by rewrite <- app_assoc.
  - apply Forall_forall. intros [itemId ts] Hin; simpl.
    apply elem_of_map_to_list in Hin. by eapply Hper.
Qed.

Lemma itemChunk_key stageId subMapByItemId chain o :
  o ∈ itemChunk stageId subMapByItemId chain →
  one_StageID o = stageId ∧ one_ItemID o = chain.1.
Proof.
  unfold itemChunk.
  destruct (chainOut _ _ _ _) as [o'|] eqn:Hout; simpl.
  - intros ->%list_elem_of_singleton. by eapply chainOut_key.
  - by intros ?%elem_of_nil.
Qed.

Lemma stageChunk_key elementsMap stage o :
  o ∈ stageChunk elementsMap stage →
  one_StageID o = stage.1
  ∧ ∃ ts, stage.2 !! one_ItemID o = Some ts.
Proof.
  unfold stageChunk. intros (chain & Ho & Hchain)%list_elem_of_bind.
  apply itemChunk_key in Ho as [-> ->]. split; [done|].
  exists chain.2. by apply elem_of_map_to_list'.
Qed.

(** What the matrix holds for one stage and one item. *)
Lemma matrix_of_pair elementsMap (chains : gmap Z (gmap Z (list TimeRange)))
    stageId per itemId ts :
  chains !! stageId = Some per →
  per !! itemId = Some ts →
  filter (λ o, one_StageID o = stageId ∧ one_ItemID o = itemId)
    (map_to_list chains ≫= stageChunk elementsMap)
  = option_list (chainOut stageId itemId (elementsFor elementsMap stageId itemId) ts).
Proof.
  intros Hper Hts.
  rewrite (filter_bind_key one_StageID (λ o, one_ItemID o = itemId)
             (stageChunk elementsMap) _ stageId per).
  - unfold stageChunk; simpl.
    rewrite (list_filter_iff _
               (λ o, one_ItemID o = itemId ∧ one_StageID o = stageId))
      by (intros o; tauto).
    rewrite (filter_bind_key one_ItemID (λ o, one_StageID o = stageId)
               (itemChunk stageId (default ∅ (elementsMap !! stageId)))
               _ itemId ts).
    + unfold itemChunk, elementsFor; simpl.
      destruct (chainOut _ _ _ _) as [o|] eqn:Hout; simpl; [|done].
      apply chainOut_key in Hout as [? ?]. by rewrite filter_cons_True.
    + apply NoDup_fst_map_to_list.
    + by apply elem_of_map_to_list.
    + intros chain o _ Ho. by apply itemChunk_key in Ho as [_ ?].
  - apply NoDup_fst_map_to_list.
  - by apply elem_of_map_to_list.
  - intros stage o _ Ho. by apply stageChunk_key in Ho as [? _].
Qed.

(** C2, as the code has it.  When no chain is empty and the quantities
    and times of the elements are machine integers, the fold returns a
    matrix; each of its elements is for a stage and item of the chains;
    and for each stage and item of the chains it holds no element when no
    range of the chain has a matching element, and otherwise exactly one,
    whose quantity and times are the sums (in 64-bit arithmetic) over
    the ranges of the chain that have a matching element, whose start
    time is the least of the start time of the first range of the chain
    and of those of the ranges that have a matching element, and whose end
    time is the greatest of the end times likewise. *)
Theorem convert_max_accumulable
    (chains : gmap Z (gmap Z (list TimeRange)))
    (dropMatrixElements : list DropMatrixElement) :
  (∀ stageId per itemId ts,
     chains !! stageId = Some per → per !! itemId = Some ts → ts ≠ []) →
  Forall (λ e, int_range (el_Quantity e) ∧ int_range (el_Times e))
    dropMatrixElements →
  ∃ matrix,
    convertDropMatrixElementsToMaxAccumulableDropMatrixQueryResult
      (inl chains) dropMatrixElements = Ok matrix
    ∧ (∀ o, o ∈ matrix →
         ∃ per ts, chains !! one_StageID o = Some per
                   ∧ per !! one_ItemID o = Some ts)
    ∧ ∀ stageId per itemId first rest,
        chains !! stageId = Some per →
        per !! itemId = Some (first :: rest) →
        let ms :=
          matching (elementsFor (GetDropMatrixElementsMap dropMatrixElements)
                      stageId itemId) (first :: rest) in
        let outs :=
          filter (λ o, one_StageID o = stageId ∧ one_ItemID o = itemId) matrix in
        (ms = [] → outs = [])
        ∧ (ms ≠ [] →
           outs = [{| one_StageID := stageId; one_ItemID := itemId;
                      one_Quantity := wrap_int (sumZ (quantities ms));
                      one_Times := wrap_int (sumZ (timesOf ms));
                      one_TimeRange :=
                        Some {| RangeID := 0;
                                StartTime :=
                                  foldl Z.min (StartTime first) (starts ms);
                                EndTime :=
                                  foldl Z.max (EndTime first) (ends ms) |} |}]).
Proof.
  intros Hne Hrange.
  unfold convertDropMatrixElementsToMaxAccumulableDropMatrixQueryResult.
  cbn [call bind]. rewrite stageChainLoop_spec, app_nil_l.
  2:{ apply Forall_forall. intros [stageId per] Hin itemId ts Hts.
      apply elem_of_map_to_list in Hin. by eapply Hne. }
  eexists. split; [reflexivity|]. split.
  - intros o (stage & Ho & Hstage)%list_elem_of_bind.
    apply stageChunk_key in Ho as [Hs [ts Hts]].
    apply elem_of_map_to_list' in Hstage. rewrite Hs. eauto.
  - intros stageId per itemId first rest Hper Hts.
    rewrite (matrix_of_pair _ _ _ _ _ _ Hper Hts).
    unfold chainOut. set (ms := matching _ _).
    assert (Forall (λ m, int_range (el_Quantity m.2)
                         ∧ int_range (el_Times m.2)) ms) as Hms.
    { apply Forall_forall. intros m [_ Hm]%matching_elem_of.
      apply GetDropMatrixElementsMap_elem_of in Hm as [Hin _].
      by apply (proj1 (Forall_forall _ _) Hrange). }
    destruct ms as [|m ms'].
    { split; [done|]. intros H. by destruct H. }
    split; [done|]. intros _. cbn [option_list].
    apply Forall_cons in Hms as [[Hq Ht] _].
    by rewrite !foldl_int_add.
Qed.

Lemma convert_max_accumulable_witness :
  ∃ matrix,
    convertDropMatrixElementsToMaxAccumulableDropMatrixQueryResult
      (inl chains_ex) [element1_ex; element2_ex] = Ok matrix
    ∧ filter (λ o, one_StageID o = 1 ∧ one_ItemID o = 1) matrix
      = [{| one_StageID := 1; one_ItemID := 1; one_Quantity := 15;
            one_Times := 150;
            one_TimeRange :=
              Some {| RangeID := 0; StartTime := 0; EndTime := 100 |} |}].
Proof.
  destruct (convert_max_accumulable chains_ex [element1_ex; element2_ex])
    as (matrix & Hrun & _ & Hpair).
  - intros stageId per itemId ts Hper Hts. unfold chains_ex in Hper.
    apply lookup_singleton_Some in Hper as [_ <-].
    apply lookup_singleton_Some in Hts as [_ <-]. done.
  - repeat constructor; unfold int_range; simpl; lia.
  - exists matrix. split; [exact Hrun|].
    destruct (Hpair 1 {[ 1 := [wideRange_ex; range2_ex] ]} 1 wideRange_ex
                [range2_ex] eq_refl eq_refl) as [_ Hsome].
    apply Hsome. vm_compute. discriminate.
Defined.

(** C2, as stated, fails: the first range of the chain has no matching
    element, and still its start and end times bound the result; the
    ranges that have a matching element start at 10 and end at 20. *)
Lemma convert_time_range_beyond_matching :
  let ms := matching (elementsFor (GetDropMatrixElementsMap [element2_ex]) 1 1)
              [wideRange_ex; range2_ex] in
  starts ms = [10] ∧ ends ms = [20]
  ∧ convertDropMatrixElementsToMaxAccumulableDropMatrixQueryResult
      (inl chains_ex) [element2_ex]
    = Ok [{| one_StageID := 1; one_ItemID := 1; one_Quantity := 5;
             one_Times := 50;
             one_TimeRange :=
               Some {| RangeID := 0; StartTime := 0; EndTime := 100 |} |}].
Proof. vm_compute. done. Qed.

(** ** Grouping *)

Lemma fold_left_bind {A B : Type} (F : list B → A → list B) (G : A → list B)
    (l : list A) (acc : list B) :
  (∀ acc x, F acc x = acc ++ G x) →
  fold_left F l acc = acc ++ (l ≫= G).
Proof.
  intros HF. revert acc. induction l as [|x l IH]; intros acc; simpl.
  - by rewrite app_nil_r.
  - by rewrite IH, HF, <- app_assoc.
Qed.

Section GroupByFacts.
Context {A : Type} (keyOf : A → Z).

Lemma groupMap_snoc (l : list A) (x : A) :
  groupMap keyOf (l ++ [x])
  = <[keyOf x := default [] (groupMap keyOf l !! keyOf x) ++ [x]]>
      (groupMap keyOf l).
Proof. unfold groupMap. by rewrite fold_left_app. Qed.

(** The group of a key is the sublist of the elements of that key, if
    there is any. *)
Lemma groupMap_lookup (l : list A) (k : Z) :
  groupMap keyOf l !! k
  = match filter (λ x, keyOf x = k) l with
    | [] => None
    | g => Some g
    end.
Proof.
  induction l as [|x l IH] using rev_ind; [done|].
  rewrite groupMap_snoc, filter_app.
  destruct (decide (keyOf x = k)) as [Hk|Hk].
  - rewrite Hk, lookup_insert_eq, IH.
    rewrite (filter_cons_True _ x) by done. rewrite filter_nil.
    by destruct (filter _ l).
  - rewrite lookup_insert_ne by done.
    rewrite (filter_cons_False _ x) by done.
    by rewrite filter_nil, app_nil_r.
Qed.

Lemma GroupBy_elem_of (l : list A) (k : Z) (g : list A) :
  (k, g) ∈ GroupBy keyOf l ↔ g = filter (λ x, keyOf x = k) l ∧ g ≠ [].
Proof.
  unfold GroupBy. rewrite elem_of_map_to_list, groupMap_lookup.
  destruct (filter _ l) eqn:E.
  - split; [done|]. by intros [-> ?].
  - split; [by intros [= <-]|]. by intros [-> _].
Qed.

Lemma GroupBy_NoDup (l : list A) : NoDup (GroupBy keyOf l).*1.
Proof. apply NoDup_fst_map_to_list. Qed.

End GroupByFacts.

(** Inserting the image of each entry of a list with distinct keys. *)
Lemma fold_left_insert_notin {A B : Type} (f : A → B) (l : list (Z * A))
    (m0 : gmap Z B) (k : Z) :
  k ∉ l.*1 →
  fold_left (λ qm g, <[g.1 := f g.2]> qm) l m0 !! k = m0 !! k.
Proof.
  revert m0. induction l as [|[k' a] l IH]; intros m0 Hk; [done|].
  rewrite fmap_cons in Hk. apply not_elem_of_cons in Hk as [Hk Hl].
  simpl. rewrite IH by done. by rewrite lookup_insert_ne.
Qed.

Lemma fold_left_insert_in {A B : Type} (f : A → B) (l : list (Z * A))
    (m0 : gmap Z B) (k : Z) (a : A) :
  NoDup l.*1 → (k, a) ∈ l →
  fold_left (λ qm g, <[g.1 := f g.2]> qm) l m0 !! k = Some (f a).
Proof.
  revert m0. induction l as [|[k' a'] l IH]; intros m0 Hnd Hin.
  { by apply elem_of_nil in Hin. }
  rewrite fmap_cons in Hnd. apply NoDup_cons in Hnd as [Hk' Hnd].
  simpl. apply elem_of_cons in Hin as [[= <- <-]|Hin].
  - rewrite fold_left_insert_notin by done. apply lookup_insert_eq.
  - by apply IH.
Qed.

(** ** The combined results of one time range *)

Lemma ToMapBy_lookup group itemId :
  ToMapBy group !! itemId
  = tq_TotalQuantity <$> last (filter (λ q, tq_ItemID q = itemId) group).
Proof.
  unfold ToMapBy. induction group as [|q group IH] using rev_ind; [done|].
  rewrite fold_left_app, filter_app; simpl.
  destruct (decide (tq_ItemID q = itemId)) as [Hi|Hi].
  - rewrite Hi, lookup_insert_eq, filter_cons_True by done.
    by rewrite filter_nil, last_snoc.
  - rewrite lookup_insert_ne, filter_cons_False by done.
    by rewrite filter_nil, app_nil_r.
Qed.

Lemma quantityResultsMap_lookup quantityResults stageId :
  quantityResultsMap quantityResults !! stageId
  = ToMapBy <$> groupMap tq_StageID quantityResults !! stageId.
Proof.
  unfold quantityResultsMap.
  destruct (groupMap tq_StageID quantityResults !! stageId) as [g|] eqn:Hg.
  - apply fold_left_insert_in; [apply GroupBy_NoDup|].
    by apply elem_of_map_to_list.
  - rewrite fold_left_insert_notin; [done|].
    intros ([k g] & -> & Hin)%list_elem_of_fmap.
    apply elem_of_map_to_list in Hin. simpl in *. congruence.
Qed.

Lemma quantityResultsMap_observed quantityResults stageId itemId :
  default ∅ (quantityResultsMap quantityResults !! stageId) !! itemId
  = observedQuantity quantityResults stageId itemId.
Proof.
  rewrite quantityResultsMap_lookup, groupMap_lookup. unfold observedQuantity.
  rewrite (list_filter_iff
             (λ q, tq_StageID q = stageId ∧ tq_ItemID q = itemId)
             (λ q, tq_ItemID q = itemId ∧ tq_StageID q = stageId))
    by (intros q; tauto).
  rewrite <- list_filter_filter.
  destruct (filter (λ q, tq_StageID q = stageId) quantityResults) eqn:E.
  - done.
  - simpl. apply ToMapBy_lookup.
Qed.


Lemma combineQuantityAndTimesResults_bind quantityResults timesResults timeRange :
  combineQuantityAndTimesResults quantityResults timesResults timeRange
  = GroupBy tt_StageID timesResults ≫= λ g,
      g.2 ≫= λ el,
        combinedRow g.1 (tt_TotalTimes el) timeRange
          <$> map_to_list
                (default ∅ (quantityResultsMap quantityResults !! g.1)).
Proof.
  unfold combineQuantityAndTimesResults.
  rewrite (fold_left_bind _ (λ g, g.2 ≫= λ el,
             combinedRow g.1 (tt_TotalTimes el) timeRange
               <$> map_to_list
                     (default ∅ (quantityResultsMap quantityResults !! g.1))));
    [done|].
  intros acc g. simpl.
  apply (fold_left_bind _ (λ el,
             combinedRow g.1 (tt_TotalTimes el) timeRange
               <$> map_to_list
                     (default ∅ (quantityResultsMap quantityResults !! g.1)))).
  intros acc' el.
  rewrite (fold_left_bind _ (λ iq, [combinedRow g.1 (tt_TotalTimes el) timeRange iq]));
    [|done].
  f_equal.
Qed.

(** ** The grouping step of the calculator *)

Section GroupAndFillFacts.
Variable GetDropInfosWithFilters :
  string → list TimeRange → list Z → list Z → list DropInfo + error.
Variable GetItemDropSetByStageIdAndRangeId : string → Z → Z → list Z.
Variables (server : string) (itemIdFilter : list Z).

Let ranges := rangeLoop GetDropInfosWithFilters
                GetItemDropSetByStageIdAndRangeId server itemIdFilter.
Let stages := stageLoop GetDropInfosWithFilters
                GetItemDropSetByStageIdAndRangeId server itemIdFilter.

Lemma observedLoop_spec stageId rangeId timeRange group dropSet stm elems :
  ∃ stm',
    observedLoop server stageId rangeId timeRange group dropSet (stm, elems)
    = (dropSet ∖ list_to_set (cr_ItemID <$> group),
       (stm', elems ++ (observedElement server stageId rangeId timeRange <$> group)))
    ∧ stm' !! stageId
      = match last group with
        | Some el3 => Some (cr_Times el3)
        | None => stm !! stageId
        end.
Proof.
  unfold observedLoop. revert dropSet stm elems.
  induction group as [|el3 group IH]; intros dropSet stm elems.
  { exists stm. simpl. rewrite app_nil_r. split; [|done].
    f_equal. set_solver. }
  simpl.
  destruct (IH (dropSet ∖ {[cr_ItemID el3]}) (<[stageId := cr_Times el3]> stm)
              (elems ++ [observedElement server stageId rangeId timeRange el3]))
    as (stm' & Hrun & Hstm).
  exists stm'. split.
  - etrans; [exact Hrun|]. rewrite <- app_assoc. f_equal. set_solver.
  - rewrite Hstm. destruct group as [|el3' group].
    + simpl. by rewrite lookup_insert_eq.
    + change (last (el3 :: el3' :: group)) with (last (el3' :: group)).
      destruct (last (el3' :: group)) eqn:Hlast; [done|].
      by apply last_None in Hlast.
Qed.

Lemma zeroFill_spec stageId rangeId timeRange dropSet stm elems :
  zeroFill server stageId rangeId timeRange dropSet (stm, elems)
  = (stm,
     elems ++ (zeroElement server stageId rangeId timeRange
                 (default 0 (stm !! stageId)) <$> elements dropSet)).
Proof.
  unfold zeroFill. generalize (elements dropSet). intros l. revert elems.
  induction l as [|itemId l IH]; intros elems; simpl.
  - by rewrite app_nil_r.
  - rewrite IH. by rewrite <- app_assoc.
Qed.


(** One turn of the loop over the groups of a stage. *)
Lemma rangeLoop_cons stageId rangeId first group rest stm elems st' :
  ranges stageId ((rangeId, first :: group) :: rest) (stm, elems) = Ok st' →
  ∃ dropItemIds stm1,
    dropItemIdsOf GetDropInfosWithFilters GetItemDropSetByStageIdAndRangeId
      server stageId rangeId (cr_TimeRange first) = Ok dropItemIds
    ∧ ranges stageId rest
        (stm1, elems ++ groupElements server itemIdFilter stageId rangeId (cr_TimeRange first)
                          (first :: group) dropItemIds) = Ok st'.
Proof.
  unfold ranges. cbn [rangeLoop fst snd].
  destruct (dropItemIdsOf _ _ _ _ _ _) as [dropItemIds| |]; cbn [bind];
    [|done..].
  destruct (observedLoop_spec stageId rangeId (cr_TimeRange first)
              (first :: group)
              (list_to_set (applyItemIdFilter itemIdFilter dropItemIds))
              stm elems) as (stm' & -> & Hstm).
  rewrite zeroFill_spec, Hstm. intros Hrun.
  exists dropItemIds, stm'. split; [done|].
  unfold groupElements. rewrite app_assoc.
  destruct (last (first :: group)) eqn:Hlast; [exact Hrun|].
  by apply last_None in Hlast.
Qed.




End GroupAndFillFacts.

(** ** Filtering by a key that occurs once *)




Lemma filter_all {B : Type} (P : B → Prop) `{∀ b, Decision (P b)} (l : list B) :
  (∀ b, b ∈ l → P b) → filter P l = l.
Proof.
  induction l as [|b l IH]; intros Hl; [done|].
  rewrite filter_cons_True by (apply Hl; left).
  f_equal. apply IH. intros b' Hb'. apply Hl. by right.
Qed.



Section Completeness.
Variable GetDropInfosWithFilters :
  string → list TimeRange → list Z → list Z → list DropInfo + error.
Variable CalcTotalQuantityForDropMatrix :
  string → TimeRange → list DropInfo → option Z →
  list TotalQuantityResultForDropMatrix + error.
Variable CalcTotalTimesForDropMatrix :
  string → TimeRange → list DropInfo → option Z →
  list TotalTimesResult + error.
Variable GetItemDropSetByStageIdAndRangeId : string → Z → Z → list Z.



End Completeness.



End ServiceSpec.

(** * Laws of the cache set *)

(** Laws of [Cache] that depend neither on the expiration of an entry
    nor on the reflective copy. *)

Module CacheLaws.
Import Cache CacheSpec.

Section Laws.
Context {V : Type}.
Implicit Types (s : CSet V) (w : World V) (k : string)
  (valueFunc : unit → V + error).

(** Distinct keys of the caller are distinct keys of the store. *)
Lemma key_inj s k1 k2 : key s k1 = key s k2 → k1 = k2.
Proof. unfold key. apply String.app_inj. Qed.

Lemma Get_insert s k value expire k' :
  Get {| m := m s; prefix := prefix s;
         c := <[key s k := (value, expire)]> (c s) |} k'
  = if decide (k' = k) then Ok value else Get s k'.
Proof.
  unfold Get, key; simpl. case_decide as Hk.
  - subst. by rewrite lookup_insert_eq.
  - rewrite lookup_insert_ne; [done|].
    intros Heq. apply Hk. symmetry. by apply (String.app_inj (prefix s)).
Qed.

(** X2.  After [Delete] of a key, [Get] of that key misses and [Get] of
    any other key returns what it returned before; after [Clear], [Get]
    of every key misses. *)
Theorem Get_after_Delete_Clear s k k' :
  Get (Delete k s).2 k'
  = (if decide (k' = k) then Err ErrNotFound else Get s k')
  ∧ Get (Clear s).2 k' = Err ErrNotFound.
Proof.
  split; [|done]. unfold Get, Delete, key; simpl. case_decide as Hk.
  - subst. by rewrite lookup_delete_eq.
  - rewrite lookup_delete_ne; [done|].
    intros Heq. apply Hk. symmetry. by apply (String.app_inj (prefix s)).
Qed.

(** X3.  [slowMutexGetSet] blocks exactly when the mutex is held.  When
    it returns, the mutex is free again, the prefix is the same, and no
    key but its own has changed. *)
Theorem slowMutexGetSet_lock_frame k valueFunc expire w :
  (slowMutexGetSet k valueFunc expire w = None ↔ m (cset w) = true)
  ∧ ∀ err dest w',
      slowMutexGetSet k valueFunc expire w = Some (err, dest, w') →
      m (cset w') = false
      ∧ prefix (cset w') = prefix (cset w)
      ∧ ∀ k', k' ≠ k → Get (cset w') k' = Get (cset w) k'.
Proof.
  destruct w as [[m0 p0 c0] l0 n0].
  unfold slowMutexGetSet, Lock; simpl. destruct m0.
  { split; [done|]. intros ??? [=]. }
  split.
  { split; [|done]. by destruct (slowBody _ _ _ _) as [[??]?]. }
  intros err dest w'. unfold slowBody; simpl.
  destruct (Get _ k) as [v| |] eqn:Hget; simpl.
  - intros [= <- <- <-]. done.
  - destruct (valueFunc tt) as [v|e0]; simpl; intros [= <- <- <-]; simpl.
    + split; [done|]. split; [done|]. intros k' Hk.
      pose proof (Get_insert {| m := true; prefix := p0; c := c0 |}
                    k v expire k') as Hins.
      rewrite decide_False in Hins by done.
      unfold Get, key in *; simpl in *. exact Hins.
    + done.
  - unfold Get in Hget. simpl in Hget.
    by destruct (c0 !! _) as [[??]|].
Qed.

End Laws.

Lemma slowMutexGetSet_lock_frame_witness :
  let w0 : World Z := {| cset := NewSet "drops"; log := []; produced := 0 |} in
  ∃ w', slowMutexGetSet "CN" (λ _, inl 42) 60 w0 = Some (None, Some 42, w')
        ∧ m (cset w') = false
        ∧ Get (cset w') "US" = Err ErrNotFound.
Proof.
  eexists. split; [reflexivity|].
  destruct (slowMutexGetSet_lock_frame (V:=Z) "CN" (λ _, inl 42) 60
              {| cset := NewSet "drops"; log := []; produced := 0 |})
    as [_ Hframe].
  destruct (Hframe _ _ _ eq_refl) as (Hm & _ & Hother).
  split; [exact Hm|]. rewrite Hother; [reflexivity|discriminate].
Defined.

End CacheLaws.

(** * Laws of the cache set with its clock and its reflective copy *)

Module TimedCacheLaws.
Import TimedCache Examples.

Section Laws.
Context {I V : Type}.
Variable copy : I → option V.
Implicit Types (s : CSet I) (w : World I) (k : string)
  (valueFunc : unit → I + error).

Lemma wrap_int_id x : int_range x → wrap_int x = x.
Proof.
  unfold int_range, wrap_int, int_bits. intros Hx.
  rewrite Z.mod_small; lia.
Qed.

(** The expiration of an item stored for a duration: none unless the
    duration is positive. *)
Lemma expiration_none now d : d ≤ 0 → expiration now d = 0.
Proof.
  intros Hd. unfold expiration, DefaultExpiration, defaultExpiration,
    NoExpiration.
  destruct (decide (d = 0)); cbn zeta; case_decide; (done || lia).
Qed.

Lemma expiration_some now d :
  0 < d → int_range (now + d) → expiration now d = now + d.
Proof.
  intros Hd Hr. unfold expiration, DefaultExpiration.
  destruct (decide (d = 0)); [lia|]. cbn zeta.
  case_decide; [|lia]. by apply wrap_int_id.
Qed.

Lemma Get_insert_at s k value e now k' :
  Get copy {| m := m s; prefix := prefix s;
              c := <[key s k := (value, e)]> (c s) |} now k'
  = if decide (k' = k) then
      if decide (0 < e ∧ e < now) then Err ErrNotFound
      else match copy value with Some v => Ok v | None => Panic end
    else Get copy s now k'.
Proof.
  unfold Get, key; simpl. case_decide as Hk.
  - subst. by rewrite lookup_insert_eq.
  - rewrite lookup_insert_ne; [done|].
    intros Heq. apply Hk. symmetry. by apply (String.app_inj (prefix s)).
Qed.

(** A miss stays a miss while the store is the same and the clock does
    not go back. *)
Lemma Get_miss_later s t0 t1 k e :
  t0 ≤ t1 → Get copy s t0 k = Err e →
  Get copy s t1 k = Err ErrNotFound.
Proof.
  unfold Get. intros Ht.
  destruct (c s !! key s k) as [[value e']|]; [|done].
  case_decide as Hexp.
  - intros _. by rewrite decide_True by lia.
  - by destruct (copy value).
Qed.

(** [Get] of a key after [Set] of it: the copy of the value while the
    item has not expired, and a miss afterwards. *)
Lemma Get_Set_live s k value expire tSet tGet :
  expire ≤ 0
  ∨ (0 < expire ∧ int_range (tSet + expire)
     ∧ (tSet + expire ≤ 0 ∨ tGet ≤ tSet + expire)) →
  Get copy (Set_ k value expire tSet s).2 tGet k
  = match copy value with Some v => Ok v | None => Panic end.
Proof.
  intros Hlive. unfold Set_. cbn [snd].
  rewrite Get_insert_at, decide_True by done.
  destruct Hlive as [Hd|(Hd & Hr & Hle)].
  - rewrite expiration_none by done. by rewrite decide_False by lia.
  - rewrite expiration_some by done. by rewrite decide_False by lia.
Qed.

Lemma Get_Set_expired s k value expire tSet tGet :
  0 < expire → int_range (tSet + expire) → 0 < tSet + expire < tGet →
  Get copy (Set_ k value expire tSet s).2 tGet k = Err ErrNotFound.
Proof.
  intros Hd Hr Hdead. unfold Set_. cbn [snd].
  rewrite Get_insert_at, decide_True by done.
  rewrite expiration_some by done. by rewrite decide_True by lia.
Qed.

(** X1.  After [Set] has stored a value under a key, [Get] of any other
    key returns what it returned before, and the mutex and the prefix
    are untouched.  [Get] of the key itself copies the value to [dest],
    or panics when the value is nil or cannot be assigned to [dest]:
    at any time when the duration is not positive (the item does not
    expire), and up to the expiration when it is positive.  After the
    expiration it misses. *)
Theorem Get_after_Set s k value expire tSet tGet k' :
  let s' := (Set_ k value expire tSet s).2 in
  let copied := match copy value with Some v => Ok v | None => Panic end in
  (k' ≠ k → Get copy s' tGet k' = Get copy s tGet k')
  ∧ (expire ≤ 0 → Get copy s' tGet k = copied)
  ∧ (0 < expire → int_range (tSet + expire) →
     tSet + expire ≤ 0 ∨ tGet ≤ tSet + expire →
     Get copy s' tGet k = copied)
  ∧ (0 < expire → int_range (tSet + expire) →
     0 < tSet + expire < tGet →
     Get copy s' tGet k = Err ErrNotFound)
  ∧ m s' = m s ∧ prefix s' = prefix s.
Proof.
  cbn zeta.
  split.
  { intros Hk. unfold Set_. cbn [snd]. by rewrite Get_insert_at, decide_False. }
  split; [intros Hd; apply Get_Set_live; by left|].
  split; [intros Hd Hr Hle; apply Get_Set_live; by right|].
  split; [apply Get_Set_expired|done].
Qed.

Lemma slowMutexGetSet_miss k valueFunc expire tGet tSet w e :
  m (cset w) = false →
  Get copy (cset w) tGet k = Err e →
  slowMutexGetSet copy k valueFunc expire tGet tSet w
  = Some
      match valueFunc tt with
      | inr err =>
        (Returns (Some err, None),
         {| cset := cset w;
            log := log w ++ [LogError k err msg_valueFunc];
            produced := S (produced w) |})
      | inl value =>
        (match copy value with
         | Some v => Returns (None, Some v)
         | None => Panics
         end,
         {| cset := (Set_ k value expire tSet (cset w)).2;
            log := log w; produced := S (produced w) |})
      end.
Proof.
  intros Hm Hget. destruct w as [[m0 p0 c0] l0 n0]. simpl in *. subst m0.
  unfold slowMutexGetSet, Lock, slowBody; simpl.
  replace (Get copy {| m := true; prefix := p0; c := c0 |} tGet k)
    with (Get copy {| m := false; prefix := p0; c := c0 |} tGet k) by done.
  rewrite Hget.
  destruct (valueFunc tt) as [value|err]; simpl; [|done].
  by destruct (copy value).
Qed.

(** X4.  In a run without interference, with the mutex free and a
    clock that does not go back between the two checks, [MutexGetSet]
    returns when the reflective copy cannot panic (the cached value, if
    there is one, and the value of the producer, if it returns one, can
    be copied to [dest]): its first return value is [false] exactly when
    the key was in the cache, and the producer has been run once when it
    is [true], not at all when it is [false].  When the key misses and
    the producer returns a value that cannot be copied, [MutexGetSet]
    panics after the producer has run and the value has been stored;
    the mutex is free again. *)
Theorem MutexGetSet_sequential_flag k valueFunc expire t0 tGet tSet w :
  m (cset w) = false →
  t0 ≤ tGet →
  (Get copy (cset w) t0 k ≠ Panic →
   (∀ value, valueFunc tt = inl value → is_Some (copy value)) →
   ∃ flag err dest w',
     MutexGetSet copy id k valueFunc expire t0 tGet tSet w
     = Some (Returns (flag, err, dest), w')
     ∧ (flag = false ↔ ∃ v, Get copy (cset w) t0 k = Ok v)
     ∧ produced w' = (if flag then S (produced w) else produced w))
  ∧ (∀ e value,
       Get copy (cset w) t0 k = Err e →
       valueFunc tt = inl value → copy value = None →
       ∃ w',
         MutexGetSet copy id k valueFunc expire t0 tGet tSet w
         = Some (Panics, w')
         ∧ m (cset w') = false
         ∧ produced w' = S (produced w)
         ∧ c (cset w') !! key (cset w) k
           = Some (value, expiration tSet expire)).
Proof.
  intros Hm Ht. split.
  - intros Hsafe Hprod. unfold MutexGetSet.
    destruct (Get copy (cset w) t0 k) as [v|e|] eqn:Hget; [| |done].
    + eexists false, _, _, _. split; [reflexivity|]. split; [|done].
      split; [eauto|done].
    + pose proof (Get_miss_later _ _ _ _ _ Ht Hget) as Hget1.
      replace {| cset := id (cset w); log := log w; produced := produced w |}
        with w by (by destruct w).
      rewrite (slowMutexGetSet_miss _ _ _ _ _ _ ErrNotFound) by done.
      destruct (valueFunc tt) as [value|err] eqn:Hf.
      * destruct (Hprod value eq_refl) as [v Hv]. rewrite Hv.
        eexists true, _, _, _. split; [reflexivity|]. split; [|done].
        split; [done|]. by intros [v' Hv'].
      * eexists true, _, _, _. split; [reflexivity|]. split; [|done].
        split; [done|]. by intros [v' Hv'].
  - intros e value Hget Hf Hcopy. unfold MutexGetSet. rewrite Hget.
    pose proof (Get_miss_later _ _ _ _ _ Ht Hget) as Hget1.
    replace {| cset := id (cset w); log := log w; produced := produced w |}
      with w by (by destruct w).
    rewrite (slowMutexGetSet_miss _ _ _ _ _ _ ErrNotFound) by done.
    rewrite Hf, Hcopy. eexists. split; [reflexivity|].
    simpl. split; [done|]. split; [done|].
    unfold key. simpl. apply lookup_insert_eq.
Qed.

(** X5.  Once [MutexGetSet] has computed and stored a value, a later
    call for the same key returns that value from the cache while the
    item has not expired (at any time when the duration is not
    positive): its first return value is [false], its producer is not
    run and nothing changes.  A later call after the expiration misses
    and runs its own producer: with a failing producer it returns
    [true] and that error. *)
Theorem MutexGetSet_then_hit k valueFunc valueFunc2 expire expire2
    t0 tGet tSet t0' tGet' tSet' w e value v :
  m (cset w) = false →
  t0 ≤ tGet →
  Get copy (cset w) t0 k = Err e →
  valueFunc tt = inl value →
  copy value = Some v →
  ∃ w',
    MutexGetSet copy id k valueFunc expire t0 tGet tSet w
    = Some (Returns (true, None, Some v), w')
    ∧ (expire ≤ 0
       ∨ (0 < expire ∧ int_range (tSet + expire)
          ∧ (tSet + expire ≤ 0 ∨ t0' ≤ tSet + expire)) →
       MutexGetSet copy id k valueFunc2 expire2 t0' tGet' tSet' w'
       = Some (Returns (false, None, Some v), w'))
    ∧ (0 < expire → int_range (tSet + expire) →
       0 < tSet + expire < t0' → t0' ≤ tGet' →
       ∀ err, valueFunc2 tt = inr err →
       ∃ w'',
         MutexGetSet copy id k valueFunc2 expire2 t0' tGet' tSet' w'
         = Some (Returns (true, Some err, None), w'')
         ∧ produced w'' = S (produced w')).
Proof.
  intros Hm Ht Hmiss Hf Hcopy.
  pose proof (Get_miss_later _ _ _ _ _ Ht Hmiss) as Hmiss1.
  eexists. split.
  { unfold MutexGetSet. rewrite Hmiss.
    replace {| cset := id (cset w); log := log w; produced := produced w |}
      with w by (by destruct w).
    rewrite (slowMutexGetSet_miss _ _ _ _ _ _ ErrNotFound) by done.
    rewrite Hf, Hcopy. reflexivity. }
  pose proof (Get_Set_expired (cset w) k value expire tSet t0') as Hdead.
  split.
  - intros Hgood. unfold MutexGetSet. cbn [cset].
    by rewrite Get_Set_live, Hcopy.
  - intros Hd Hr Hexp Ht' err Hf2. unfold MutexGetSet. cbn [cset].
    rewrite Hdead by done.
    set (w' := {| cset := (Set_ k value expire tSet (cset w)).2;
                  log := log w; produced := S (produced w) |}).
    replace {| cset := id (cset w'); log := log w'; produced := produced w' |}
      with w' by done.
    assert (Get copy (cset w') tGet' k = Err ErrNotFound) as Hget'.
    { apply (Get_miss_later _ t0' _ _ ErrNotFound); [done|].
      subst w'. cbn [cset]. by rewrite Hdead. }
    rewrite (slowMutexGetSet_miss _ _ _ _ _ _ ErrNotFound) by done.
    rewrite Hf2. eexists. split; reflexivity.
Qed.

End Laws.

(** ** Instances on a set of integers *)

Lemma Get_after_Set_witness :
  let s' : CSet (option Z) :=
    (Set_ "CN" (Some 42) 60 1000 (NewSet "drops")).2 in
  Get copyInt_ex s' 1050 "CN" = Ok 42
  ∧ Get copyInt_ex s' 2000 "CN" = Err ErrNotFound
  ∧ Get copyInt_ex (Set_ "CN" None 0 1000 (NewSet "drops")).2 2000 "CN" = Panic.
Proof.
  cbn zeta.
  destruct (Get_after_Set copyInt_ex (NewSet "drops") "CN" (Some 42) 60 1000 1050 "CN")
    as (_ & _ & Hlive & _).
  destruct (Get_after_Set copyInt_ex (NewSet "drops") "CN" (Some 42) 60 1000 2000 "CN")
    as (_ & _ & _ & Hdead & _).
  destruct (Get_after_Set copyInt_ex (NewSet "drops") "CN" None 0 1000 2000 "CN")
    as (_ & Hnever & _).
  split; [apply Hlive; [lia|unfold int_range; lia|right; lia]|].
  split; [apply Hdead; [lia|unfold int_range; lia|lia]|].
  apply Hnever. lia.
Defined.

Lemma MutexGetSet_sequential_flag_witness :
  let w0 : World (option Z) :=
    {| cset := NewSet "drops"; log := []; produced := 0 |} in
  (∃ flag err dest w',
     MutexGetSet copyInt_ex id "CN" (λ _, inl (Some 42)) 60 1000 1001 1002 w0
     = Some (Returns (flag, err, dest), w')
     ∧ (flag = false ↔ ∃ v, Get copyInt_ex (cset w0) 1000 "CN" = Ok v)
     ∧ produced w' = (if flag then 1 else 0)%nat)
  ∧ ∃ w',
      MutexGetSet copyInt_ex id "CN" (λ _, inl None) 60 1000 1001 1002 w0
      = Some (Panics, w')
      ∧ m (cset w') = false
      ∧ produced w' = 1%nat
      ∧ c (cset w') !! "drops:CN" = Some (None, 1062).
Proof.
  cbn zeta. split.
  - destruct (MutexGetSet_sequential_flag copyInt_ex "CN"
                (λ _, inl (Some 42)) 60 1000 1001 1002
                {| cset := NewSet "drops"; log := []; produced := 0 |})
      as [Hreturns _]; [reflexivity|lia|].
    apply Hreturns; [discriminate|].
    intros value [= <-]. by eexists.
  - destruct (MutexGetSet_sequential_flag copyInt_ex "CN"
                (λ _, inl None) 60 1000 1001 1002
                {| cset := NewSet "drops"; log := []; produced := 0 |})
      as [_ Hpanics]; [reflexivity|lia|].
    apply (Hpanics ErrNotFound None); reflexivity.
Defined.

Lemma MutexGetSet_then_hit_witness :
  let w0 : World (option Z) :=
    {| cset := NewSet "drops"; log := []; produced := 0 |} in
  ∃ w',
    MutexGetSet copyInt_ex id "CN" (λ _, inl (Some 42)) 60 1000 1001 1002 w0
    = Some (Returns (true, None, Some 42), w')
    ∧ MutexGetSet copyInt_ex id "CN" (λ _, inr (ErrMsg "boom")) 60 1050 1051 1052 w'
      = Some (Returns (false, None, Some 42), w')
    ∧ ∃ w'',
        MutexGetSet copyInt_ex id "CN" (λ _, inr (ErrMsg "boom")) 60 2000 2001 2002 w'
        = Some (Returns (true, Some (ErrMsg "boom"), None), w'').
Proof.
  cbn zeta.
  destruct (MutexGetSet_then_hit copyInt_ex "CN" (λ _, inl (Some 42))
              (λ _, inr (ErrMsg "boom")) 60 60 1000 1001 1002 1050 1051 1052
              {| cset := NewSet "drops"; log := []; produced := 0 |}
              ErrNotFound (Some 42) 42)
    as (w' & Hfirst & Hhit & _); [reflexivity|lia|reflexivity..|].
  destruct (MutexGetSet_then_hit copyInt_ex "CN" (λ _, inl (Some 42))
              (λ _, inr (ErrMsg "boom")) 60 60 1000 1001 1002 2000 2001 2002
              {| cset := NewSet "drops"; log := []; produced := 0 |}
              ErrNotFound (Some 42) 42)
    as (w2 & Hfirst2 & _ & Hmiss); [reflexivity|lia|reflexivity..|].
  rewrite Hfirst in Hfirst2. injection Hfirst2 as <-.
  exists w'. split; [exact Hfirst|]. split.
  - apply Hhit. right. unfold int_range. lia.
  - destruct (Hmiss ltac:(lia) ltac:(unfold int_range; lia) ltac:(lia)
                ltac:(lia) (ErrMsg "boom") eq_refl) as (w'' & Hsecond & _).
    by exists w''.
Defined.

End TimedCacheLaws.

(** * Laws of the drop-matrix service *)

Module ServiceLaws.
Import Service Examples ServiceSpec.

(** ** Combining results *)

Lemma wrap_int_add_r x y : wrap_int (x + wrap_int y) = wrap_int (x + y).
Proof. by rewrite Z.add_comm, wrap_int_add_l, Z.add_comm. Qed.

Lemma int_add_assoc x y z : int_add (int_add x y) z = int_add x (int_add y z).
Proof.
  unfold int_add. rewrite wrap_int_add_l, wrap_int_add_r. f_equal. lia.
Qed.

(** X6.  [combineDropMatrixResults] is associative: when [a] combines
    with [b] and [b] with [c], combining the first result with [c] and
    [a] with the second succeed and give the same element. *)
Theorem combineDropMatrixResults_assoc (a b c ab bc : OneDropMatrixElement) :
  combineDropMatrixResults a b = Ok ab →
  combineDropMatrixResults b c = Ok bc →
  ∃ r, combineDropMatrixResults ab c = Ok r
       ∧ combineDropMatrixResults a bc = Ok r.
Proof.
  intros Hab Hbc.
  apply combineDropMatrixResults_Ok in Hab as (Hs1 & Hi1 & ->).
  apply combineDropMatrixResults_Ok in Hbc as (Hs2 & Hi2 & ->).
  eexists. split.
  - rewrite combineDropMatrixResults_same; simpl; [reflexivity|congruence..].
  - rewrite combineDropMatrixResults_same; simpl; [|congruence..].
    by rewrite !int_add_assoc, Hs1, Hi1.
Qed.

Lemma combineDropMatrixResults_assoc_witness :
  let a := {| one_StageID := 1; one_ItemID := 2; one_Quantity := 10;
              one_Times := 100; one_TimeRange := None |} in
  let b := {| one_StageID := 1; one_ItemID := 2; one_Quantity := 5;
              one_Times := 50; one_TimeRange := None |} in
  let c := {| one_StageID := 1; one_ItemID := 2; one_Quantity := 1;
              one_Times := 7; one_TimeRange := None |} in
  ∃ ab bc r,
    combineDropMatrixResults a b = Ok ab
    ∧ combineDropMatrixResults b c = Ok bc
    ∧ combineDropMatrixResults ab c = Ok r
    ∧ combineDropMatrixResults a bc = Ok r.
Proof.
  intros a b c.
  destruct (combineDropMatrixResults_assoc a b c _ _ eq_refl eq_refl)
    as (r & H1 & H2).
  eexists _, _, r. split; [reflexivity|]. split; [reflexivity|].
  split; [exact H1 | exact H2].
Defined.

(** ** The max-accumulable fold and empty chains *)

Lemma itemLoop_empty_chain stageId subMapByItemId chains matrix :
  Exists (λ chain, chain.2 = []) chains →
  itemLoop stageId subMapByItemId chains matrix = Panic.
Proof.
  intros Hex. revert matrix.
  induction chains as [|[itemId ts] chains IH]; intros matrix.
  { by apply Exists_nil in Hex. }
  simpl. destruct ts as [|first rest]; [done|].
  rewrite foldChain_spec by done. simpl.
  apply IH. apply Exists_cons in Hex as [Hex|Hex]; [done|exact Hex].
Qed.

Lemma stageChainLoop_empty_chain elementsMap stages matrix :
  Exists (λ stage, Exists (λ chain, chain.2 = []) (map_to_list stage.2)) stages →
  stageChainLoop elementsMap stages matrix = Panic.
Proof.
  intros Hex. revert matrix.
  induction stages as [|[stageId per] stages IH]; intros matrix.
  { by apply Exists_nil in Hex. }
  simpl.
  destruct (decide (Exists (λ chain : Z * list TimeRange, chain.2 = [])
                      (map_to_list per))) as [Hhere|Hnot].
  - by rewrite itemLoop_empty_chain.
  - rewrite itemLoop_spec; simpl.
    + apply IH. apply Exists_cons in Hex as [Hex|Hex]; [done|exact Hex].
    + apply Forall_forall. intros chain Hin Hempty. apply Hnot.
      apply Exists_exists. eauto.
Qed.

(** X7.  The fold returns the error of the time-range service when that
    fails; otherwise it never returns an error (the mismatch errors of
    [combineDropMatrixResults] cannot occur), and it panics exactly when
    the chain of some stage and item is empty. *)
Theorem convert_max_accumulable_outcome
    (dropMatrixElements : list DropMatrixElement) :
  (∀ e, convertDropMatrixElementsToMaxAccumulableDropMatrixQueryResult
          (inr e) dropMatrixElements = Err e)
  ∧ ∀ chains : gmap Z (gmap Z (list TimeRange)),
      (∀ e, convertDropMatrixElementsToMaxAccumulableDropMatrixQueryResult
              (inl chains) dropMatrixElements ≠ Err e)
      ∧ (convertDropMatrixElementsToMaxAccumulableDropMatrixQueryResult
           (inl chains) dropMatrixElements = Panic
         ↔ ∃ stageId per itemId,
             chains !! stageId = Some per ∧ per !! itemId = Some []).
Proof.
  split; [done|]. intros chains.
  unfold convertDropMatrixElementsToMaxAccumulableDropMatrixQueryResult.
  cbn [call bind].
  destruct (decide (Exists (λ stage : Z * gmap Z (list TimeRange),
                      Exists (λ chain : Z * list TimeRange, chain.2 = [])
                        (map_to_list stage.2))
                      (map_to_list chains))) as [Hex|Hnot].
  - rewrite stageChainLoop_empty_chain by done.
    split; [done|]. split; [intros _|done].
    apply Exists_exists in Hex as ([stageId per] & Hstage & Hex).
    apply Exists_exists in Hex as ([itemId ts] & Hchain & Hts).
    simpl in *. subst ts.
    apply elem_of_map_to_list in Hstage, Hchain. eauto.
  - rewrite stageChainLoop_spec.
    + split; [done|]. split; [done|].
      intros (stageId & per & itemId & Hper & Hts). exfalso. apply Hnot.
      apply Exists_exists. exists (stageId, per).
      split; [by apply elem_of_map_to_list|].
      apply Exists_exists. exists (itemId, []).
      split; [by apply elem_of_map_to_list|done].
    + apply Forall_forall. intros [stageId per] Hin itemId ts Hts ->.
      apply Hnot. apply Exists_exists. exists (stageId, per). split; [done|].
      apply Exists_exists. exists (itemId, []).
      split; [by apply elem_of_map_to_list|done].
Qed.

Lemma convert_max_accumulable_outcome_witness :
  convertDropMatrixElementsToMaxAccumulableDropMatrixQueryResult
    (inl {[ 1 := {[ 1 := [] ]} ]}) [element1_ex] = Panic.
Proof.
  destruct (convert_max_accumulable_outcome [element1_ex]) as [_ Hchains].
  destruct (Hchains {[ 1 := {[ 1 := [] ]} ]}) as [_ Hpanic].
  apply Hpanic. exists 1, {[ 1 := [] ]}, 1. split; reflexivity.
Defined.

(** ** The calculator *)

(** X8.  A combined result is emitted for a stage, an item and the time
    range exactly when the times query has a row for the stage and the
    quantity query has a row for the stage and the item; it carries the
    times of that row and the quantity observed. *)
Theorem combineQuantityAndTimesResults_elem_of
    (quantityResults : list TotalQuantityResultForDropMatrix)
    (timesResults : list TotalTimesResult) (timeRange : TimeRange)
    (c : CombinedResultForDropMatrix) :
  c ∈ combineQuantityAndTimesResults quantityResults timesResults timeRange
  ↔ cr_TimeRange c = timeRange
    ∧ {| tt_StageID := cr_StageID c; tt_TotalTimes := cr_Times c |}
      ∈ timesResults
    ∧ observedQuantity quantityResults (cr_StageID c) (cr_ItemID c)
      = Some (cr_Quantity c).
Proof.
  rewrite combineQuantityAndTimesResults_bind, list_elem_of_bind.
  split.
  - intros ([stageId g] & Hc & Hg). apply GroupBy_elem_of in Hg as [-> _].
    apply list_elem_of_bind in Hc as (t & Hc & Ht).
    apply list_elem_of_filter in Ht as [Hstage Ht].
    apply list_elem_of_fmap in Hc as ([itemId q] & -> & Hiq).
    apply elem_of_map_to_list in Hiq. simpl in *.
    rewrite quantityResultsMap_observed in Hiq.
    split; [done|]. split; [|done].
    destruct t as [s n]. simpl in *. by subst s.
  - intros (Hr & Ht & Hq).
    exists (cr_StageID c,
            filter (λ t, tt_StageID t = cr_StageID c) timesResults).
    split.
    + apply list_elem_of_bind.
      exists {| tt_StageID := cr_StageID c; tt_TotalTimes := cr_Times c |}.
      split; [|by apply list_elem_of_filter].
      apply list_elem_of_fmap. exists (cr_ItemID c, cr_Quantity c).
      split; [destruct c; simpl in *; by subst|].
      apply elem_of_map_to_list. simpl.
      by rewrite quantityResultsMap_observed.
    + apply GroupBy_elem_of. split; [done|].
      intros Hnil.
      eapply (filter_nil_not_elem_of _ _ _ Hnil); [|exact Ht]. done.
Qed.

Lemma combineQuantityAndTimesResults_range quantityResults timesResults
    timeRange c :
  c ∈ combineQuantityAndTimesResults quantityResults timesResults timeRange →
  cr_TimeRange c = timeRange.
Proof.
  rewrite combineQuantityAndTimesResults_bind.
  intros (g & Hc & _)%list_elem_of_bind.
  apply list_elem_of_bind in Hc as (t & Hc & _).
  by apply list_elem_of_fmap in Hc as (iq & -> & _).
Qed.

Section CalculatorLaws.
Variable GetDropInfosWithFilters :
  string → list TimeRange → list Z → list Z → list DropInfo + error.
Variable CalcTotalQuantityForDropMatrix :
  string → TimeRange → list DropInfo → option Z →
  list TotalQuantityResultForDropMatrix + error.
Variable CalcTotalTimesForDropMatrix :
  string → TimeRange → list DropInfo → option Z →
  list TotalTimesResult + error.
Variable GetItemDropSetByStageIdAndRangeId : string → Z → Z → list Z.

Lemma call_no_panic {A : Type} (r : A + error) : call r ≠ Panic.
Proof. by destruct r. Qed.

Lemma combineLoop_no_panic server dropInfos accountId timeRanges acc :
  combineLoop CalcTotalQuantityForDropMatrix CalcTotalTimesForDropMatrix
    server dropInfos accountId timeRanges acc ≠ Panic.
Proof.
  revert acc. induction timeRanges as [|r rest IH]; intros acc; simpl; [done|].
  destruct (CalcTotalQuantityForDropMatrix _ _ _ _); simpl; [|done].
  destruct (CalcTotalTimesForDropMatrix _ _ _ _); simpl; [|done].
  apply IH.
Qed.

Lemma GroupBy_nonempty {A : Type} (keyOf : A → Z) (l : list A) :
  Forall (λ g, g.2 ≠ []) (GroupBy keyOf l).
Proof.
  apply Forall_forall. intros [k g] Hin. by apply GroupBy_elem_of in Hin as [_ ?].
Qed.

Lemma rangeLoop_no_panic server itemIdFilter stageId groups st :
  Forall (λ g, g.2 ≠ []) groups →
  rangeLoop GetDropInfosWithFilters GetItemDropSetByStageIdAndRangeId server
    itemIdFilter stageId groups st ≠ Panic.
Proof.
  intros Hne. revert st.
  induction Hne as [|[rangeId group] groups Hg Hne IH]; intros st; [done|].
  destruct group as [|first group]; [done|]. cbn [rangeLoop fst snd].
  unfold dropItemIdsOf. case_decide.
  - destruct (GetDropInfosWithFilters _ _ _ _); cbn [call bind]; [|done].
    destruct (observedLoop _ _ _ _ _ _ _) as [dropSet st1]. apply IH.
  - cbn [bind]. destruct (observedLoop _ _ _ _ _ _ _) as [dropSet st1].
    apply IH.
Qed.

Lemma stageLoop_no_panic server itemIdFilter groups st :
  stageLoop GetDropInfosWithFilters GetItemDropSetByStageIdAndRangeId server
    itemIdFilter groups st ≠ Panic.
Proof.
  revert st. induction groups as [|[stageId group] groups IH]; intros st;
    [done|].
  simpl.
  destruct (rangeLoop _ _ _ _ _ _ _) as [st1|e|] eqn:Hranges; simpl;
    [apply IH|done|].
  by apply rangeLoop_no_panic in Hranges; [|apply GroupBy_nonempty].
Qed.

Lemma calc_no_panic server timeRanges stageIdFilter itemIdFilter accountId :
  calcDropMatrixForTimeRanges GetDropInfosWithFilters
    CalcTotalQuantityForDropMatrix CalcTotalTimesForDropMatrix
    GetItemDropSetByStageIdAndRangeId server timeRanges stageIdFilter
    itemIdFilter accountId ≠ Panic.
Proof.
  unfold calcDropMatrixForTimeRanges.
  destruct (GetDropInfosWithFilters _ _ _ _); cbn [call bind]; [|done].
  destruct (combineLoop _ _ _ _ _ _ _) as [combined|e|] eqn:Hcombine;
    cbn [bind]; [|done|by apply combineLoop_no_panic in Hcombine].
  unfold groupAndFill.
  destruct (stageLoop _ _ _ _ _ _) as [st|e|] eqn:Hstages; cbn [bind];
    [done|done|by apply stageLoop_no_panic in Hstages].
Qed.

(** X9.  The calculator never panics: the first element of a group,
    which it reads without a check, is always there. *)
Theorem calcDropMatrixForTimeRanges_no_panic (server : string)
    (timeRanges : list TimeRange) (stageIdFilter itemIdFilter : list Z)
    (accountId : option Z) :
  calcDropMatrixForTimeRanges GetDropInfosWithFilters
    CalcTotalQuantityForDropMatrix CalcTotalTimesForDropMatrix
    GetItemDropSetByStageIdAndRangeId server timeRanges stageIdFilter
    itemIdFilter accountId ≠ Panic.
Proof. apply calc_no_panic. Qed.

Lemma groupElements_ofRange server itemIdFilter stageId r group dropItemIds :
  Forall (ofRange server r)
    (groupElements server itemIdFilter stageId (RangeID r) r group dropItemIds).
Proof.
  apply Forall_forall. intros e. unfold groupElements.
  rewrite elem_of_app, !list_elem_of_fmap.
  by intros [(el3 & -> & _)|(itemId & -> & _)].
Qed.

Lemma rangeLoop_ofRange server itemIdFilter stageId r groups st st' :
  Forall (λ g, g.1 = RangeID r ∧ Forall (λ c, cr_TimeRange c = r) g.2) groups →
  rangeLoop GetDropInfosWithFilters GetItemDropSetByStageIdAndRangeId server
    itemIdFilter stageId groups st = Ok st' →
  ∃ new, st'.2 = st.2 ++ new ∧ Forall (ofRange server r) new.
Proof.
  intros Hgroups. revert st.
  induction Hgroups as [|[rangeId group] groups [Hid Hall] Hgroups IH];
    intros st.
  { intros [= <-]. exists []. by rewrite app_nil_r. }
  destruct group as [|first group]; [done|]. destruct st as [stm elems].
  simpl in Hid. subst rangeId.
  intros (ids & stm1 & _ & Hrest)%rangeLoop_cons.
  apply IH in Hrest as (new & -> & Hnew). simpl.
  eexists. rewrite <- app_assoc. split; [done|].
  apply Forall_app. split; [|done].
  apply Forall_cons in Hall as [-> _]. apply groupElements_ofRange.
Qed.

Lemma stageLoop_ofRange server itemIdFilter r groups st st' :
  Forall (λ g, Forall (λ c, cr_TimeRange c = r) g.2) groups →
  stageLoop GetDropInfosWithFilters GetItemDropSetByStageIdAndRangeId server
    itemIdFilter groups st = Ok st' →
  ∃ new, st'.2 = st.2 ++ new ∧ Forall (ofRange server r) new.
Proof.
  intros Hgroups. revert st.
  induction Hgroups as [|[stageId group] groups Hall Hgroups IH]; intros st.
  { intros [= <-]. exists []. by rewrite app_nil_r. }
  simpl.
  destruct (rangeLoop _ _ _ _ _ _ _) as [st1| |] eqn:Hranges; simpl; [|done..].
  apply (rangeLoop_ofRange _ _ _ r) in Hranges as (new1 & Hst1 & Hnew1).
  - intros (new & -> & Hnew)%IH. rewrite Hst1.
    eexists. rewrite <- app_assoc. split; [done|]. by apply Forall_app.
  - apply Forall_forall. intros [k g] Hin.
    apply GroupBy_elem_of in Hin as [-> Hne]. simpl in *.
    assert (Forall (λ c, cr_TimeRange c = r)
              (filter (λ c, RangeID (cr_TimeRange c) = k) group)) as Hg.
    { apply Forall_forall. intros c [_ Hc]%list_elem_of_filter.
      by apply (proj1 (Forall_forall _ _) Hall). }
    split; [|done].
    destruct (filter _ group) as [|c0 g] eqn:E; [done|].
    apply Forall_cons in Hg as [Hc0 _].
    assert (c0 ∈ filter (λ c, RangeID (cr_TimeRange c) = k) group) as Hin
      by (rewrite E; left).
    apply list_elem_of_filter in Hin as [<- _]. by rewrite Hc0.
Qed.

Lemma calc_ofRange server earlier r stageIdFilter itemIdFilter accountId
    elements :
  calcDropMatrixForTimeRanges GetDropInfosWithFilters
    CalcTotalQuantityForDropMatrix CalcTotalTimesForDropMatrix
    GetItemDropSetByStageIdAndRangeId server (earlier ++ [r])
    stageIdFilter itemIdFilter accountId = Ok elements →
  Forall (ofRange server r) elements.
Proof.
  unfold calcDropMatrixForTimeRanges.
  destruct (GetDropInfosWithFilters _ _ _ _); cbn [call bind]; [|done].
  destruct (combineLoop _ _ _ _ _ _ _) as [combined| |] eqn:Hcombine;
    cbn [bind]; [|done..].
  apply combineLoop_last in Hcombine as (Q & T & _ & _ & ->).
  unfold groupAndFill.
  destruct (stageLoop _ _ _ _ _ _) as [st| |] eqn:Hstages; cbn [bind];
    [|done..].
  intros [= <-].
  apply (stageLoop_ofRange _ _ r) in Hstages as (new & -> & Hnew);
    [exact Hnew|].
  apply Forall_forall. intros [k g] Hin.
  apply GroupBy_elem_of in Hin as [-> _]. simpl.
  apply Forall_forall. intros c [_ Hc]%list_elem_of_filter.
  by apply combineQuantityAndTimesResults_range in Hc.
Qed.

(** X10.  Without time ranges the calculator returns no element.  With
    time ranges, every element it returns carries the server, the id of
    the last time range, and that time range inline exactly when its id
    is 0. *)
Theorem calcDropMatrixForTimeRanges_elements (server : string)
    (stageIdFilter itemIdFilter : list Z) (accountId : option Z) :
  (∀ dropInfos,
     GetDropInfosWithFilters server [] stageIdFilter itemIdFilter
     = inl dropInfos →
     calcDropMatrixForTimeRanges GetDropInfosWithFilters
       CalcTotalQuantityForDropMatrix CalcTotalTimesForDropMatrix
       GetItemDropSetByStageIdAndRangeId server [] stageIdFilter itemIdFilter
       accountId = Ok [])
  ∧ ∀ earlier r elements,
      calcDropMatrixForTimeRanges GetDropInfosWithFilters
        CalcTotalQuantityForDropMatrix CalcTotalTimesForDropMatrix
        GetItemDropSetByStageIdAndRangeId server (earlier ++ [r])
        stageIdFilter itemIdFilter accountId = Ok elements →
      Forall (λ e, el_RangeID e = RangeID r ∧ el_Server e = server
                   ∧ el_TimeRange e
                     = (if decide (RangeID r = 0) then Some r else None))
        elements.
Proof.
  split.
  - intros dropInfos Hdrop. unfold calcDropMatrixForTimeRanges.
    rewrite Hdrop. reflexivity.
  - intros earlier r elements Hcalc. by apply calc_ofRange in Hcalc.
Qed.

End CalculatorLaws.

(** ** Converting elements to a query result *)

(** The groups of a list, put end to end, are the list in another
    order. *)
Lemma GroupBy_Permutation {A : Type} (keyOf : A → Z) (l : list A) :
  GroupBy keyOf l ≫= snd ≡ₚ l.
Proof.
  unfold GroupBy. induction l as [|x l IH] using rev_ind.
  { unfold groupMap. simpl. by rewrite map_to_list_empty. }
  rewrite groupMap_snoc.
  destruct (groupMap keyOf l !! keyOf x) as [g|] eqn:Hg; simpl.
  - rewrite <- insert_delete_eq.
    rewrite map_to_list_insert by apply lookup_delete_eq.
    rewrite bind_cons. simpl.
    rewrite <- (map_to_list_delete _ _ _ Hg), bind_cons in IH. simpl in IH.
    etrans; [|apply (Permutation_app_tail [x] IH)].
    rewrite <- !app_assoc.
    apply Permutation_app_head, Permutation_app_comm.
  - rewrite map_to_list_insert by done. rewrite bind_cons. simpl.
    etrans; [|apply Permutation_cons_append]. by constructor.
Qed.

Section ConvertLaws.
Variable GetTimeRangeById : Z → TimeRange + error.

Lemma convertGroup_spec timeRange group matrix :
  convertGroup timeRange group matrix = matrix ++ (oneOf timeRange <$> group).
Proof.
  unfold convertGroup. revert matrix.
  induction group as [|el group IH]; intros matrix; simpl.
  - by rewrite app_nil_r.
  - rewrite IH. by rewrite <- app_assoc.
Qed.

(** The time range of a group of the elements is the resolved one. *)
Lemma timeRangeOfGroup_resolve dropMatrixElements rangeId timeRange :
  timeRangeOfGroup GetTimeRangeById rangeId
    (filter (λ e, el_RangeID e = rangeId) dropMatrixElements) = Ok timeRange →
  timeRange = resolveTimeRange GetTimeRangeById dropMatrixElements rangeId.
Proof.
  unfold timeRangeOfGroup, resolveTimeRange. case_decide as Hid.
  - subst rangeId. destruct (filter _ dropMatrixElements); [done|].
    by intros [= <-].
  - destruct (GetTimeRangeById rangeId); simpl; [|done]. by intros [= <-].
Qed.

Lemma convertLoop_spec dropMatrixElements groups matrix res :
  Forall (λ g, g.2 = filter (λ e, el_RangeID e = g.1) dropMatrixElements)
    groups →
  convertLoop GetTimeRangeById groups matrix = Ok res →
  res = matrix
        ++ (groups ≫= λ g,
              (λ el, oneOf (resolveTimeRange GetTimeRangeById
                              dropMatrixElements (el_RangeID el)) el)
                <$> g.2).
Proof.
  intros Hgroups. revert matrix.
  induction Hgroups as [|[rangeId group] groups Hg Hgroups IH]; intros matrix.
  { intros [= <-]. by rewrite app_nil_r. }
  simpl in *.
  destruct (timeRangeOfGroup _ _ _) as [timeRange| |] eqn:Htr; simpl;
    [|done..].
  intros ->%IH. rewrite convertGroup_spec, <- app_assoc. do 2 f_equal.
  rewrite Hg in Htr. apply timeRangeOfGroup_resolve in Htr as ->.
  rewrite Hg. apply list_fmap_ext.
  by intros i el [<- _]%list_elem_of_lookup_2%list_elem_of_filter.
Qed.

Lemma convert_Permutation dropMatrixElements matrix :
  convertDropMatrixElementsToDropMatrixQueryResult GetTimeRangeById
    dropMatrixElements = Ok matrix →
  matrix
  ≡ₚ (λ el, oneOf (resolveTimeRange GetTimeRangeById dropMatrixElements
                     (el_RangeID el)) el) <$> dropMatrixElements.
Proof.
  unfold convertDropMatrixElementsToDropMatrixQueryResult.
  intros ->%(convertLoop_spec dropMatrixElements).
  - rewrite app_nil_l.
    etrans; [|apply fmap_Permutation, (GroupBy_Permutation el_RangeID)].
    generalize (GroupBy el_RangeID dropMatrixElements). intros groups.
    induction groups as [|g groups IH]; [done|].
    rewrite !bind_cons, fmap_app. by apply Permutation_app_head.
  - apply Forall_forall. intros [k g] Hin.
    by apply GroupBy_elem_of in Hin as [-> _].
Qed.

(** X11.  When the conversion succeeds, its result is, up to the order,
    the elements, each with its stage, item, quantity and times, and with
    the time range of its range id: an element of a range id other than
    0 gets the time range the service knows under that id, and all the
    elements of range id 0 get the time range that the first of them
    carries. *)
Theorem convertDropMatrixElementsToDropMatrixQueryResult_Permutation
    (dropMatrixElements : list DropMatrixElement)
    (matrix : list OneDropMatrixElement) :
  convertDropMatrixElementsToDropMatrixQueryResult GetTimeRangeById
    dropMatrixElements = Ok matrix →
  matrix
  ≡ₚ (λ el, oneOf (resolveTimeRange GetTimeRangeById dropMatrixElements
                     (el_RangeID el)) el) <$> dropMatrixElements.
Proof. apply convert_Permutation. Qed.

(** The loop over groups that are not empty returns a result when every
    range id but 0 is known, and an error otherwise. *)
Lemma convertLoop_outcome groups matrix :
  Forall (λ g, g.2 ≠ []) groups →
  (∃ res, convertLoop GetTimeRangeById groups matrix = Ok res
          ∧ Forall (λ g, g.1 = 0 ∨ ∃ tr, GetTimeRangeById g.1 = inl tr) groups)
  ∨ (∃ e, convertLoop GetTimeRangeById groups matrix = Err e
          ∧ Exists (λ g, g.1 ≠ 0 ∧ GetTimeRangeById g.1 = inr e) groups).
Proof.
  intros Hne. revert matrix.
  induction Hne as [|[rangeId group] groups Hg Hne IH]; intros matrix.
  { left. exists matrix. by split. }
  simpl in *. unfold timeRangeOfGroup.
  destruct (decide (rangeId = 0)) as [->|Hid].
  - destruct group as [|first group]; [done|]. simpl.
    destruct (IH (convertGroup (el_TimeRange first) (first :: group) matrix))
      as [(res & Hres & Hall)|(e & He & Hex)].
    + left. exists res. split; [done|]. constructor; [by left|done].
    + right. exists e. split; [done|]. by apply Exists_cons_tl.
  - destruct (GetTimeRangeById rangeId) as [tr|e] eqn:Htr; simpl.
    + destruct (IH (convertGroup (Some tr) group matrix))
        as [(res & Hres & Hall)|(e & He & Hex)].
      * left. exists res. split; [done|]. constructor; [right; eauto|done].
      * right. exists e. split; [done|]. by apply Exists_cons_tl.
    + right. exists e. split; [done|]. by apply Exists_cons_hd.
Qed.

(** X12.  The conversion never panics, and it returns an error exactly
    when some element has a range id other than 0 that the time-range
    service does not know. *)
Theorem convertDropMatrixElementsToDropMatrixQueryResult_outcome
    (dropMatrixElements : list DropMatrixElement) :
  convertDropMatrixElementsToDropMatrixQueryResult GetTimeRangeById
    dropMatrixElements ≠ Panic
  ∧ ((∃ e, convertDropMatrixElementsToDropMatrixQueryResult GetTimeRangeById
             dropMatrixElements = Err e)
     ↔ ∃ el e, el ∈ dropMatrixElements ∧ el_RangeID el ≠ 0
               ∧ GetTimeRangeById (el_RangeID el) = inr e).
Proof.
  unfold convertDropMatrixElementsToDropMatrixQueryResult.
  destruct (convertLoop_outcome (GroupBy el_RangeID dropMatrixElements) []
              (GroupBy_nonempty _ _))
    as [(res & -> & Hall)|(e & -> & Hex)].
  - split; [done|]. split; [by intros [e ?]|].
    intros (el & e & Hin & Hid & Hfail). exfalso.
    assert ((el_RangeID el,
             filter (λ x, el_RangeID x = el_RangeID el) dropMatrixElements)
            ∈ GroupBy el_RangeID dropMatrixElements) as Hg.
    { apply GroupBy_elem_of. split; [done|]. intros Hnil.
      eapply (filter_nil_not_elem_of _ _ _ Hnil); [|exact Hin]. done. }
    apply (proj1 (Forall_forall _ _) Hall) in Hg as [?|[tr Htr]]; simpl in *;
      congruence.
  - split; [done|]. split; [intros _|eauto].
    apply Exists_exists in Hex as ([k g] & Hin & Hid & Hfail). simpl in *.
    apply GroupBy_elem_of in Hin as [-> Hne].
    destruct (filter _ dropMatrixElements) as [|el g] eqn:E; [done|].
    assert (el ∈ filter (λ x, el_RangeID x = k) dropMatrixElements) as Hel
      by (rewrite E; left).
    apply list_elem_of_filter in Hel as [<- Hel]. eauto.
Qed.

End ConvertLaws.

(** ** The entry points *)

Lemma fold_left_flat {A B C : Type} (f : C → B → C) (g : A → list B)
    (l : list A) (c : C) :
  fold_left (λ c x, fold_left f (g x) c) l c = fold_left f (l ≫= g) c.
Proof.
  revert c. induction l as [|x l IH]; intros c; [done|].
  simpl. by rewrite fold_left_app, IH.
Qed.

Lemma fold_left_ext {B C : Type} (f g : C → B → C) (l : list B) (c : C) :
  (∀ c x, f c x = g c x) → fold_left f l c = fold_left g l c.
Proof.
  intros Hfg. revert c. induction l as [|x l IH]; intros c; [done|].
  simpl. by rewrite Hfg, IH.
Qed.

Lemma timeRangesMapOf_flat (chains : gmap Z (gmap Z (list TimeRange))) :
  timeRangesMapOf chains
  = fold_left (λ timeRangesMap timeRange,
                 <[RangeID timeRange := timeRange]> timeRangesMap)
      (chainRanges chains) ∅.
Proof.
  unfold timeRangesMapOf, chainRanges.
  rewrite <- fold_left_flat. apply fold_left_ext. intros timeRangesMap stage.
  by rewrite <- fold_left_flat.
Qed.

Lemma timeRangesMapOf_lookup (chains : gmap Z (gmap Z (list TimeRange)))
    (rangeId : Z) :
  timeRangesMapOf chains !! rangeId
  = last (filter (λ timeRange, RangeID timeRange = rangeId)
            (chainRanges chains)).
Proof.
  rewrite timeRangesMapOf_flat. generalize (chainRanges chains). intros l.
  induction l as [|x l IH] using rev_ind; [done|].
  rewrite fold_left_app, filter_app. simpl.
  destruct (decide (RangeID x = rangeId)) as [Hx|Hx].
  - rewrite Hx, lookup_insert_eq, filter_cons_True by done.
    by rewrite filter_nil, last_snoc.
  - rewrite lookup_insert_ne, filter_cons_False by done.
    by rewrite filter_nil, app_nil_r.
Qed.

Lemma chainRanges_elem_of (chains : gmap Z (gmap Z (list TimeRange)))
    (timeRange : TimeRange) :
  timeRange ∈ chainRanges chains
  ↔ ∃ stageId per itemId chain,
      chains !! stageId = Some per ∧ per !! itemId = Some chain
      ∧ timeRange ∈ chain.
Proof.
  unfold chainRanges. rewrite list_elem_of_bind. split.
  - intros ([stageId per] & Hin & Hstage).
    apply list_elem_of_bind in Hin as ([itemId chain] & Hin & Hchain).
    apply elem_of_map_to_list in Hstage, Hchain.
    by exists stageId, per, itemId, chain.
  - intros (stageId & per & itemId & chain & Hper & Hchain & Hin).
    exists (stageId, per). split; [|by apply elem_of_map_to_list].
    apply list_elem_of_bind. exists (itemId, chain).
    split; [done|by apply elem_of_map_to_list].
Qed.

(** X13.  The time ranges that a personal query hands to the calculator
    are time ranges of the chains, one for each range id that occurs in
    the chains: no range id is missing and none comes twice. *)
Theorem timeRangesMapOf_ranges (chains : gmap Z (gmap Z (list TimeRange))) :
  let timeRanges := (map_to_list (timeRangesMapOf chains)).*2 in
  NoDup (RangeID <$> timeRanges)
  ∧ (∀ timeRange, timeRange ∈ timeRanges →
       ∃ stageId per itemId chain,
         chains !! stageId = Some per ∧ per !! itemId = Some chain
         ∧ timeRange ∈ chain)
  ∧ ∀ stageId per itemId chain timeRange,
      chains !! stageId = Some per → per !! itemId = Some chain →
      timeRange ∈ chain →
      RangeID timeRange ∈ RangeID <$> timeRanges.
Proof.
  assert (∀ k tr, timeRangesMapOf chains !! k = Some tr →
                  RangeID tr = k ∧ tr ∈ chainRanges chains) as Hkey.
  { intros k tr. rewrite timeRangesMapOf_lookup.
    intros Hlast%last_Some_elem_of. by apply list_elem_of_filter in Hlast. }
  assert (RangeID <$> (map_to_list (timeRangesMapOf chains)).*2
          = (map_to_list (timeRangesMapOf chains)).*1) as Hids.
  { rewrite <- list_fmap_compose. apply list_fmap_ext.
    intros i [k tr] Hin%list_elem_of_lookup_2%elem_of_map_to_list. simpl.
    by apply Hkey in Hin as [? _]. }
  cbn zeta. rewrite Hids. split; [apply NoDup_fst_map_to_list|]. split.
  - intros tr ([k tr'] & -> & Hin%elem_of_map_to_list)%list_elem_of_fmap.
    apply Hkey in Hin as [_ Hin]. by apply chainRanges_elem_of.
  - intros stageId per itemId chain tr Hper Hchain Hin.
    assert (tr ∈ chainRanges chains) as Hall
      by (apply chainRanges_elem_of; eauto 10).
    destruct (timeRangesMapOf chains !! RangeID tr) as [tr'|] eqn:Hlook.
    + apply list_elem_of_fmap. exists (RangeID tr, tr').
      split; [done|by apply elem_of_map_to_list].
    + rewrite timeRangesMapOf_lookup in Hlook.
      apply last_None in Hlook.
      exfalso. eapply (filter_nil_not_elem_of _ _ _ Hlook); [|exact Hall]. done.
Qed.

Lemma timeRangesMapOf_ranges_witness :
  NoDup (RangeID <$> (map_to_list (timeRangesMapOf chains_ex)).*2)
  ∧ RangeID range2_ex ∈ RangeID <$> (map_to_list (timeRangesMapOf chains_ex)).*2.
Proof.
  destruct (timeRangesMapOf_ranges chains_ex) as (Hnd & _ & Hall).
  split; [exact Hnd|].
  apply (Hall 1 {[ 1 := [wideRange_ex; range2_ex] ]} 1
           [wideRange_ex; range2_ex] range2_ex);
    [reflexivity|reflexivity|right; left].
Defined.

Section EntryLaws.
Variable GetDropInfosWithFilters :
  string → list TimeRange → list Z → list Z → list DropInfo + error.
Variable CalcTotalQuantityForDropMatrix :
  string → TimeRange → list DropInfo → option Z →
  list TotalQuantityResultForDropMatrix + error.
Variable CalcTotalTimesForDropMatrix :
  string → TimeRange → list DropInfo → option Z →
  list TotalTimesResult + error.
Variable GetItemDropSetByStageIdAndRangeId : string → Z → Z → list Z.
Variable GetTimeRangeById : Z → TimeRange + error.
Variable GetCurrentDropInfosByServer : string → list DropInfo + error.
Variable GetStageById : Z → Stage + error.
Variable GetItemById : Z → Item + error.
Variable FakeEndTimeMilli : Z.

Let query := QueryDropMatrix GetDropInfosWithFilters
               CalcTotalQuantityForDropMatrix CalcTotalTimesForDropMatrix
               GetItemDropSetByStageIdAndRangeId GetTimeRangeById.

Lemma query_no_panic server timeRanges stageIdFilter itemIdFilter accountId :
  query server timeRanges stageIdFilter itemIdFilter accountId ≠ Panic.
Proof.
  unfold query, QueryDropMatrix.
  destruct (calcDropMatrixForTimeRanges _ _ _ _ _ _ _ _ _) as [elements|e|]
    eqn:Hcalc; cbn [bind]; [|done|by apply calc_no_panic in Hcalc].
  unfold convertDropMatrixElementsToDropMatrixQueryResult.
  destruct (convertLoop_outcome GetTimeRangeById
              (GroupBy el_RangeID elements) [] (GroupBy_nonempty _ _))
    as [(res & -> & _)|(e & -> & _)]; done.
Qed.

(** The time range of the results of a query: the last range itself when
    its id is 0, the range the service knows under its id otherwise. *)
Lemma query_TimeRange server earlier r stageIdFilter itemIdFilter accountId
    matrix :
  query server (earlier ++ [r]) stageIdFilter itemIdFilter accountId
  = Ok matrix →
  Forall (λ o, ∃ tr, one_TimeRange o = Some tr
                     ∧ if decide (RangeID r = 0) then tr = r
                       else GetTimeRangeById (RangeID r) = inl tr) matrix.
Proof.
  unfold query, QueryDropMatrix.
  destruct (calcDropMatrixForTimeRanges _ _ _ _ _ _ _ _ _) as [elements| |]
    eqn:Hcalc; cbn [bind]; [|done..].
  apply calc_ofRange in Hcalc. intros Hconv.
  pose proof (convert_Permutation _ _ _ Hconv) as Hperm.
  apply Forall_forall. intros o Ho. rewrite Hperm in Ho.
  apply list_elem_of_fmap in Ho as (el & -> & Hel). simpl.
  pose proof (proj1 (Forall_forall _ _) Hcalc el Hel) as (Hid & _ & Htr).
  rewrite Hid. unfold resolveTimeRange. case_decide as Hzero.
  - rewrite filter_all.
    2:{ intros e He.
        pose proof (proj1 (Forall_forall _ _) Hcalc e He) as (He' & _).
        congruence. }
    destruct elements as [|first elements]; [by apply elem_of_nil in Hel|].
    simpl. apply Forall_cons in Hcalc as [(_ & _ & Hfirst) _].
    rewrite Hfirst. unfold inlineRange. rewrite decide_True by done. eauto.
  - destruct (GetTimeRangeById (RangeID r)) as [tr|e] eqn:Hget; [eauto|].
    exfalso.
    assert (∃ e, convertDropMatrixElementsToDropMatrixQueryResult
                   GetTimeRangeById elements = Err e) as [e' He'].
    { unfold convertDropMatrixElementsToDropMatrixQueryResult.
      destruct (convertLoop_outcome GetTimeRangeById
                  (GroupBy el_RangeID elements) [] (GroupBy_nonempty _ _))
        as [(res & _ & Hall)|(e' & -> & _)]; [|eauto].
      assert ((el_RangeID el,
               filter (λ x, el_RangeID x = el_RangeID el) elements)
              ∈ GroupBy el_RangeID elements) as Hg.
      { apply GroupBy_elem_of. split; [done|]. intros Hnil.
        eapply (filter_nil_not_elem_of _ _ _ Hnil); [|exact Hel]. done. }
      apply (proj1 (Forall_forall _ _) Hall) in Hg as [?|[tr Htr']];
        simpl in *; congruence. }
    congruence.
Qed.

(** X14.  A query never panics.  When it succeeds, every element of its
    result carries a time range: the last of the time ranges asked for
    when the id of that range is 0, and otherwise the time range that the
    service knows under that id. *)
Theorem QueryDropMatrix_time_range (server : string)
    (stageIdFilter itemIdFilter : list Z) (accountId : option Z) :
  (∀ timeRanges,
     QueryDropMatrix GetDropInfosWithFilters CalcTotalQuantityForDropMatrix
       CalcTotalTimesForDropMatrix GetItemDropSetByStageIdAndRangeId
       GetTimeRangeById server timeRanges stageIdFilter itemIdFilter accountId
     ≠ Panic)
  ∧ ∀ earlier r matrix,
      QueryDropMatrix GetDropInfosWithFilters CalcTotalQuantityForDropMatrix
        CalcTotalTimesForDropMatrix GetItemDropSetByStageIdAndRangeId
        GetTimeRangeById server (earlier ++ [r]) stageIdFilter itemIdFilter
        accountId = Ok matrix →
      Forall (λ o, ∃ tr, one_TimeRange o = Some tr
                         ∧ if decide (RangeID r = 0) then tr = r
                           else GetTimeRangeById (RangeID r) = inl tr) matrix.
Proof.
  split.
  - intros timeRanges. apply query_no_panic.
  - intros earlier r matrix. apply query_TimeRange.
Qed.

(** With closed zones shown and no filter, the shim reshapes every
    element. *)
Lemma shimLoop_unfiltered opening matrix acc results :
  shimLoop GetStageById GetItemById FakeEndTimeMilli true opening ∅ ∅ matrix
    acc = Ok results →
  ∃ out, results = acc ++ out
         ∧ Forall2 (reshapes GetStageById GetItemById FakeEndTimeMilli)
             matrix out.
Proof.
  revert acc. induction matrix as [|el rest IH]; intros acc; simpl.
  { intros [= <-]. exists []. by rewrite app_nil_r. }
  destruct (GetStageById (one_StageID el)) as [stage|e] eqn:Hstage;
    simpl; [|done].
  destruct (GetItemById (one_ItemID el)) as [item|e] eqn:Hitem;
    simpl; [|done].
  destruct (one_TimeRange el) as [timeRange|] eqn:Htr; [|done].
  intros (out & -> & Hout)%IH.
  exists (shimElement FakeEndTimeMilli stage item el timeRange :: out).
  split; [by rewrite <- app_assoc|].
  constructor; [|done]. by apply shimElement_reshapes.
Qed.

Lemma shimLoop_no_panic show opening sset iset matrix acc :
  Forall (λ o, is_Some (one_TimeRange o)) matrix →
  shimLoop GetStageById GetItemById FakeEndTimeMilli show opening sset iset
    matrix acc ≠ Panic.
Proof.
  intros Hall. revert acc.
  induction Hall as [|el rest [tr Htr] Hall IH]; intros acc; simpl; [done|].
  destruct (negb show && negb (Contains opening (one_StageID el)));
    [apply IH|].
  destruct (GetStageById (one_StageID el)) as [stage|e]; simpl; [|done].
  destruct (excludedBy sset (ArkStageID stage)); [apply IH|].
  destruct (GetItemById (one_ItemID el)) as [item|e]; simpl; [|done].
  destruct (excludedBy iset (ArkItemID item)); [apply IH|].
  rewrite Htr. apply IH.
Qed.

(** X15.  A customized query never panics, and no view filter applies
    to it: when it succeeds, its result holds, in order, the reshaping of
    every element of the query over the one time range. *)
Theorem GetShimCustomizedDropMatrixResults_unfiltered (server : string)
    (timeRange : TimeRange) (stageIds itemIds : list Z) (accountId : option Z) :
  GetShimCustomizedDropMatrixResults GetDropInfosWithFilters
    CalcTotalQuantityForDropMatrix CalcTotalTimesForDropMatrix
    GetItemDropSetByStageIdAndRangeId GetTimeRangeById
    GetCurrentDropInfosByServer GetStageById GetItemById FakeEndTimeMilli
    server timeRange stageIds itemIds accountId ≠ Panic
  ∧ ∀ results,
      GetShimCustomizedDropMatrixResults GetDropInfosWithFilters
        CalcTotalQuantityForDropMatrix CalcTotalTimesForDropMatrix
        GetItemDropSetByStageIdAndRangeId GetTimeRangeById
        GetCurrentDropInfosByServer GetStageById GetItemById FakeEndTimeMilli
        server timeRange stageIds itemIds accountId = Ok results →
      ∃ matrix,
        QueryDropMatrix GetDropInfosWithFilters CalcTotalQuantityForDropMatrix
          CalcTotalTimesForDropMatrix GetItemDropSetByStageIdAndRangeId
          GetTimeRangeById server [timeRange] stageIds itemIds accountId
        = Ok matrix
        ∧ Forall2 (reshapes GetStageById GetItemById FakeEndTimeMilli)
            matrix results.
Proof.
  unfold GetShimCustomizedDropMatrixResults. fold query.
  destruct (query server [timeRange] stageIds itemIds accountId)
    as [matrix|e|] eqn:Hquery; cbn [bind].
  - unfold applyShimForDropMatrixQuery. cbn [bind]. split.
    + apply shimLoop_no_panic.
      apply (query_TimeRange server [] timeRange) in Hquery.
      eapply Forall_impl; [exact Hquery|]. intros o (tr & -> & _). eauto.
    + intros results Hshim. exists matrix. split; [done|].
      change (filterSet EmptyString) with (∅ : gset string) in Hshim.
      by apply shimLoop_unfiltered in Hshim as (out & -> & Hout).
  - split; [done|]. intros results [=].
  - by apply query_no_panic in Hquery.
Qed.

End EntryLaws.

(** ** The cache in front of the max-accumulable results *)

Section CachedResults.
Variable GetDropInfosWithFilters GetDropInfosWithFilters' :
  string → list TimeRange → list Z → list Z → list DropInfo + error.
Variable CalcTotalQuantityForDropMatrix CalcTotalQuantityForDropMatrix' :
  string → TimeRange → list DropInfo → option Z →
  list TotalQuantityResultForDropMatrix + error.
Variable CalcTotalTimesForDropMatrix CalcTotalTimesForDropMatrix' :
  string → TimeRange → list DropInfo → option Z →
  list TotalTimesResult + error.
Variable GetItemDropSetByStageIdAndRangeId GetItemDropSetByStageIdAndRangeId' :
  string → Z → Z → list Z.
Variable GetMaxAccumulableTimeRangesByServer
  GetMaxAccumulableTimeRangesByServer' :
  string → gmap Z (gmap Z (list TimeRange)) + error.
Variable GetElementsByServer GetElementsByServer' :
  string → list DropMatrixElement + error.
Variable GetCurrentDropInfosByServer GetCurrentDropInfosByServer' :
  string → list DropInfo + error.
Variable GetStageById GetStageById' : Z → Stage + error.
Variable GetItemById GetItemById' : Z → Item + error.
Variable FakeEndTimeMilli FakeEndTimeMilli' : Z.
Variable RedisSeparator : string.
Variable Now Now' : Z.

Let get := GetShimMaxAccumulableDropMatrixResults GetDropInfosWithFilters
             CalcTotalQuantityForDropMatrix CalcTotalTimesForDropMatrix
             GetItemDropSetByStageIdAndRangeId
             GetMaxAccumulableTimeRangesByServer GetElementsByServer
             GetCurrentDropInfosByServer GetStageById GetItemById
             FakeEndTimeMilli RedisSeparator Now.
Let get' := GetShimMaxAccumulableDropMatrixResults GetDropInfosWithFilters'
              CalcTotalQuantityForDropMatrix' CalcTotalTimesForDropMatrix'
              GetItemDropSetByStageIdAndRangeId'
              GetMaxAccumulableTimeRangesByServer' GetElementsByServer'
              GetCurrentDropInfosByServer' GetStageById' GetItemById'
              FakeEndTimeMilli' RedisSeparator Now'.

(** X16.  The caches change only when an anonymous query without filter
    succeeds; they then hold the result under the key of the server and
    of the view, and the time of the call as the time of last
    modification.  A personal or filtered query, or one that fails,
    leaves them as they were. *)
Theorem GetShimMaxAccumulableDropMatrixResults_caches (server : string)
    (showClosedZones : bool) (stageFilterStr itemFilterStr : string)
    (accountId : option Z) (caches : Caches) :
  let key := server +:+ RedisSeparator +:+ FormatBool showClosedZones in
  let out :=
    GetShimMaxAccumulableDropMatrixResults GetDropInfosWithFilters
      CalcTotalQuantityForDropMatrix CalcTotalTimesForDropMatrix
      GetItemDropSetByStageIdAndRangeId GetMaxAccumulableTimeRangesByServer
      GetElementsByServer GetCurrentDropInfosByServer GetStageById GetItemById
      FakeEndTimeMilli RedisSeparator Now server showClosedZones
      stageFilterStr itemFilterStr accountId caches in
  out.2 ≠ caches →
  accountId = None ∧ stageFilterStr = EmptyString
  ∧ itemFilterStr = EmptyString
  ∧ ∃ results,
      out.1 = Ok results
      ∧ Cache.Get (ShimMaxAccumulableDropMatrixResults out.2) key = Ok results
      ∧ Cache.Get (LastModifiedTime out.2) (lastModifiedKey key) = Ok Now.
Proof.
  intros key out. subst out.
  unfold GetShimMaxAccumulableDropMatrixResults. fold key.
  destruct (negb (bool_decide (is_Some accountId))
            && bool_decide (stageFilterStr = EmptyString)
            && bool_decide (itemFilterStr = EmptyString)) eqn:Huse.
  - apply andb_prop in Huse as [Huse Hitem].
    apply andb_prop in Huse as [Hacc Hstage].
    apply bool_decide_eq_true in Hitem, Hstage.
    apply negb_true_iff, bool_decide_eq_false in Hacc.
    destruct (Cache.Get _ key) as [cached| |]; [done|..];
      (destruct (getMaxAccumulableDropMatrixResults _ _ _ _ _ _ _ _)
         as [saved| |]; [|done..];
       destruct (applyShimForDropMatrixQuery _ _ _ _ _ _ _ _ _)
         as [slow| |]; [|done..];
       simpl; intros _;
       split; [by destruct accountId; [exfalso; apply Hacc|]|];
       split; [done|]; split; [done|];
       exists slow; split; [done|];
       split; apply CacheSpec.Get_Set_eq).
  - destruct (getMaxAccumulableDropMatrixResults _ _ _ _ _ _ _ _)
      as [saved| |]; [|done..].
    by destruct (applyShimForDropMatrixQuery _ _ _ _ _ _ _ _ _).
Qed.

(** X17.  Once an anonymous query without filter has returned a result,
    the same query on the caches it left (before the entry expires)
    returns that result from the cache: whatever the repositories answer
    by then, and without touching the caches. *)
Theorem GetShimMaxAccumulableDropMatrixResults_cached (server : string)
    (showClosedZones : bool) (caches caches1 : Caches)
    (results : list ShimOneDropMatrixElement) :
  GetShimMaxAccumulableDropMatrixResults GetDropInfosWithFilters
    CalcTotalQuantityForDropMatrix CalcTotalTimesForDropMatrix
    GetItemDropSetByStageIdAndRangeId GetMaxAccumulableTimeRangesByServer
    GetElementsByServer GetCurrentDropInfosByServer GetStageById GetItemById
    FakeEndTimeMilli RedisSeparator Now server showClosedZones EmptyString
    EmptyString None caches = (Ok results, caches1) →
  GetShimMaxAccumulableDropMatrixResults GetDropInfosWithFilters'
    CalcTotalQuantityForDropMatrix' CalcTotalTimesForDropMatrix'
    GetItemDropSetByStageIdAndRangeId' GetMaxAccumulableTimeRangesByServer'
    GetElementsByServer' GetCurrentDropInfosByServer' GetStageById'
    GetItemById' FakeEndTimeMilli' RedisSeparator Now' server showClosedZones
    EmptyString EmptyString None caches1 = (Ok results, caches1).
Proof.
  fold get get'. unfold get, get', GetShimMaxAccumulableDropMatrixResults.
  set (key := server +:+ RedisSeparator +:+ FormatBool showClosedZones).
  cbn [negb andb bool_decide].
  assert (negb (bool_decide (is_Some (@None Z)))
          && bool_decide (EmptyString = EmptyString)
          && bool_decide (EmptyString = EmptyString) = true) as -> by done.
  destruct (Cache.Get (ShimMaxAccumulableDropMatrixResults caches) key)
    as [cached| |] eqn:Hget.
  - intros [= -> ->]. by rewrite Hget.
  - destruct (getMaxAccumulableDropMatrixResults _ _ _ _ _ _ _ _)
      as [saved| |]; [|done..].
    destruct (applyShimForDropMatrixQuery _ _ _ _ _ _ _ _ _)
      as [slow| |]; [|done..].
    simpl. intros [= -> <-]. simpl.
    by rewrite CacheLaws.Get_insert, decide_True.
  - destruct (getMaxAccumulableDropMatrixResults _ _ _ _ _ _ _ _)
      as [saved| |]; [|done..].
    destruct (applyShimForDropMatrixQuery _ _ _ _ _ _ _ _ _)
      as [slow| |]; [|done..].
    simpl. intros [= -> <-]. simpl.
    by rewrite CacheLaws.Get_insert, decide_True.
Qed.

End CachedResults.

(** ** The refresh *)

Section RefreshLaws.
Variable GetDropInfosWithFilters :
  string → list TimeRange → list Z → list Z → list DropInfo + error.
Variable CalcTotalQuantityForDropMatrix :
  string → TimeRange → list DropInfo → option Z →
  list TotalQuantityResultForDropMatrix + error.
Variable CalcTotalTimesForDropMatrix :
  string → TimeRange → list DropInfo → option Z →
  list TotalTimesResult + error.
Variable GetItemDropSetByStageIdAndRangeId : string → Z → Z → list Z.
Variable GetTimeRangesByServer : string → list TimeRange + error.
Variable BatchSaveElements : list DropMatrixElement → string → option error.

Let calc := calcDropMatrixForTimeRanges GetDropInfosWithFilters
              CalcTotalQuantityForDropMatrix CalcTotalTimesForDropMatrix
              GetItemDropSetByStageIdAndRangeId.
Let refresh := refreshLoop GetDropInfosWithFilters
                 CalcTotalQuantityForDropMatrix CalcTotalTimesForDropMatrix
                 GetItemDropSetByStageIdAndRangeId BatchSaveElements.

Lemma refreshLoop_no_crash server timeRanges p :
  refresh server timeRanges p ≠ Crashed.
Proof.
  unfold refresh. revert p.
  induction timeRanges as [|r rest IH]; intros p; simpl.
  - by case_decide.
  - case_decide; [done|].
    destruct (calcDropMatrixForTimeRanges _ _ _ _ _ [r] [] [] None)
      as [batch|e|] eqn:Hcalc; [apply IH|apply IH|].
    by apply calc_no_panic in Hcalc.
Qed.

Lemma refreshLoop_all_ok server timeRanges batches p :
  Forall2 (λ r batch, calc server [r] [] [] None = Ok batch)
    timeRanges batches →
  wg p = length timeRanges →
  (limiter p < 7)%nat →
  refresh server timeRanges p
  = Returned (BatchSaveElements (toSave p ++ concat batches) server)
      (Some (toSave p ++ concat batches)).
Proof.
  unfold calc, refresh. intros Hall. revert p.
  induction Hall as [|r batch rest batches Hr Hall IH]; intros p Hwg Hlim;
    simpl in *.
  - rewrite decide_True by done. by rewrite app_nil_r.
  - rewrite decide_False by lia. rewrite Hr.
    rewrite IH; simpl; [|lia..]. by rewrite <- app_assoc.
Qed.

(** X18.  The refresh never crashes.  When the time ranges cannot be
    listed it returns that error and saves nothing.  When the
    calculation succeeds for every time range it saves, in one call, the
    elements of the batches of all the ranges (in the order in which
    the workers deliver them) and returns what the save returns.  When
    the calculation fails for some time range it blocks. *)
Theorem RefreshAllDropMatrixElements_outcome (server : string) :
  RefreshAllDropMatrixElements GetDropInfosWithFilters
    CalcTotalQuantityForDropMatrix CalcTotalTimesForDropMatrix
    GetItemDropSetByStageIdAndRangeId GetTimeRangesByServer BatchSaveElements
    server ≠ Crashed
  ∧ (∀ e, GetTimeRangesByServer server = inr e →
          RefreshAllDropMatrixElements GetDropInfosWithFilters
            CalcTotalQuantityForDropMatrix CalcTotalTimesForDropMatrix
            GetItemDropSetByStageIdAndRangeId GetTimeRangesByServer
            BatchSaveElements server = Returned (Some e) None)
  ∧ (∀ timeRanges batches,
       GetTimeRangesByServer server = inl timeRanges →
       Forall2 (λ r batch,
                  calcDropMatrixForTimeRanges GetDropInfosWithFilters
                    CalcTotalQuantityForDropMatrix CalcTotalTimesForDropMatrix
                    GetItemDropSetByStageIdAndRangeId server [r] [] [] None
                  = Ok batch) timeRanges batches →
       ∃ saved,
         saved ≡ₚ concat batches
         ∧ RefreshAllDropMatrixElements GetDropInfosWithFilters
             CalcTotalQuantityForDropMatrix CalcTotalTimesForDropMatrix
             GetItemDropSetByStageIdAndRangeId GetTimeRangesByServer
             BatchSaveElements server
           = Returned (BatchSaveElements saved server) (Some saved))
  ∧ ∀ timeRanges r e,
      GetTimeRangesByServer server = inl timeRanges →
      r ∈ timeRanges →
      calcDropMatrixForTimeRanges GetDropInfosWithFilters
        CalcTotalQuantityForDropMatrix CalcTotalTimesForDropMatrix
        GetItemDropSetByStageIdAndRangeId server [r] [] [] None = Err e →
      RefreshAllDropMatrixElements GetDropInfosWithFilters
        CalcTotalQuantityForDropMatrix CalcTotalTimesForDropMatrix
        GetItemDropSetByStageIdAndRangeId GetTimeRangesByServer
        BatchSaveElements server = Blocked.
Proof.
  unfold RefreshAllDropMatrixElements. fold refresh.
  destruct (GetTimeRangesByServer server) as [timeRanges|e0].
  - split; [apply refreshLoop_no_crash|]. split; [done|]. split.
    + intros ? batches [= <-] Hall. exists (concat batches).
      split; [done|].
      rewrite (refreshLoop_all_ok _ _ batches); simpl; [done|done|done|lia].
    + intros ? r e [= <-] Hin Hcalc.
      pose proof (refreshLoop_worker_error GetDropInfosWithFilters
                    CalcTotalQuantityForDropMatrix CalcTotalTimesForDropMatrix
                    GetItemDropSetByStageIdAndRangeId BatchSaveElements
                    server timeRanges
                    {| wg := length timeRanges; limiter := 0; toSave := [] |}
                    r e (le_n _) Hin Hcalc) as Hret.
      pose proof (refreshLoop_no_crash server timeRanges
                    {| wg := length timeRanges; limiter := 0; toSave := [] |})
        as Hcrash.
      fold refresh in Hret.
      destruct (refresh server timeRanges _) as [err saved| |]; [|done|done].
      by destruct (Hret err saved).
  - split; [done|]. split; [by intros e [= ->]|]. split; by intros.
Qed.

End RefreshLaws.

(** ** Instances of the laws on the sample inputs *)

Lemma combineQuantityAndTimesResults_elem_of_witness :
  {| cr_StageID := 1; cr_ItemID := 1; cr_Quantity := 5; cr_Times := 2;
     cr_TimeRange := range1_ex |}
  ∈ combineQuantityAndTimesResults
      [{| tq_StageID := 1; tq_ItemID := 1; tq_TotalQuantity := 5 |}]
      [{| tt_StageID := 1; tt_TotalTimes := 2 |}] range1_ex.
Proof.
  apply combineQuantityAndTimesResults_elem_of.
  split; [reflexivity|]. split; [left|reflexivity].
Defined.

Lemma calcDropMatrixForTimeRanges_elements_witness :
  ∃ elements,
    calcDropMatrixForTimeRanges dropInfos_ex quantityQuery_ex timesQuery_ex
      dropSet_ex "CN" [range1_ex; range2_ex] [] [] None = Ok elements
    ∧ elements ≠ []
    ∧ Forall (λ e, el_RangeID e = 2 ∧ el_Server e = "CN"
                   ∧ el_TimeRange e = None) elements.
Proof.
  eexists. split; [reflexivity|]. split; [discriminate|].
  apply (proj2 (calcDropMatrixForTimeRanges_elements dropInfos_ex
                  quantityQuery_ex timesQuery_ex dropSet_ex "CN" [] [] None)
           [range1_ex] range2_ex).
  reflexivity.
Defined.

Lemma convertDropMatrixElementsToDropMatrixQueryResult_Permutation_witness :
  ∃ matrix,
    convertDropMatrixElementsToDropMatrixQueryResult rangeRepo_ex
      [element2_ex; element2_ex] = Ok matrix
    ∧ matrix
      ≡ₚ (λ el, oneOf (resolveTimeRange rangeRepo_ex [element2_ex; element2_ex]
                         (el_RangeID el)) el) <$> [element2_ex; element2_ex].
Proof.
  eexists. split; [reflexivity|].
  apply (convertDropMatrixElementsToDropMatrixQueryResult_Permutation
           rangeRepo_ex [element2_ex; element2_ex]).
  reflexivity.
Defined.

Lemma convertDropMatrixElementsToDropMatrixQueryResult_outcome_witness :
  ∃ e, convertDropMatrixElementsToDropMatrixQueryResult rangeRepo_ex
         [element2_ex; element1_ex] = Err e.
Proof.
  apply (proj2 (convertDropMatrixElementsToDropMatrixQueryResult_outcome
                  rangeRepo_ex [element2_ex; element1_ex])).
  exists element1_ex, (ErrMsg "time range not found").
  split; [right; left|]. split; [discriminate|reflexivity].
Defined.

Lemma QueryDropMatrix_time_range_witness :
  ∃ matrix,
    QueryDropMatrix dropInfos_ex quantityQuery_ex timesQuery_ex dropSet_ex
      rangeRepo_ex "CN" [range1_ex; range2_ex] [] [] None = Ok matrix
    ∧ matrix ≠ []
    ∧ Forall (λ o, ∃ tr, one_TimeRange o = Some tr
                         ∧ rangeRepo_ex 2 = inl tr) matrix.
Proof.
  eexists. split; [reflexivity|]. split; [discriminate|].
  apply (proj2 (QueryDropMatrix_time_range dropInfos_ex quantityQuery_ex
                  timesQuery_ex dropSet_ex rangeRepo_ex "CN" [] [] None)
           [range1_ex] range2_ex).
  reflexivity.
Defined.

Lemma GetShimCustomizedDropMatrixResults_unfiltered_witness :
  ∃ results matrix,
    GetShimCustomizedDropMatrixResults dropInfos_ex quantityQuery_ex
      timesQuery_ex dropSet_ex rangeRepo_ex currentDropInfos_ex stageRepo_ex
      itemRepoAll_ex FakeEndTimeMilli_ex "CN" range2_ex [] [] None = Ok results
    ∧ QueryDropMatrix dropInfos_ex quantityQuery_ex timesQuery_ex dropSet_ex
        rangeRepo_ex "CN" [range2_ex] [] [] None = Ok matrix
    ∧ matrix ≠ []
    ∧ Forall2 (reshapes stageRepo_ex itemRepoAll_ex FakeEndTimeMilli_ex)
        matrix results.
Proof.
  destruct (proj2 (GetShimCustomizedDropMatrixResults_unfiltered dropInfos_ex
                     quantityQuery_ex timesQuery_ex dropSet_ex rangeRepo_ex
                     currentDropInfos_ex stageRepo_ex itemRepoAll_ex
                     FakeEndTimeMilli_ex "CN" range2_ex [] [] None)
              _ eq_refl) as (matrix & Hquery & Hshape).
  eexists _, matrix. split; [reflexivity|]. split; [exact Hquery|].
  split; [|exact Hshape].
  intros ->. discriminate Hquery.
Defined.

Lemma GetShimMaxAccumulableDropMatrixResults_caches_witness :
  let out :=
    GetShimMaxAccumulableDropMatrixResults dropInfos_ex quantityQuery_ex
      timesQuery_ex dropSet_ex chainsRepo_ex elementsRepo_ex
      currentDropInfos_ex stageRepo_ex itemRepoAll_ex FakeEndTimeMilli_ex ":"
      1700000000 "CN" true EmptyString EmptyString None caches_ex in
  ∃ results,
    out.1 = Ok results
    ∧ Cache.Get (ShimMaxAccumulableDropMatrixResults out.2) "CN:true"
      = Ok results
    ∧ Cache.Get (LastModifiedTime out.2)
        "[shimMaxAccumulableDropMatrixResults#server|showClosedZoned:CN:true]"
      = Ok 1700000000.
Proof.
  apply (GetShimMaxAccumulableDropMatrixResults_caches dropInfos_ex
           quantityQuery_ex timesQuery_ex dropSet_ex chainsRepo_ex
           elementsRepo_ex currentDropInfos_ex stageRepo_ex itemRepoAll_ex
           FakeEndTimeMilli_ex ":" 1700000000 "CN" true EmptyString EmptyString
           None caches_ex).
  intros Heq.
  apply (f_equal (λ c, Cache.Get (LastModifiedTime c)
    "[shimMaxAccumulableDropMatrixResults#server|showClosedZoned:CN:true]"))
    in Heq.
  vm_compute in Heq. discriminate Heq.
Defined.

Lemma GetShimMaxAccumulableDropMatrixResults_cached_witness :
  let out :=
    GetShimMaxAccumulableDropMatrixResults dropInfos_ex quantityQuery_ex
      timesQuery_ex dropSet_ex chainsRepo_ex elementsRepo_ex
      currentDropInfos_ex stageRepo_ex itemRepoAll_ex FakeEndTimeMilli_ex ":"
      1700000000 "CN" true EmptyString EmptyString None caches_ex in
  ∃ results,
    out.1 = Ok results
    ∧ results ≠ []
    ∧ GetShimMaxAccumulableDropMatrixResults dropInfosDown_ex quantityQuery_ex
        timesQuery_ex dropSet_ex chainsDown_ex elementsDown_ex
        currentDropInfos_ex noStage_ex itemRepo_ex 0 ":"
        1800000000 "CN" true EmptyString EmptyString None out.2
      = (Ok results, out.2).
Proof.
  intros out. eexists. split; [reflexivity|]. split; [discriminate|].
  apply (GetShimMaxAccumulableDropMatrixResults_cached dropInfos_ex
           dropInfosDown_ex quantityQuery_ex quantityQuery_ex
           timesQuery_ex timesQuery_ex dropSet_ex dropSet_ex
           chainsRepo_ex chainsDown_ex elementsRepo_ex elementsDown_ex
           currentDropInfos_ex currentDropInfos_ex stageRepo_ex noStage_ex
           itemRepoAll_ex itemRepo_ex FakeEndTimeMilli_ex 0 ":"
           1700000000 1800000000 "CN" true caches_ex).
  reflexivity.
Defined.

Lemma RefreshAllDropMatrixElements_outcome_witness :
  (∃ saved,
     saved ≠ []
     ∧ RefreshAllDropMatrixElements dropInfos_ex quantityQuery_ex
         timesQuery_ex dropSet_ex timeRanges_ex batchSave_ex "CN"
       = Returned None (Some saved))
  ∧ RefreshAllDropMatrixElements dropInfosDown_ex quantityQuery_ex
      timesQuery_ex dropSet_ex timeRanges_ex batchSave_ex "CN" = Blocked
  ∧ RefreshAllDropMatrixElements dropInfos_ex quantityQuery_ex timesQuery_ex
      dropSet_ex timeRangesDown_ex batchSave_ex "CN"
    = Returned (Some (ErrMsg "connection refused")) None.
Proof.
  split; [|split].
  - destruct (RefreshAllDropMatrixElements_outcome dropInfos_ex
                quantityQuery_ex timesQuery_ex dropSet_ex timeRanges_ex
                batchSave_ex "CN") as (_ & _ & Hok & _).
    edestruct (Hok [range1_ex; range2_ex]) as (saved & Hperm & Hret);
      [reflexivity
      |constructor; [reflexivity|constructor; [reflexivity|constructor]]|].
    exists saved. split; [|exact Hret].
    intros ->. apply Permutation_nil_l in Hperm. discriminate Hperm.
  - destruct (RefreshAllDropMatrixElements_outcome dropInfosDown_ex
                quantityQuery_ex timesQuery_ex dropSet_ex timeRanges_ex
                batchSave_ex "CN") as (_ & _ & _ & Hblock).
    apply (Hblock [range1_ex; range2_ex] range1_ex
             (ErrMsg "connection refused") eq_refl); [left|reflexivity].
  - destruct (RefreshAllDropMatrixElements_outcome dropInfos_ex
                quantityQuery_ex timesQuery_ex dropSet_ex timeRangesDown_ex
                batchSave_ex "CN") as (_ & Herr & _).
    apply Herr. reflexivity.
Defined.

End ServiceLaws.

(** * Laws of the dataset controller *)

Module DatasetLaws.
Import Service Dataset Examples.

(** A loop over entries with distinct keys in which only the entries of
    one key act is one step for the entry of that key. *)
Lemma fold_left_one_key {K A B : Type} `{Countable K} (f : B → K * A → B)
    (k : K) (l : list (K * A)) (acc : B) :
  NoDup l.*1 →
  (∀ acc kv, kv.1 ≠ k → f acc kv = acc) →
  fold_left f l acc
  = match (list_to_map l : gmap K A) !! k with
    | Some a => f acc (k, a)
    | None => acc
    end.
Proof.
  intros Hnd Hf. revert acc.
  induction l as [|[k' a'] l IH]; intros acc; [done|].
  rewrite fmap_cons in Hnd. apply NoDup_cons in Hnd as [Hk' Hnd].
  simpl. rewrite IH by done.
  destruct (decide (k' = k)) as [->|Hne].
  - rewrite lookup_insert_eq.
    by rewrite (not_elem_of_list_to_map_1 _ _ Hk').
  - rewrite lookup_insert_ne by done. by rewrite (Hf acc (k', a')).
Qed.

Lemma fold_left_map_one_key {K A B : Type} `{Countable K} (f : B → K * A → B)
    (k : K) (m : gmap K A) (acc : B) :
  (∀ acc kv, kv.1 ≠ k → f acc kv = acc) →
  fold_left f (map_to_list m) acc
  = match m !! k with
    | Some a => f acc (k, a)
    | None => acc
    end.
Proof.
  intros Hf. rewrite (fold_left_one_key f k) by
    (done || apply NoDup_fst_map_to_list).
  by rewrite list_to_map_to_list.
Qed.

(** Putting the entries of a map into the empty map gives the map. *)
Lemma fold_left_insert_map_to_list {K A : Type} `{Countable K} (m : gmap K A) :
  fold_left (λ acc kv, <[kv.1 := kv.2]> acc) (map_to_list m) ∅ = m.
Proof.
  rewrite <- fold_left_rev_right.
  replace (rev (map_to_list m)) with (reverse (map_to_list m))
    by (unfold reverse; symmetry; apply rev_alt).
  change (list_to_map (reverse (map_to_list m)) = m).
  transitivity (list_to_map (map_to_list m) : gmap K A);
    [|apply list_to_map_to_list].
  symmetry. apply list_to_map_proper; [apply NoDup_fst_map_to_list|].
  symmetry. apply reverse_Permutation.
Qed.

Section TrendLaws.
Context {OneItemTrend : Type}.

(** The first trend put for a stage makes its entry. *)
Lemma putTrend_fresh (trends : gmap string (StageTrend OneItemTrend))
    stageId v itemId vv :
  trends !! stageId = None →
  putTrend trends stageId v itemId vv
  = <[stageId := {| st_StartTime := st_StartTime v;
                    st_Results := {[itemId := vv]} |}]> trends.
Proof.
  intros Hnone. unfold putTrend. rewrite Hnone.
  by rewrite alter_insert_eq.
Qed.

Lemma putTrend_present (trends : gmap string (StageTrend OneItemTrend))
    stageId st v itemId vv :
  trends !! stageId = Some st →
  putTrend trends stageId v itemId vv
  = <[stageId := {| st_StartTime := st_StartTime st;
                    st_Results := <[itemId := vv]> (st_Results st) |}]> trends.
Proof.
  intros Hsome. unfold putTrend. rewrite Hsome.
  apply map_eq. intros s. destruct (decide (s = stageId)) as [->|Hne].
  - by rewrite lookup_alter_eq, lookup_insert_eq, Hsome.
  - by rewrite lookup_alter_ne, lookup_insert_ne.
Qed.

Lemma itemTrends_step ctx (l : list (string * StageTrend OneItemTrend)) :
  NoDup l.*1 →
  ∀ s x,
    fold_left (λ trends sv,
      fold_left (λ trends iv,
        if decide (iv.1 ≠ Params ctx "itemId" EmptyString) then trends
        else putTrend trends sv.1 sv.2 iv.1 iv.2)
        (map_to_list (st_Results sv.2)) trends) l ∅ !! s = Some x
    ↔ ∃ v, (s, v) ∈ l ∧ itemTrendOf (Params ctx "itemId" EmptyString) v = Some x.
Proof.
  set (itemId := Params ctx "itemId" EmptyString).
  induction l as [|[s' v'] l IH] using rev_ind; intros Hnd s x.
  { simpl. rewrite lookup_empty. split; [done|].
    intros (v & Hin & _). by apply elem_of_nil in Hin. }
  rewrite fmap_app in Hnd. apply NoDup_app in Hnd as (Hnd & Hfresh & _).
  assert (s' ∉ l.*1) as Hs'.
  { intros Hin. apply (Hfresh _ Hin). simpl. left. }
  rewrite fold_left_app. cbn [fold_left fst snd].
  set (acc := fold_left _ l ∅) in *.
  assert (acc !! s' = None) as Hacc.
  { apply eq_None_not_Some. intros [y Hy].
    apply IH in Hy as (v & Hin & _); [|done].
    apply Hs'. apply list_elem_of_fmap. by exists (s', v). }
  rewrite (fold_left_map_one_key _ itemId); cycle 1.
  { intros a kv Hkv. by rewrite decide_True. }
  unfold itemTrendOf.
  setoid_rewrite elem_of_app. setoid_rewrite list_elem_of_singleton.
  destruct (st_Results v' !! itemId) as [vv|] eqn:Hvv.
  - cbn [fst snd]. rewrite decide_False by (intros Hne; by apply Hne).
    rewrite putTrend_fresh by done.
    destruct (decide (s = s')) as [->|Hne].
    + rewrite lookup_insert_eq. split.
      * intros [= <-]. exists v'. split; [by right|]. by rewrite Hvv.
      * intros (v & [Hin|[= ->]] & Hv).
        -- exfalso. apply Hs'. apply list_elem_of_fmap. by exists (s', v).
        -- rewrite Hvv in Hv. by simplify_eq/=.
    + rewrite lookup_insert_ne by done. rewrite IH by done. split.
      * intros (v & Hin & Hv). exists v. split; [by left|done].
      * intros (v & [Hin|[= -> ->]] & Hv); [eauto|done].
  - rewrite IH by done. split.
    + intros (v & Hin & Hv). exists v. split; [by left|done].
    + intros (v & [Hin|[= -> ->]] & Hv); [eauto|].
      by rewrite Hvv in Hv.
Qed.

Lemma itemTrends_lookup ctx (trend : gmap string (StageTrend OneItemTrend)) s :
  itemTrends ctx trend !! s
  = trend !! s ≫= itemTrendOf (Params ctx "itemId" EmptyString).
Proof.
  apply option_eq. intros x. unfold itemTrends.
  rewrite itemTrends_step by apply NoDup_fst_map_to_list.
  setoid_rewrite elem_of_map_to_list. rewrite bind_Some. naive_solver.
Qed.

Lemma stageLoop_inner (trends : gmap string (StageTrend OneItemTrend))
    stageId v (l : list (string * OneItemTrend)) :
  trends !! stageId = None →
  fold_left (λ trends iv, putTrend trends stageId v iv.1 iv.2) l trends
  = match l with
    | [] => trends
    | _ =>
      <[stageId := {| st_StartTime := st_StartTime v;
                      st_Results :=
                        fold_left (λ acc kv, <[kv.1 := kv.2]> acc) l ∅ |}]>
        trends
    end.
Proof.
  intros Hnone. destruct l as [|[i vv] l]; [done|].
  cbn [fold_left fst snd]. rewrite putTrend_fresh by done.
  rewrite insert_empty.
  generalize ({[i := vv]} : gmap string OneItemTrend) as results.
  induction l as [|[i' vv'] l IH]; intros results; [done|].
  cbn [fold_left fst snd].
  rewrite (putTrend_present _ _ _ _ _ _ (lookup_insert_eq _ _ _)).
  rewrite insert_insert_eq. cbn [st_StartTime st_Results]. apply IH.
Qed.

Lemma stageTrends_spec stageId (trend : gmap string (StageTrend OneItemTrend)) :
  stageTrends stageId trend
  = match trend !! stageId with
    | Some v => if decide (st_Results v = ∅) then ∅ else {[stageId := v]}
    | None => ∅
    end.
Proof.
  unfold stageTrends.
  rewrite (fold_left_map_one_key _ stageId); cycle 1.
  { intros a kv Hkv. by rewrite decide_True. }
  destruct (trend !! stageId) as [v|]; [|done].
  cbn [fst snd]. rewrite decide_False by (intros Hne; by apply Hne).
  rewrite stageLoop_inner by apply lookup_empty.
  destruct (map_to_list (st_Results v)) as [|iv l] eqn:Hl.
  - apply map_to_list_empty_iff in Hl. by rewrite decide_True.
  - rewrite decide_False; cycle 1.
    { intros Hempty. apply map_to_list_empty_iff in Hempty. congruence. }
    rewrite <- Hl, fold_left_insert_map_to_list.
    rewrite insert_empty. by destruct v.
Qed.

End TrendLaws.

Section ControllerLaws.
Context {OneItemTrend PatternBody ShimPatternResult : Type}.
Variable ValidServer : Ctx → string → option error.
Variable ValidCategory : Ctx → string → option error.
Variable GetAccountFromRequest : Ctx → Z + error.
Variable GetShimDropMatrix :
  string → bool → string → string → option Z → string →
  list ShimOneDropMatrixElement + error.
Variable GetShimTrend : string → gmap string (StageTrend OneItemTrend) + error.
Variable GetShimPatternMatrix :
  string → option Z → string → bool → ShimPatternResult + error.
Variable copierCopy :
  ShimPatternResult → list (OnePatternMatrixElement PatternBody).

(** X19.  When [AggregatedItem] answers, its matrix holds the elements of
    the item asked for alone, and its trends hold, for each stage whose
    trend has a result for that item, the start time of the stage and
    that one result; a stage without a result for the item is absent. *)
Theorem AggregatedItem_item_only (ctx : Ctx)
    (stats : AggregatedItemStats OneItemTrend) :
  AggregatedItem ValidServer ValidCategory GetAccountFromRequest
    GetShimDropMatrix GetShimTrend ctx = Ok stats →
  ∃ matrix trend,
    aggregateMatrix ValidServer ValidCategory GetAccountFromRequest
      GetShimDropMatrix ctx = Ok matrix
    ∧ aggregateTrend ValidServer GetShimTrend ctx = Ok trend
    ∧ ai_Matrix stats
      = filter (λ el, shim_ItemID el = Params ctx "itemId" EmptyString) matrix
    ∧ ∀ stageId,
        ai_Trends stats !! stageId
        = v ← trend !! stageId;
          vv ← st_Results v !! Params ctx "itemId" EmptyString;
          Some {| st_StartTime := st_StartTime v;
                  st_Results := {[Params ctx "itemId" EmptyString := vv]} |}.
Proof.
  unfold AggregatedItem.
  destruct (aggregateMatrix _ _ _ _ ctx) as [matrix| |]; [|done..].
  cbn [bind].
  destruct (aggregateTrend _ _ ctx) as [trend| |]; [|done..].
  cbn [bind]. intros [= <-]. exists matrix, trend.
  split; [done|]. split; [done|]. split; [done|].
  intros stageId. cbn [ai_Trends]. apply itemTrends_lookup.
Qed.

(** X20.  When [AggregatedStage] answers, its matrix and its patterns
    hold elements of the stage asked for alone, and its trends hold the
    trend of that stage alone, unchanged; they are empty when the stage
    has no trend or a trend without results. *)
Theorem AggregatedStage_stage_only (ctx : Ctx)
    (stats : AggregatedStageStats OneItemTrend PatternBody) :
  AggregatedStage ValidServer ValidCategory GetAccountFromRequest
    GetShimDropMatrix GetShimTrend GetShimPatternMatrix copierCopy ctx
  = Ok stats →
  ∃ trend,
    aggregateTrend ValidServer GetShimTrend ctx = Ok trend
    ∧ as_Trends stats
      = match trend !! Params ctx "stageId" EmptyString with
        | Some v =>
          if decide (st_Results v = ∅) then ∅
          else {[Params ctx "stageId" EmptyString := v]}
        | None => ∅
        end
    ∧ Forall (λ el, shim_StageID el = Params ctx "stageId" EmptyString)
        (as_Matrix stats)
    ∧ Forall (λ el, pm_StageID el = Params ctx "stageId" EmptyString)
        (as_Patterns stats).
Proof.
  unfold AggregatedStage.
  destruct (aggregateMatrix _ _ _ _ ctx) as [matrix| |]; [|done..].
  cbn [bind].
  destruct (aggregateTrend _ _ ctx) as [trend| |]; [|done..].
  cbn [bind].
  destruct (aggregatePattern _ _ _ _ ctx) as [pattern| |]; [|done..].
  cbn [bind]. intros [= <-]. exists trend.
  split; [done|]. split; [apply stageTrends_spec|].
  cbn [as_Matrix as_Patterns].
  split; apply Forall_forall; intros el Hel;
    by apply list_elem_of_filter in Hel as [? _].
Qed.

End ControllerLaws.

(** ** Instances of the laws on the sample request *)

Lemma AggregatedItem_item_only_witness :
  ∃ stats matrix trend,
    AggregatedItem valid_ex valid_ex account_ex shimMatrix_ex shimTrend_ex
      ctx_ex = Ok stats
    ∧ aggregateMatrix valid_ex valid_ex account_ex shimMatrix_ex ctx_ex
      = Ok matrix
    ∧ aggregateTrend valid_ex shimTrend_ex ctx_ex = Ok trend
    ∧ length matrix = 2%nat
    ∧ length (ai_Matrix stats) = 1%nat
    ∧ ai_Trends stats !! "main_01-07"
      = Some {| st_StartTime := 0; st_Results := {[ "30012" := 1 ]} |}
    ∧ ai_Trends stats !! "main_01-08" = None.
Proof.
  destruct (AggregatedItem_item_only valid_ex valid_ex account_ex
              shimMatrix_ex shimTrend_ex ctx_ex _ eq_refl)
    as (matrix & trend & Hmatrix & Htrend & Hfilter & Htrends).
  eexists _, matrix, trend. split; [reflexivity|].
  split; [exact Hmatrix|]. split; [exact Htrend|].
  injection Hmatrix as <-. injection Htrend as <-.
  split; [reflexivity|]. split; [reflexivity|].
  split; rewrite Htrends; reflexivity.
Defined.

Lemma AggregatedStage_stage_only_witness :
  ∃ stats,
    AggregatedStage valid_ex valid_ex account_ex shimMatrix_ex shimTrend_ex
      shimPattern_ex copier_ex ctx_ex = Ok stats
    ∧ as_Trends stats
      = {[ "main_01-07" :=
             {| st_StartTime := 0;
                st_Results := {[ "30012" := 1; "30013" := 2 ]} |} ]}
    ∧ Forall (λ el, shim_StageID el = "main_01-07") (as_Matrix stats)
    ∧ Forall (λ el, pm_StageID el = "main_01-07") (as_Patterns stats).
Proof.
  destruct (AggregatedStage_stage_only valid_ex valid_ex account_ex
              shimMatrix_ex shimTrend_ex shimPattern_ex copier_ex ctx_ex
              _ eq_refl)
    as (trend & Htrend & Htrends & Hmatrix & Hpatterns).
  eexists. split; [reflexivity|].
  injection Htrend as <-.
  split; [rewrite Htrends; reflexivity|]. split; [exact Hmatrix|exact Hpatterns].
Defined.

End DatasetLaws.
